(** * The empathetic code reviewer: a shallow embedding and its verification

    The development follows [empathetic_code_reviewer.py]:

    - [PyStr]: the Python string primitives the program calls
      ([str.strip], [str.split], [str.join], truthiness);
    - [Runtime]: exceptions, the log, the trace of calls to the external
      text-generation services, the object store, and the state-and-error
      monad in which the stateful methods are written;
    - [LanguageDetector], [EmpathyAnalyzer], [EmpatheticCodeReviewer]:
      the three classes, method by method.
    - [Program]: the constructor of the reviewer, which builds its
      collaborators and may fail, and [main].

    Conventions.  A Python [str] is a [string]; text outside ASCII is
    carried as its UTF-8 bytes, so the only blanks [str.strip] sees here are
    the ASCII ones, and a slice counts bytes: on text within ASCII
    ([is_ascii]) the model and Python agree.  Every exception of the model is an instance of
    Python's [Exception], so [except Exception] catches all of them.
    The regular-expression engine ([re.findall]) and the text-generation
    services are collaborators outside the program: the first is a
    variable of the sections below, the second are fields of the objects
    that hold them, and may answer differently at each call.

    The file has three parts: the program; readings of it and sample
    collaborators, used to state and to run the theorems; the facts. *)

From Stdlib Require Import Ascii String List Permutation Sorted Lia.
From stdpp Require Import base option list gmap strings pretty.

(** ** Python strings *)

Module PyStr.

(** ["\n"] and the double quote, which string literals here cannot spell. *)
Definition nl : string := String "010" "".
Definition dq : string := String "034" "".

(** [bool(s)] for a [str]. *)
Definition truthy (s : string) : bool :=
  match s with "" => false | _ => true end.

(** [c.isspace()] on the ASCII range: TAB, LF, VT, FF, CR, FS, GS, RS, US, SP.
    Python counts some characters outside ASCII as white space too (U+0085,
    U+00A0, U+2003 and the like); here they are bytes like any other. *)
Definition isspace (c : ascii) : bool :=
  let n := nat_of_ascii c in
  ((9 <=? n) && (n <=? 13)) || ((28 <=? n) && (n <=? 32)).

Fixpoint lstrip (s : string) : string :=
  match s with
  | "" => ""
  | String c s' => if isspace c then lstrip s' else s
  end.

Fixpoint rstrip (s : string) : string :=
  match s with
  | "" => ""
  | String c s' =>
      match rstrip s' with
      | "" => if isspace c then "" else String c ""
      | r => String c r
      end
  end.

(** [s.strip()] on ASCII text.  On other text it trims the ASCII blanks
    only, where Python also trims the white space outside ASCII. *)
Definition strip (s : string) : string := rstrip (lstrip s).

(** [s.split(sep)] for a one-character separator: always at least one
    piece, empty pieces kept. *)
Fixpoint split (sep : ascii) (s : string) : list string :=
  match s with
  | "" => [""]
  | String c s' =>
      if Ascii.eqb c sep then "" :: split sep s'
      else match split sep s' with
           | piece :: pieces => String c piece :: pieces
           | [] => [String c ""]
           end
  end.

(** [sep.join(pieces)] *)
Fixpoint join (sep : string) (pieces : list string) : string :=
  match pieces with
  | [] => ""
  | [piece] => piece
  | piece :: rest => piece +:+ sep +:+ join sep rest
  end.

(** [s[:n]] on ASCII text.  On other text it counts bytes, where Python
    counts characters. *)
Fixpoint slice_to (n : nat) (s : string) : string :=
  match n, s with
  | S n', String c s' => String c (slice_to n' s')
  | _, _ => ""
  end.

(** [s.startswith(p)] *)
Fixpoint startswith (p s : string) : bool :=
  match p, s with
  | "", _ => true
  | String a p', String b s' => Ascii.eqb a b && startswith p' s'
  | String _ _, "" => false
  end.

(** Concatenation of a list of strings, left to right. *)
Definition concat (pieces : list string) : string :=
  foldr String.append "" pieces.

End PyStr.

Import PyStr.

(** ** Exceptions, the world and the monad *)

Module Runtime.

(** The exception classes the program can meet.  [ServiceError] stands for
    whatever [Exception] an external service raises. *)
Inductive exn :=
| AttributeError (msg : string)
| TypeError (msg : string)
| KeyError (key : string)
| UnboundLocalError (name : string)
| SystemError (msg : string)
| ServiceError (msg : string).

(** [str(e)] *)
Definition exn_str (e : exn) : string :=
  match e with
  | AttributeError msg | TypeError msg | SystemError msg | ServiceError msg => msg
  | KeyError key => "'" +:+ key +:+ "'"
  | UnboundLocalError name =>
      "cannot access local variable '" +:+ name
      +:+ "' where it is not associated with a value"
  end.

Inductive outcome (A : Type) :=
| Ok (a : A)
| Raise (e : exn).
Global Arguments Ok {A} a.
Global Arguments Raise {A} e.

Inductive level := INFO | WARNING | ERROR.

(** One call to an external text-generation service, with its arguments. *)
Inductive call :=
| CallLM (prompt : string)
| CallEmpathy (code_snippet harsh_comment context : string)
| CallResources (topic language : string)
| CallSummary (code_snippet all_feedback language : string).

Definition loc := positive.

(** A callable language model: a prompt in, text out (or an exception). *)
Definition LM := list call -> string -> outcome string.

(** What [resources] can hold: [None], one string, or a list of strings. *)
Inductive Resources :=
| ResNone
| ResStr (text : string)
| ResList (items : list string).

(** A feedback dictionary.  Each of the six keys the program ever reads or
    writes is either absent ([None]) or bound. *)
Record Dict := mkDict {
  original : option string;
  positive_rephrasing : option string;
  explanation : option string;
  suggested_improvement : option string;
  severity : option string;
  resources : option Resources
}.

(** Objects of the store: dictionaries and lists of references. *)
Inductive obj :=
| ODict (d : Dict)
| OList (items : list loc).

(** The world a method runs in: the log written so far, the calls made to
    the services so far (oldest first), and the store of mutable objects. *)
Record World := mkWorld {
  log : list (level * string);
  trace : list call;
  heap : gmap loc obj
}.

Definition M (A : Type) : Type := World -> outcome A * World.

Definition ret {A} (a : A) : M A := fun w => (Ok a, w).
Definition raise {A} (e : exn) : M A := fun w => (Raise e, w).
Definition bind {A B} (m : M A) (k : A -> M B) : M B :=
  fun w => match m w with
           | (Ok a, w') => k a w'
           | (Raise e, w') => (Raise e, w')
           end.

(** [try: body except Exception as e: handler e] *)
Definition try_except {A} (body : M A) (handler : exn -> M A) : M A :=
  fun w => match body w with
           | (Ok a, w') => (Ok a, w')
           | (Raise e, w') => handler e w'
           end.

(** Code that touches no state runs in [outcome] alone. *)
Definition obind {A B} (r : outcome A) (k : A -> outcome B) : outcome B :=
  match r with
  | Ok a => k a
  | Raise e => Raise e
  end.

Definition lift {A} (r : outcome A) : M A := fun w => (r, w).

(** [logger.info], [logger.warning], [logger.error] *)
Definition logger (lv : level) (msg : string) : M unit :=
  fun w => (Ok tt, mkWorld (log w ++ [(lv, msg)]) (trace w) (heap w)).

(** Calling a service: its answer may depend on the calls made before;
    the call is recorded whether it answers or raises. *)
Definition invoke {A} (c : call) (answer : list call -> outcome A) : M A :=
  fun w => (answer (trace w), mkWorld (log w) (trace w ++ [c]) (heap w)).

(** Creating an object: it gets a reference no live object has. *)
Definition alloc (o : obj) : M loc :=
  fun w => let l := fresh (dom (heap w)) in
           (Ok l, mkWorld (log w) (trace w) (<[l := o]> (heap w))).

(** Following a reference.  Python has no dangling references; the model
    answers [SystemError] for one. *)
Definition deref (l : loc) : M obj :=
  fun w => match heap w !! l with
           | Some o => (Ok o, w)
           | None => (Raise (SystemError "dangling reference"), w)
           end.

(** Using a reference as a dictionary ([x.get], [x[...]]) or as a list
    ([x.sort], [x.append], iteration). *)
Definition deref_dict (l : loc) : M Dict :=
  bind (deref l) (fun o =>
    match o with
    | ODict d => ret d
    | OList _ => raise (AttributeError "'list' object is not a dict")
    end).

Definition deref_list (l : loc) : M (list loc) :=
  bind (deref l) (fun o =>
    match o with
    | OList items => ret items
    | ODict _ => raise (AttributeError "'dict' object is not a list")
    end).

Definition store_list (l : loc) (items : list loc) : M unit :=
  fun w => (Ok tt, mkWorld (log w) (trace w) (<[l := OList items]> (heap w))).

(** A loop that carries a local variable: [for x in xs: s = body s x]. *)
Fixpoint fold_m {A S} (body : S -> A -> M S) (s : S) (xs : list A) : M S :=
  match xs with
  | [] => ret s
  | x :: xs' => bind (body s x) (fun s' => fold_m body s' xs')
  end.

(** [enumerate(xs, start)] *)
Definition enumerate {A} (start : nat) (xs : list A) : list (nat * A) :=
  zip (seq start (length xs)) xs.

(** [for x in xs: body x] *)
Fixpoint for_each {A} (xs : list A) (body : A -> M unit) : M unit :=
  match xs with
  | [] => ret tt
  | x :: xs' => bind (body x) (fun _ => for_each xs' body)
  end.

(** [[f x for x in xs]] *)
Fixpoint map_m {A B} (f : A -> M B) (xs : list A) : M (list B) :=
  match xs with
  | [] => ret []
  | x :: xs' => bind (f x) (fun y => bind (map_m f xs') (fun ys => ret (y :: ys)))
  end.

(** [sorted] on decorated items: a stable sort on the keys.  [list.sort]
    is stable, and a stable sort has one possible result, so insertion
    from the right stands for it. *)
Fixpoint insert_key {A} (k : nat) (x : A) (l : list (nat * A)) : list (nat * A) :=
  match l with
  | [] => [(k, x)]
  | (k', y) :: l' =>
      if k <=? k' then (k, x) :: l else (k', y) :: insert_key k x l'
  end.

Definition sort_by_key {A} (l : list (nat * A)) : list (nat * A) :=
  foldr (fun kx acc => insert_key (fst kx) (snd kx) acc) [] l.

(** [lst.sort(key=key)]: the keys are computed first; if one of them
    raises, the list is left as it was. *)
Definition list_sort (lst : loc) (key : loc -> M nat) : M unit :=
  bind (deref_list lst) (fun items =>
  bind (map_m key items) (fun keys =>
  store_list lst (map snd (sort_by_key (zip keys items))))).

(** [lst.append(x)] *)
Definition list_append (lst : loc) (x : loc) : M unit :=
  bind (deref_list lst) (fun items => store_list lst (items ++ [x])).

(** A dictionary literal used as a table: [d.get(key, default)]. *)
Definition table_get {V} (d : list (string * V)) (key : string) (default : V) : V :=
  match List.find (fun kv => String.eqb (fst kv) key) d with
  | Some kv => snd kv
  | None => default
  end.

(** [{**d1, **d2}]: the bindings of [d2] win. *)
Definition dict_merge (d1 d2 : Dict) : Dict :=
  let pick {A} (f : Dict -> option A) :=
    match f d2 with Some v => Some v | None => f d1 end in
  mkDict (pick original) (pick positive_rephrasing) (pick explanation)
         (pick suggested_improvement) (pick severity) (pick resources).

(** [d[key]] *)
Definition getitem {A} (key : string) (field : option A) : outcome A :=
  match field with
  | Some v => Ok v
  | None => Raise (KeyError key)
  end.

(** [d.get(key, default)] *)
Definition get_default {A} (field : option A) (default : A) : A :=
  match field with
  | Some v => v
  | None => default
  end.

End Runtime.

Import Runtime.

Declare Scope py_scope.
Delimit Scope py_scope with py.
Notation "x <- m ;; k" := (bind m (fun x => k))
  (at level 100, m at next level, right associativity) : py_scope.
Notation "x <-? r ;; k" := (obind r (fun x => k))
  (at level 100, r at next level, right associativity) : py_scope.
Notation "m ;;; k" := (bind m (fun _ => k))
  (at level 100, right associativity) : py_scope.
Open Scope py_scope.

(** ** class LanguageDetector *)

Module LanguageDetector.

Inductive re_flag := IGNORECASE | MULTILINE.

Definition LANGUAGE_PATTERNS : list (string * list string) :=
  [ ("Python",
      [ "\bdef\s+\w+\s*\(";
        "\bimport\s+\w+";
        "\bfrom\s+\w+\s+import";
        "\bclass\s+\w+";
        "\bif\s+.*:";
        "\bfor\s+.*\s+in\s+";
        "\bwhile\s+.*:";
        "@\w+";
        "\bprint\s*\(";
        "\.py\b" ]);
    ("JavaScript",
      [ "\bfunction\s+\w+\s*\(";
        "\bconst\s+\w+\s*=";
        "\blet\s+\w+\s*=";
        "\bvar\s+\w+\s*=";
        "\b=>\s*{";
        "\bconsole\.log";
        "\bdocument\.getElementById";
        "\brequire\s*\(";
        "\.js\b" ]);
    ("Java",
      [ "\bpublic\s+class\s+\w+";
        "\bprivate\s+\w+\s+\w+";
        "\bpublic\s+static\s+void\s+main";
        "\bSystem\.out\.println";
        "\bimport\s+java\.";
        "\bextends\s+\w+";
        "\bimplements\s+\w+";
        "@Override";
        "\.java\b" ]);
    ("C++",
      [ "#include\s*<.*>";
        "\bint\s+main\s*\(";
        "\bstd::";
        "\bcout\s*<<";
        "\bcin\s*>>";
        "\bnamespace\s+\w+";
        "\.cpp\b|\.hpp\b" ]);
    ("C#",
      [ "\busing\s+\w+;";
        "\bnamespace\s+\w+";
        "\bpublic\s+class\s+\w+";
        "\bConsole\.WriteLine";
        "\bstring\s*\[";
        "\.cs\b" ]);
    ("TypeScript",
      [ "\binterface\s+\w+";
        "\btype\s+\w+\s*=";
        ":\s*\w+\s*=";
        "\bexport\s+interface";
        "\.ts\b|\.tsx\b" ]);
    ("Go",
      [ "\bpackage\s+\w+";
        "\bfunc\s+\w+\s*\(";
        "\bimport\s+\(";
        "\bvar\s+\w+\s+\w+";
        "\.go\b" ]);
    ("Rust",
      [ "\bfn\s+\w+\s*\(";
        "\blet\s+mut\s+\w+";
        "\buse\s+\w+";
        "\bimpl\s+\w+";
        "\.rs\b" ]) ].

(** The class object, which is what a classmethod receives as [self].
    Its body binds [LANGUAGE_PATTERNS] and the methods; [class_lm] is the
    class attribute [lm]: absent unless somebody assigns
    [LanguageDetector.lm]. *)
Record Class := mkClass {
  class_lm : option (option LM)
}.

(** The class as the source defines it: no class attribute [lm]. *)
Definition cls : Class := mkClass None.

(** An instance: its class, and the attribute [__init__] sets. *)
Record t := mk {
  class_of : Class;
  lm : option LM
}.

(** [LanguageDetector(lm_instance)] *)
Definition __init__ (lm_instance : option LM) : t := mk cls lm_instance.

(** [self.lm] inside a classmethod, where [self] is the class. *)
Definition class_getattr_lm (self : Class) : outcome (option LM) :=
  match class_lm self with
  | Some v => Ok v
  | None => Raise (AttributeError "type object 'LanguageDetector' has no attribute 'lm'")
  end.

(** [scores[language] = score] on a dictionary kept in insertion order. *)
Definition scores_set (language : string) (score : nat) (scores : list (string * nat))
  : list (string * nat) :=
  if existsb (fun kv => String.eqb (fst kv) language) scores
  then map (fun kv => if String.eqb (fst kv) language then (language, score) else kv) scores
  else scores ++ [(language, score)].

(** [scores.get] as the key of [max]; every key asked for is bound. *)
Definition scores_get (scores : list (string * nat)) (language : string) : nat :=
  table_get scores language 0.

(** [max(xs)] on a non-empty list of numbers *)
Definition max_value (xs : list nat) : nat := foldr Nat.max 0 xs.

(** [max(first :: rest, key=key)]: the first item whose key is largest. *)
Fixpoint max_by_key {A} (key : A -> nat) (best : A) (rest : list A) : A :=
  match rest with
  | [] => best
  | x :: rest' => max_by_key key (if key best <? key x then x else best) rest'
  end.

Section Detect.

(** [re.findall(pattern, code, flags)]: the matches, in order. *)
Context (re_findall : string -> string -> list re_flag -> list string).

(** The inner loop: [for pattern in patterns: score += len(matches)]. *)
Definition score_patterns (patterns : list string) (code : string) : nat :=
  foldl (fun score pattern =>
           let matches := re_findall pattern code [IGNORECASE; MULTILINE] in
           score + length matches)
        0 patterns.

(** The outer loop, filling [scores]. *)
Definition score_languages (code : string) : list (string * nat) :=
  foldl (fun scores entry =>
           scores_set (fst entry) (score_patterns (snd entry) code) scores)
        [] LANGUAGE_PATTERNS.

Definition detect_language_regex (code : string) : string :=
  if negb (truthy code) || negb (truthy (strip code)) then "Unknown"
  else
    let scores := score_languages code in
    match scores with
    | [] => "Unknown"
    | first :: rest =>
        if max_value (map snd scores) =? 0 then "Unknown"
        else
          let best_language := max_by_key (scores_get scores) (fst first) (map fst rest) in
          best_language
    end.

Definition prompt_for (code : string) : string :=
  nl +:+ "            Analyze the following code snippet and identify the programming language."
  +:+ nl +:+ "            Respond with only the language name (e.g., "
  +:+ dq +:+ "Python" +:+ dq +:+ ", " +:+ dq +:+ "JavaScript" +:+ dq +:+ ", "
  +:+ dq +:+ "Java" +:+ dq +:+ ", " +:+ dq +:+ "C++" +:+ dq +:+ ", "
  +:+ dq +:+ "C#" +:+ dq +:+ ", " +:+ dq +:+ "TypeScript" +:+ dq +:+ ", "
  +:+ dq +:+ "Go" +:+ dq +:+ ", " +:+ dq +:+ "Rust" +:+ dq +:+ ")."
  +:+ nl +:+ "            If you cannot determine the language, respond with "
  +:+ dq +:+ "Unknown" +:+ dq +:+ "."
  +:+ nl +:+ "            Code:"
  +:+ nl +:+ "            ```"
  +:+ nl +:+ "            " +:+ code
  +:+ nl +:+ "            ```"
  +:+ nl +:+ "            ".

(** A classmethod: [self] is the class, so [self.lm] is looked up on the
    class, and that lookup stands before the [try]. *)
Definition detect_language_llm (self : Class) (code : string) : M string :=
  self_lm <- lift (class_getattr_lm self) ;;
  match self_lm with
  | None => ret "Unknown"
  | Some the_lm =>
      try_except
        (let prompt := prompt_for code in
         response <- invoke (CallLM prompt) (fun history => the_lm history prompt) ;;
         let language := strip response in
         let known_languages := map fst LANGUAGE_PATTERNS ++ ["Unknown"] in
         if existsb (String.eqb language) known_languages then ret language
         else ret "Unknown")
        (fun e =>
           logger WARNING ("LLM language detection failed: " +:+ exn_str e) ;;;
           ret "Unknown")
  end.

Definition detect_language (self : t) (code : string) : M string :=
  let language := detect_language_regex code in
  if String.eqb language "Unknown" && bool_decide (is_Some (lm self)) then
    logger INFO "Regex detection failed, falling back to LLM" ;;;
    detect_language_llm (class_of self) code
  else ret language.

End Detect.

End LanguageDetector.

(** ** class EmpathyAnalyzer *)

(** What the [EmpathySignature] predictor returns. *)
Module EmpathySignature.
Record t := mk {
  positive_rephrasing : string;
  why_explanation : string;
  suggested_improvement : string;
  severity_level : string
}.
End EmpathySignature.

Module EmpathyAnalyzer.

(** The three predictors [__init__] builds; each is an external service. *)
Record t := mk {
  empathy_transformer :
    list call -> string -> string -> string -> outcome EmpathySignature.t;
  resource_finder : list call -> string -> string -> outcome Resources;
  summary_generator : list call -> string -> string -> string -> outcome string
}.

Definition call_empathy_transformer (self : t) (code_snippet harsh_comment context : string)
  : M EmpathySignature.t :=
  invoke (CallEmpathy code_snippet harsh_comment context)
         (fun history => empathy_transformer self history code_snippet harsh_comment context).

Definition call_resource_finder (self : t) (topic language : string) : M Resources :=
  invoke (CallResources topic language)
         (fun history => resource_finder self history topic language).

Definition call_summary_generator (self : t) (code_snippet all_feedback language : string)
  : M string :=
  invoke (CallSummary code_snippet all_feedback language)
         (fun history => summary_generator self history code_snippet all_feedback language).

(** The [except] branch only logs, so the method then falls off its end
    and returns [None]. *)
Definition forward (self : t) (code_snippet comment language : string) : M (option Dict) :=
  try_except
    (result <- call_empathy_transformer self code_snippet comment
                 (language +:+ " best practices and clean code principles") ;;
     resources <- call_resource_finder self
                    (slice_to 100 (EmpathySignature.why_explanation result)) language ;;
     ret (Some (mkDict None
                       (Some (EmpathySignature.positive_rephrasing result))
                       (Some (EmpathySignature.why_explanation result))
                       (Some (EmpathySignature.suggested_improvement result))
                       (Some (EmpathySignature.severity_level result))
                       (Some resources))))
    (fun e =>
       logger ERROR ("Error in empathy analysis: " +:+ exn_str e) ;;;
       ret None).

End EmpathyAnalyzer.

(** ** class EmpatheticCodeReviewer *)

Module EmpatheticCodeReviewer.

Record t := mk {
  lm : LM;
  analyzer : EmpathyAnalyzer.t;
  language_detector : LanguageDetector.t
}.

(** [__init__], given the language model [dspy.LM] built and the predictors
    [EmpathyAnalyzer()] holds. *)
Definition __init__ (the_lm : LM) (the_analyzer : EmpathyAnalyzer.t) : t :=
  mk the_lm the_analyzer (LanguageDetector.__init__ (Some the_lm)).

Record Input := mkInput {
  code_snippet : string;
  review_comments : list string
}.

Definition lang_map : list (string * string) :=
  [ ("Python", "python"); ("JavaScript", "javascript"); ("Java", "java");
    ("C++", "cpp"); ("C#", "csharp"); ("TypeScript", "typescript");
    ("Go", "go"); ("Rust", "rust"); ("Unknown", "text") ].

Definition severity_order : list (string * nat) :=
  [ ("HIGH", 0); ("MEDIUM", 1); ("LOW", 2) ].

Definition severity_emoji_table : list (string * string) :=
  [ ("HIGH", "ğŸ”´"); ("MEDIUM", "ğŸŸ¡"); ("LOW", "ğŸŸ¢") ].

(** [severity_order.get(x.get("severity", "MEDIUM"), 1)] *)
Definition severity_rank (x : Dict) : nat :=
  table_get severity_order (get_default (severity x) "MEDIUM") 1.

(** [bool(resources)] *)
Definition resources_truthy (r : Resources) : bool :=
  match r with
  | ResNone => false
  | ResStr text => truthy text
  | ResList items => match items with [] => false | _ => true end
  end.

(** [[line.strip() for line in resources.split('\n') if line.strip()]] *)
Definition resource_lines (text : string) : list string :=
  map strip (List.filter (fun line => truthy (strip line)) (split "010" text)).

(** Line 290: the heading of the optional subsection. *)
Definition resources_heading : string := "**ğŸ“– Learning Resources:**".

(** Lines 288-300: the optional list of learning resources. *)
Definition append_resources (report : string) (comment : Dict) : string :=
  let resources := get_default (resources comment) (ResList []) in
  if resources_truthy resources then
    let report := report +:+ (resources_heading +:+ nl) in
    let report :=
      match resources with
      | ResStr text =>
          foldl (fun report line => report +:+ ("- " +:+ line +:+ nl))
                report (resource_lines text)
      | ResList items =>
          foldl (fun report resource =>
                   if truthy resource && truthy (strip resource)
                   then report +:+ ("- " +:+ strip resource +:+ nl)
                   else report)
                report items
      | ResNone => report
      end in
    report +:+ nl
  else report.

(** The body of the loop of lines 274-300 for the [i]-th comment, once the
    reference has been followed: what it adds to [report]. *)
Definition comment_section (code_lang : string) (report : string) (i : nat) (comment : Dict)
  : outcome string :=
  let severity_emoji :=
    table_get severity_emoji_table (get_default (severity comment) "MEDIUM") "ğŸŸ¡" in
  let report := report +:+ ("---" +:+ nl +:+ nl) in
  original_v <-? getitem "original" (original comment) ;;
  let report := report +:+ ("### " +:+ severity_emoji +:+ " Analysis of Comment #"
                            +:+ pretty i +:+ ": " +:+ dq +:+ original_v +:+ dq
                            +:+ nl +:+ nl) in
  positive_rephrasing_v <-? getitem "positive_rephrasing" (positive_rephrasing comment) ;;
  let report := report +:+ ("**âœ¨ Positive Rephrasing:**" +:+ nl +:+ positive_rephrasing_v +:+ nl +:+ nl) in
  explanation_v <-? getitem "explanation" (explanation comment) ;;
  let report := report +:+ ("**ğŸ“š The 'Why':**" +:+ nl +:+ explanation_v +:+ nl +:+ nl) in
  suggested_improvement_v <-? getitem "suggested_improvement" (suggested_improvement comment) ;;
  let report := report +:+ ("**ğŸ”§ Suggested Improvement:**" +:+ nl +:+ "```" +:+ code_lang +:+ nl
                            +:+ suggested_improvement_v +:+ nl +:+ "```" +:+ nl +:+ nl) in
  Ok (append_resources report comment).

Definition append_comment (code_lang : string) (report : string) (i : nat) (ref : loc)
  : M string :=
  comment <- deref_dict ref ;;
  lift (comment_section code_lang report i comment).

(** Lines 253-269: everything before the feedback sections. *)
Definition report_head (code_snippet language code_lang : string) : string :=
  let report := "# ğŸŒŸ Code Review Feedback Report" +:+ nl +:+ nl in
  let report := report +:+ ("**Programming Language Detected:** " +:+ language +:+ nl +:+ nl) in
  let report := report +:+ ("## ğŸ“ Original Code" +:+ nl +:+ nl) in
  let report := report +:+ ("```" +:+ code_lang +:+ nl +:+ code_snippet +:+ nl
                            +:+ "```" +:+ nl +:+ nl) in
  let report := report +:+ ("## ğŸ’¡ Detailed Feedback" +:+ nl +:+ nl) in
  report.

(** Lines 302-306: everything after them. *)
Definition report_tail (report summary : string) : string :=
  let report := report +:+ ("---" +:+ nl +:+ nl) in
  let report := report +:+ ("## ğŸ¯ Overall Summary" +:+ nl +:+ nl) in
  let report := report +:+ (summary +:+ nl +:+ nl) in
  let report := report +:+ ("---" +:+ nl +:+ nl) in
  let report := report +:+ ("*Remember: Every expert was once a beginner. Keep coding, keep learning, and keep growing! ğŸš€*" +:+ nl) in
  report.

Definition generate_markdown_report
    (code_snippet : string) (comments : loc) (summary language : string) : M string :=
  let code_lang := table_get lang_map language "text" in
  let report := report_head code_snippet language code_lang in
  list_sort comments (fun ref => x <- deref_dict ref ;; ret (severity_rank x)) ;;;
  items <- deref_list comments ;;
  report <- fold_m (fun report entry => append_comment code_lang report (fst entry) (snd entry))
                   report (enumerate 1 items) ;;
  ret (report_tail report summary).

(** [{ "original": comment, **result }] *)
Definition dict_display (comment : string) (result : option Dict) : outcome Dict :=
  match result with
  | Some bindings => Ok (dict_merge (mkDict (Some comment) None None None None None) bindings)
  | None => Raise (TypeError "'NoneType' object is not a mapping")
  end.

(** The record of lines 230-237. *)
Definition fallback_record (comment : string) : Dict :=
  mkDict (Some comment)
         (Some ("Let's look at improving this aspect: " +:+ comment))
         (Some "This change will improve code quality.")
         (Some "# See suggested improvement in code")
         (Some "MEDIUM")
         (Some (ResList [])).

(** Reading the local variable [summary], bound only if the [try] of
    lines 239-242 ran to its end. *)
Definition read_local (name : string) (binding : option string) : outcome string :=
  match binding with
  | Some v => Ok v
  | None => Raise (UnboundLocalError name)
  end.

Section Review.

Context (re_findall : string -> string -> list LanguageDetector.re_flag -> list string).

(** The body of the loop of lines 223-237. *)
Definition process_comment
    (self : t) (code_snippet language : string) (total : nat)
    (transformed_comments : loc) (i : nat) (comment : string) : M unit :=
  logger INFO ("Processing comment " +:+ pretty (i + 1) +:+ "/" +:+ pretty total) ;;;
  try_except
    (result <- EmpathyAnalyzer.forward (analyzer self) code_snippet comment language ;;
     d <- lift (dict_display comment result) ;;
     ref <- alloc (ODict d) ;;
     list_append transformed_comments ref)
    (fun e =>
       logger ERROR ("Error processing comment '" +:+ comment +:+ "': " +:+ exn_str e) ;;;
       ref <- alloc (ODict (fallback_record comment)) ;;
       list_append transformed_comments ref).

Definition process_review (self : t) (input_data : Input) : M string :=
  let code_snippet := code_snippet input_data in
  let review_comments := review_comments input_data in
  language <- LanguageDetector.detect_language re_findall (language_detector self) code_snippet ;;
  logger INFO ("Detected language: " +:+ language) ;;;
  transformed_comments <- alloc (OList []) ;;
  for_each (enumerate 0 review_comments)
           (fun entry => process_comment self code_snippet language (length review_comments)
                                         transformed_comments (fst entry) (snd entry)) ;;;
  items <- deref_list transformed_comments ;;
  bullets <- map_m (fun ref =>
                      tc <- deref_dict ref ;;
                      v <- lift (getitem "positive_rephrasing" (positive_rephrasing tc)) ;;
                      ret ("- " +:+ v))
                   items ;;
  let all_feedback := join nl bullets in
  summary <- try_except
               (summary_result <- EmpathyAnalyzer.call_summary_generator (analyzer self)
                                    code_snippet all_feedback language ;;
                ret (Some summary_result))
               (fun e =>
                  logger ERROR ("Error generating summary: " +:+ exn_str e) ;;;
                  ret None) ;;
  summary_v <- lift (read_local "summary" summary) ;;
  report <- generate_markdown_report code_snippet transformed_comments summary_v language ;;
  logger INFO "Successfully generated empathetic review report" ;;;
  ret report.

End Review.

End EmpatheticCodeReviewer.

(** ** Readings of the program

    Pure functions that read off what the stateful methods compute; the
    lemmas below relate each of them to the method it reads. *)

Module Reading.

Import LanguageDetector EmpatheticCodeReviewer.

(** [blank code]: [code] is empty or made of white space only. *)
Fixpoint blank (s : string) : bool :=
  match s with
  | "" => true
  | String c s' => isspace c && blank s'
  end.

(** The count of matches of one pattern, and the score the specification
    gives a language: the sum of the counts of its patterns. *)
Definition match_count (re_findall : string -> string -> list re_flag -> list string)
    (pattern code : string) : nat :=
  length (re_findall pattern code [IGNORECASE; MULTILINE]).

Definition language_score (re_findall : string -> string -> list re_flag -> list string)
    (code : string) (patterns : list string) : nat :=
  sum_list (map (fun pattern => match_count re_findall pattern code) patterns).

(** A world with nothing in it but the calls made so far. *)
Definition world_at (history : list call) : World := mkWorld [] history ∅.

(** The world once line 153 has logged the fallback. *)
Definition fallback_logged (w : World) : World :=
  mkWorld (log w ++ [(INFO, "Regex detection failed, falling back to LLM")])
          (trace w) (heap w).

(** A computation that leaves the world as it found it. *)
Definition reads {A} (m : M A) : Prop := forall w, snd (m w) = w.

(** The store holds the dictionaries [ds] behind the references [items]. *)
Definition refs_to (h : gmap loc obj) (items : list loc) (ds : list Dict) : Prop :=
  Forall2 (fun r d => h !! r = Some (ODict d)) items ds.

(** The four keys the renderer subscripts are bound. *)
Definition has_required_keys (d : Dict) : Prop :=
  is_Some (original d) /\ is_Some (positive_rephrasing d) /\
  is_Some (explanation d) /\ is_Some (suggested_improvement d).

(** The severity rank of what a reference leads to. *)
Definition rank_at (h : gmap loc obj) (r : loc) : nat :=
  match h !! r with
  | Some (ODict d) => severity_rank d
  | _ => 1
  end.

(** The order of the keys, on decorated items. *)
Definition key_le {A} (a b : nat * A) : Prop := fst a <= fst b.

(** Two decorated items with one key and related payloads. *)
Definition related_by {B C} (R : B -> C -> Prop) (a : nat * B) (b : nat * C) : Prop :=
  fst a = fst b /\ R (snd a) (snd b).

(** Sorting by a rank: decorate, sort on the keys, undecorate. *)
Definition sort_on {B} (rank : B -> nat) (xs : list B) : list B :=
  map snd (sort_by_key (map (fun x => (rank x, x)) xs)).

(** [comments.sort(key=...)] read on the dictionaries themselves, *)
Definition sort_comments (ds : list Dict) : list Dict :=
  sort_on severity_rank ds.

(** and on the references, in a given store. *)
Definition sort_refs (h : gmap loc obj) (items : list loc) : list loc :=
  sort_on (rank_at h) items.

(** The loop of lines 274-300 on dictionaries. *)
Fixpoint render_comments (code_lang report : string) (i : nat) (ds : list Dict)
  : outcome string :=
  match ds with
  | [] => Ok report
  | d :: ds' =>
      report' <-? comment_section code_lang report i d ;;
      render_comments code_lang report' (S i) ds'
  end.

(** The whole report for dictionaries already in their final order. *)
Definition render_report (code_snippet language summary : string) (ds : list Dict)
  : outcome string :=
  let code_lang := table_get lang_map language "text" in
  report <-? render_comments code_lang (report_head code_snippet language code_lang) 1 ds ;;
  Ok (report_tail report summary).

(** The text of one feedback section: what [comment_section] adds. *)
Definition section_text (code_lang : string) (i : nat) (d : Dict) : string :=
  match comment_section code_lang "" i d with
  | Ok s => s
  | Raise _ => ""
  end.

(** The feedback sections of a report, numbered from 1. *)
Definition sections (code_lang : string) (ds : list Dict) : list string :=
  imap (fun k d => section_text code_lang (S k) d) ds.

(** A report as head, sections, tail. *)
Definition report_of_sections (code_snippet language summary : string)
    (parts : list string) : string :=
  report_tail
    (report_head code_snippet language (table_get lang_map language "text")
     +:+ concat parts)
    summary.

(** What [forward] returns and which calls it has made, given the calls
    made before it. *)
Definition forward_result (a : EmpathyAnalyzer.t) (history : list call)
    (code_snippet comment language : string) : option Dict :=
  match fst (EmpathyAnalyzer.forward a code_snippet comment language (world_at history)) with
  | Ok v => v
  | Raise _ => None
  end.

Definition forward_history (a : EmpathyAnalyzer.t) (history : list call)
    (code_snippet comment language : string) : list call :=
  trace (snd (EmpathyAnalyzer.forward a code_snippet comment language (world_at history))).

(** The record [process_review] keeps for one comment. *)
Definition record_for (a : EmpathyAnalyzer.t) (history : list call)
    (code_snippet language comment : string) : Dict :=
  match forward_result a history code_snippet comment language with
  | Some bindings => dict_merge (mkDict (Some comment) None None None None None) bindings
  | None => fallback_record comment
  end.

(** The records for a list of comments, each transformed after the ones
    before it, and the calls made by the end. *)
Fixpoint transformed (a : EmpathyAnalyzer.t) (history : list call)
    (code_snippet language : string) (comments : list string) : list Dict :=
  match comments with
  | [] => []
  | comment :: rest =>
      record_for a history code_snippet language comment
      :: transformed a (forward_history a history code_snippet comment language)
                     code_snippet language rest
  end.

Fixpoint history_after (a : EmpathyAnalyzer.t) (history : list call)
    (code_snippet language : string) (comments : list string) : list call :=
  match comments with
  | [] => history
  | comment :: rest =>
      history_after a (forward_history a history code_snippet comment language)
                    code_snippet language rest
  end.

(** Line 238. *)
Definition all_feedback_of (ds : list Dict) : string :=
  join nl (map (fun d => "- " +:+ get_default (positive_rephrasing d) "") ds).

(** A line that starts with three backquotes opens or closes a fence. *)
Definition is_fence (line : string) : bool := startswith "```" line.

(** The lines of a block, up to the fence that closes it. *)
Fixpoint fence_body (lines : list string) : option (list string) :=
  match lines with
  | [] => None
  | line :: rest =>
      if is_fence line then Some []
      else option_map (cons line) (fence_body rest)
  end.

(** The lines of the first block: those after the first fence. *)
Fixpoint first_fence (lines : list string) : option (list string) :=
  match lines with
  | [] => None
  | line :: rest => if is_fence line then fence_body rest else first_fence rest
  end.

(** Modelled from the spec: the repository has no reader for its reports,
    so "re-parsing the first fenced code block out of the report" is read
    as: the lines after the first line that starts with three backquotes,
    up to the next such line, joined by newlines. *)
Definition parse_code_fence (report : string) : option string :=
  option_map (join nl) (first_fence (split "010" report)).

(** No line of [s] starts a fence. *)
Definition fence_free (s : string) : Prop :=
  Forall (fun line => is_fence line = false) (split "010" s).


(** The bullets of a list of lines. *)
Definition bullets (lines : list string) : string :=
  concat (map (fun line => "- " +:+ line +:+ nl) lines).


(** All six keys of a feedback dictionary are bound. *)
Definition has_all_keys (d : Dict) : Prop :=
  has_required_keys d /\ is_Some (severity d) /\ is_Some (resources d).

(** A call to one of the two predictors [forward] uses. *)
Definition is_analysis_call (c : call) : bool :=
  match c with
  | CallEmpathy _ _ _ | CallResources _ _ => true
  | _ => false
  end.

(** The keys the renderer subscripts (lines 282-285). *)
Definition required_keys : list string :=
  ["original"; "positive_rephrasing"; "explanation"; "suggested_improvement"].

(** [c in s], for a character. *)
Fixpoint has_char (c : ascii) (s : string) : bool :=
  match s with
  | "" => false
  | String x s' => Ascii.eqb x c || has_char c s'
  end.

(** The emoji that goes with a rank of [severity_order]. *)
Definition rank_emoji (rank : nat) : string :=
  match rank with
  | 0 => "ğŸ”´"
  | 1 => "ğŸŸ¡"
  | _ => "ğŸŸ¢"
  end.

(** What [forward] adds to the log, given the calls made before it. *)
Definition forward_log (a : EmpathyAnalyzer.t) (history : list call)
    (code_snippet comment language : string) : list (level * string) :=
  log (snd (EmpathyAnalyzer.forward a code_snippet comment language (world_at history))).

(** The progress line of line 224 for the comment at index [i]. *)
Definition progress_entry (total i : nat) : level * string :=
  (INFO, "Processing comment " +:+ pretty (i + 1) +:+ "/" +:+ pretty total).

Definition is_info (entry : level * string) : bool :=
  match fst entry with INFO => true | _ => false end.

Definition is_error (entry : level * string) : bool :=
  match fst entry with ERROR => true | _ => false end.

(** The comments on which [forward] returns [None], each transformed after
    the ones before it. *)
Fixpoint failed (a : EmpathyAnalyzer.t) (history : list call)
    (code_snippet language : string) (comments : list string) : list string :=
  match comments with
  | [] => []
  | comment :: rest =>
      match forward_result a history code_snippet comment language with
      | Some _ => []
      | None => [comment]
      end
      ++ failed a (forward_history a history code_snippet comment language)
                code_snippet language rest
  end.

(** Text within ASCII: every character is below 128.  On such text a
    character of Python is a character of the model, and [strip], [split]
    and [slice_to] are [str.strip], [str.split] and slicing. *)
Fixpoint is_ascii (s : string) : bool :=
  match s with
  | "" => true
  | String c s' => (nat_of_ascii c <? 128) && is_ascii s'
  end.



End Reading.

Import Reading.

(** ** Sample collaborators

    Concrete services and inputs on which the statements below are run. *)

Module Samples.

Import LanguageDetector.

(** A matcher for the fragment of regular expressions that
    [LANGUAGE_PATTERNS] is written in: literals, escapes, [.], [\s], [\w],
    [\b], the greedy [+] and [*] on one character, and [|] between
    branches; on ASCII text.  It stands for [re.findall] in the runs
    below. *)
Inductive atom := Lit (c : ascii) | AnyChar | Space | Word.
Inductive item := Boundary | One (a : atom) | Many (min : nat) (a : atom).

Definition is_word (c : ascii) : bool :=
  let n := nat_of_ascii c in
  ((48 <=? n) && (n <=? 57)) || ((65 <=? n) && (n <=? 90))
  || ((97 <=? n) && (n <=? 122)) || (n =? 95).

Definition lower (c : ascii) : ascii :=
  let n := nat_of_ascii c in
  if (65 <=? n) && (n <=? 90) then ascii_of_nat (n + 32) else c.

Definition atom_ok (ignore_case : bool) (a : atom) (c : ascii) : bool :=
  match a with
  | Lit x => if ignore_case then Ascii.eqb (lower x) (lower c) else Ascii.eqb x c
  | AnyChar => negb (Ascii.eqb c "010")
  | Space => isspace c
  | Word => is_word c
  end.

Definition escaped (c : ascii) : item :=
  if Ascii.eqb c "b" then Boundary
  else if Ascii.eqb c "s" then One Space
  else if Ascii.eqb c "w" then One Word
  else One (Lit c).

Definition repeated (min : nat) (items : list item) : list item :=
  match items with
  | One a :: rest => Many min a :: rest
  | _ => items
  end.

(** The branches of a pattern; [cur] is the branch being read, last item
    first. *)
Fixpoint parse (pattern : string) (after_backslash : bool) (cur : list item)
    (branches : list (list item)) : list (list item) :=
  match pattern with
  | "" => rev (rev cur :: branches)
  | String c rest =>
      if after_backslash then parse rest false (escaped c :: cur) branches
      else if Ascii.eqb c "\" then parse rest true cur branches
      else if Ascii.eqb c "|" then parse rest false [] (rev cur :: branches)
      else if Ascii.eqb c "+" then parse rest false (repeated 1 cur) branches
      else if Ascii.eqb c "*" then parse rest false (repeated 0 cur) branches
      else if Ascii.eqb c "." then parse rest false (One AnyChar :: cur) branches
      else parse rest false (One (Lit c) :: cur) branches
  end.

Definition at_boundary (prev : option ascii) (s : string) : bool :=
  xorb (match prev with Some c => is_word c | None => false end)
       (match s with String c _ => is_word c | "" => false end).

(** Matching returns the number of characters consumed.  [many] takes the
    longest run first and gives characters back one at a time. *)
Fixpoint many (ic : bool) (a : atom) (k : option ascii -> string -> option nat)
    (min : nat) (prev : option ascii) (s : string) : option nat :=
  match s with
  | String c s' =>
      if atom_ok ic a c then
        match many ic a k (pred min) (Some c) s' with
        | Some n => Some (S n)
        | None => if min =? 0 then k prev s else None
        end
      else if min =? 0 then k prev s else None
  | "" => if min =? 0 then k prev s else None
  end.

Fixpoint match_items (ic : bool) (items : list item) (prev : option ascii) (s : string)
  : option nat :=
  match items with
  | [] => Some 0
  | Boundary :: rest => if at_boundary prev s then match_items ic rest prev s else None
  | One a :: rest =>
      match s with
      | String c s' =>
          if atom_ok ic a c then option_map S (match_items ic rest (Some c) s') else None
      | "" => None
      end
  | Many min a :: rest => many ic a (match_items ic rest) min prev s
  end.

Fixpoint match_branches (ic : bool) (branches : list (list item)) (prev : option ascii)
    (s : string) : option nat :=
  match branches with
  | [] => None
  | branch :: rest =>
      match match_items ic branch prev s with
      | Some n => Some n
      | None => match_branches ic rest prev s
      end
  end.

(** The scan: leftmost matches, none overlapping; [skip] characters still
    belong to the last match. *)
Fixpoint scan (ic : bool) (branches : list (list item)) (prev : option ascii)
    (s : string) (skip : nat) : list string :=
  match s with
  | "" =>
      match skip, match_branches ic branches prev s with
      | 0, Some _ => [""]
      | _, _ => []
      end
  | String c s' =>
      match skip with
      | S k => scan ic branches (Some c) s' k
      | 0 =>
          match match_branches ic branches prev s with
          | Some n => slice_to n s :: scan ic branches (Some c) s' (pred n)
          | None => scan ic branches (Some c) s' 0
          end
      end
  end.

Definition findall (pattern code : string) (flags : list re_flag) : list string :=
  let ic := existsb (fun f => match f with IGNORECASE => true | _ => false end) flags in
  scan ic (parse pattern false [] []) None code 0.

(** The snippet and the comments of [main]. *)
Definition example_snippet : string :=
  "def get_active_users(users):" +:+ nl +:+
  "    results = []" +:+ nl +:+
  "    for u in users:" +:+ nl +:+
  "        if u.is_active == True and u.profile_complete == True:" +:+ nl +:+
  "            results.append(u)" +:+ nl +:+
  "    return results".

Definition example_comments : list string :=
  [ "This is inefficient. Don't loop twice conceptually.";
    "Variable 'u' is a bad name.";
    "Boolean comparison '== True' is redundant." ].

(** A language model that always answers "Python". *)
Definition lm_python : LM := fun history prompt => Ok "Python".

(** Predictors that answer: the comment on the variable name is HIGH, the
    others LOW; the resources come as one string of three lines, the
    middle one blank. *)
Definition answering : EmpathyAnalyzer.t :=
  EmpathyAnalyzer.mk
    (fun history code_snippet harsh_comment context =>
       Ok (EmpathySignature.mk ("Consider this: " +:+ harsh_comment)
                               "Readable code is easier to maintain."
                               "users = [u for u in users if u.is_active]"
                               (if String.eqb harsh_comment "Variable 'u' is a bad name."
                                then "HIGH" else "LOW")))
    (fun history topic language =>
       Ok (ResStr ("https://peps.python.org/pep-0008/" +:+ nl +:+ " " +:+ nl
                   +:+ "  https://docs.python.org/3/  ")))
    (fun history code_snippet all_feedback language => Ok "Well done overall.").

(** The same, with a transformer that raises on one comment. *)
Definition failing_on (bad : string) : EmpathyAnalyzer.t :=
  EmpathyAnalyzer.mk
    (fun history code_snippet harsh_comment context =>
       if String.eqb harsh_comment bad then Raise (ServiceError "rate limit")
       else EmpathyAnalyzer.empathy_transformer answering history code_snippet
              harsh_comment context)
    (EmpathyAnalyzer.resource_finder answering)
    (EmpathyAnalyzer.summary_generator answering).

(** The same, with a summary generator that raises. *)
Definition no_summary : EmpathyAnalyzer.t :=
  EmpathyAnalyzer.mk
    (EmpathyAnalyzer.empathy_transformer answering)
    (EmpathyAnalyzer.resource_finder answering)
    (fun history code_snippet all_feedback language => Raise (ServiceError "timeout")).

Definition empty_world : World := mkWorld [] [] ∅.

Definition example_input : EmpatheticCodeReviewer.Input :=
  EmpatheticCodeReviewer.mkInput example_snippet example_comments.

(** A snippet no pattern matches, and one that holds a fence line. *)
Definition plain_snippet : string := "x = 1".
Definition fenced_snippet : string := "x" +:+ nl +:+ "```" +:+ nl +:+ "y".

(** Resources as one string whose middle line is a single space. *)
Definition three_lines : string := "a" +:+ nl +:+ " " +:+ nl +:+ "b".

(** Four comments of severities LOW, HIGH, MEDIUM, HIGH in a store, behind
    the list at reference 1. *)
Definition comment_with (text sev : string) (res : option Resources) : Dict :=
  mkDict (Some text) (Some ("Consider: " +:+ text)) (Some "Because.") (Some "pass")
         (Some sev) res.

Definition four_comments : list Dict :=
  [ comment_with "first" "LOW" None;
    comment_with "second" "HIGH" (Some (ResList ["a"; "  "; " b "]));
    comment_with "third" "MEDIUM" (Some (ResStr three_lines));
    comment_with "fourth" "HIGH" (Some ResNone) ].

Definition four_refs : list loc := [2; 3; 4; 5]%positive.

Definition four_world : World :=
  mkWorld [] []
    (list_to_map ((1%positive, OList four_refs) :: zip four_refs (map ODict four_comments))).

(** A store with an empty list of comments at reference 1. *)
Definition no_comments_world : World :=
  mkWorld [] [] {[ 1%positive := OList [] ]}.


(** A detector whose class binds [lm]. *)
Definition bound_detector : LanguageDetector.t :=
  LanguageDetector.mk (LanguageDetector.mkClass (Some (Some lm_python))) (Some lm_python).

(** A comment whose resources are blanks on two lines. *)
Definition blank_resources : Dict :=
  comment_with "fifth" "LOW" (Some (ResStr (" " +:+ nl +:+ "  "))).

End Samples.

(** ** Construction and [main]

    The code around the three classes: the constructor of the reviewer,
    which builds its collaborators and may fail, and [main], which runs
    one review and writes the report out. *)

Module Program.

Import EmpatheticCodeReviewer.

(** A call to standard output or to the file system. *)
Inductive io_call :=
| CallPrint (text : string)
| CallOpen (name mode : string)
| CallWrite (name content : string)
| CallClose (name : string).

(** What lies outside the program: the environment variables, the library
    that builds the language model and the predictors, and the operating
    system, whose answer to an output call may depend on the calls made
    before it. *)
Record Env := mkEnv {
  getenv : string -> option string;
  dspy_LM : option string -> outcome LM;
  dspy_configure : LM -> outcome unit;
  EmpathyAnalyzer_new : outcome EmpathyAnalyzer.t;
  os_answer : list io_call -> io_call -> outcome unit
}.

(** [EmpatheticCodeReviewer()], lines 202-214.  Of the arguments of
    [dspy.LM] only the key varies: it is read from the environment; the
    others are constants.  The predictors are built outside the [try]. *)
Definition __init__ (env : Env) : M EmpatheticCodeReviewer.t :=
  self_lm <- try_except
               (the_lm <- lift (dspy_LM env (getenv env "OPENROUTER_API_KEY")) ;;
                lift (dspy_configure env the_lm) ;;;
                logger INFO "Successfully initialized language model" ;;;
                ret the_lm)
               (fun e =>
                  logger ERROR ("Failed to initialize language model: " +:+ exn_str e) ;;;
                  raise e) ;;
  self_analyzer <- lift (EmpathyAnalyzer_new env) ;;
  ret (EmpatheticCodeReviewer.__init__ self_lm self_analyzer).

(** The process [main] runs in: the world of the methods, and the output
    calls made so far, oldest first.  What the log handlers write is the
    log of the world. *)
Record Process := mkProcess {
  world : World;
  io : list io_call
}.

(** How [main] ends: it returns, it leaves through [sys.exit], or an
    exception leaves it. *)
Inductive status :=
| Returned
| Exited (code : nat)
| Uncaught (e : exn).

Definition IO (A : Type) : Type := Process -> outcome A * Process.

Definition io_bind {A B} (m : IO A) (k : A -> IO B) : IO B :=
  fun p => match m p with
           | (Ok a, p') => k a p'
           | (Raise e, p') => (Raise e, p')
           end.

(** A method of the classes, run inside the process. *)
Definition run {A} (m : M A) : IO A :=
  fun p => (fst (m (world p)), mkProcess (snd (m (world p))) (io p)).

(** An output call: recorded whether it succeeds or raises. *)
Definition os_call (env : Env) (c : io_call) : IO unit :=
  fun p => (os_answer env (io p) c, mkProcess (world p) (io p ++ [c])).

(** [print(text)] *)
Definition print (env : Env) (text : string) : IO unit := os_call env (CallPrint text).

(** [with open(name, "w", encoding="utf-8") as f: f.write(content)]: the
    file is closed whether or not the write raises. *)
Definition write_text (env : Env) (name content : string) : IO unit :=
  io_bind (os_call env (CallOpen name "w")) (fun _ =>
  fun p => match os_call env (CallWrite name content) p with
           | (Ok _, p1) => os_call env (CallClose name) p1
           | (Raise e, p1) =>
               match os_call env (CallClose name) p1 with
               | (Ok _, p2) => (Raise e, p2)
               | (Raise e', p2) => (Raise e', p2)
               end
           end).

Section Main.

Context (re_findall : string -> string -> list LanguageDetector.re_flag -> list string).

(** Lines 314-326. *)
Definition example_input : Input :=
  mkInput Samples.example_snippet Samples.example_comments.

(** The [try] of lines 328-339. *)
Definition main_try (env : Env) : IO unit :=
  io_bind (run (__init__ env)) (fun reviewer =>
  io_bind (run (logger INFO "Processing code review...")) (fun _ =>
  io_bind (run (process_review re_findall reviewer example_input)) (fun report =>
  io_bind (print env (nl +:+ report)) (fun _ =>
  io_bind (write_text env "empathetic_review_output.md" report) (fun _ =>
  print env (nl +:+ "âœ… Report saved to empathetic_review_output.md")))))).

(** [sys.exit] raises [SystemExit], which is no [Exception]: the handler
    of line 341 does not catch it, and nothing else does. *)
Definition main (env : Env) (p : Process) : status * Process :=
  let api_key := getenv env "OPENROUTER_API_KEY" in
  if negb (match api_key with Some key => truthy key | None => false end) then
    match print env "Please set OPENROUTER_API_KEY environment variable" p with
    | (Ok _, p1) => (Exited 1, p1)
    | (Raise e, p1) => (Uncaught e, p1)
    end
  else
    match main_try env p with
    | (Ok _, p1) => (Returned, p1)
    | (Raise e, p1) =>
        (Exited 1, snd (run (logger ERROR ("Application error: " +:+ exn_str e)) p1))
    end.

End Main.

End Program.

(** Readings of [main]. *)

Module Observing.

Import Program.

(** The world after one more entry in the log. *)
Definition logged (lv : level) (msg : string) (w : World) : World :=
  mkWorld (log w ++ [(lv, msg)]) (trace w) (heap w).

(** Lines 333-339: what [main] does with a report. *)
Definition report_output (env : Env) (report : string) : IO unit :=
  io_bind (print env (nl +:+ report)) (fun _ =>
  io_bind (write_text env "empathetic_review_output.md" report) (fun _ =>
  print env (nl +:+ "âœ… Report saved to empathetic_review_output.md"))).

(** The output calls of a run that goes well, in order. *)
Definition output_calls (report : string) : list io_call :=
  [ CallPrint (nl +:+ report);
    CallOpen "empathetic_review_output.md" "w";
    CallWrite "empathetic_review_output.md" report;
    CallClose "empathetic_review_output.md";
    CallPrint (nl +:+ "âœ… Report saved to empathetic_review_output.md") ].

(** The key [main] asks for is set and not empty. *)
Definition has_api_key (env : Env) : Prop :=
  exists key, getenv env "OPENROUTER_API_KEY" = Some key /\ key <> "".

End Observing.

(** Sample environments for [main]. *)

Module Trial.

Import Program Samples.

(** An environment in which the key is [key], the library answers [built]
    when asked for the language model and builds the predictors
    [the_analyzer], and every output call succeeds. *)
Definition env_with (key : option string) (built : outcome LM)
    (the_analyzer : EmpathyAnalyzer.t) : Env :=
  mkEnv (fun name => if String.eqb name "OPENROUTER_API_KEY" then key else None)
        (fun _ => built)
        (fun _ => Ok tt)
        (Ok the_analyzer)
        (fun _ _ => Ok tt).

(** A process that has done nothing yet. *)
Definition start : Process := mkProcess empty_world [].

End Trial.

(** * Facts *)

(** ** Strings *)

Section StringFacts.

Lemma str_app_cons (x : ascii) (a b : string) : String x a +:+ b = String x (a +:+ b).
Proof. reflexivity. Qed.

Lemma str_app_nil_l (a : string) : "" +:+ a = a.
Proof. reflexivity. Qed.

Lemma str_app_assoc (a b c : string) : (a +:+ b) +:+ c = a +:+ (b +:+ c).
Proof.
  induction a as [|x a IH]; [reflexivity|].
  now rewrite !str_app_cons, IH.
Qed.

Lemma str_app_nil_r (a : string) : a +:+ "" = a.
Proof.
  induction a as [|x a IH]; [reflexivity|].
  now rewrite str_app_cons, IH.
Qed.

Lemma truthy_false (s : string) : truthy s = false <-> s = "".
Proof. destruct s; simpl; split; congruence. Qed.

Lemma truthy_true (s : string) : truthy s = true <-> s <> "".
Proof. destruct s; simpl; split; congruence. Qed.

Lemma lstrip_blank (s : string) : blank s = true -> lstrip s = "".
Proof.
  induction s as [|c s IH]; simpl; [reflexivity|].
  intros [Hc Hs]%andb_prop. rewrite Hc. auto.
Qed.

Lemma lstrip_empty_blank (s : string) : lstrip s = "" -> blank s = true.
Proof.
  induction s as [|c s IH]; simpl; [reflexivity|].
  destruct (isspace c); simpl; [assumption | discriminate].
Qed.

Lemma lstrip_head (s : string) :
  lstrip s = "" \/ exists c t, lstrip s = String c t /\ isspace c = false.
Proof.
  induction s as [|c s IH]; simpl; [now left|].
  destruct (isspace c) eqn:Hc; [assumption|]. right. eauto.
Qed.

Lemma rstrip_head (c : ascii) (t : string) : isspace c = false -> rstrip (String c t) <> "".
Proof. intros Hc. simpl. destruct (rstrip t); rewrite ?Hc; discriminate. Qed.

(** [strip] empties exactly the blank strings. *)
Lemma strip_empty_iff (s : string) : strip s = "" <-> blank s = true.
Proof.
  unfold strip. split.
  - intros H. destruct (lstrip_head s) as [E | (c & t & E & Hc)].
    + now apply lstrip_empty_blank.
    + rewrite E in H. now apply rstrip_head in H.
  - intros H. now rewrite lstrip_blank.
Qed.

Lemma blank_empty_or_strip (code : string) :
  negb (truthy code) || negb (truthy (strip code)) = blank code.
Proof.
  destruct (blank code) eqn:Hb.
  - apply strip_empty_iff in Hb. rewrite Hb. simpl. apply orb_true_r.
  - assert (Hs : strip code <> "") by (rewrite strip_empty_iff, Hb; discriminate).
    assert (Hc : code <> "") by (intros ->; discriminate).
    apply truthy_true in Hs, Hc. now rewrite Hs, Hc.
Qed.

Lemma split_not_nil (c : ascii) (s : string) : split c s <> [].
Proof.
  induction s as [|x s IH]; simpl; [discriminate|].
  destruct (Ascii.eqb x c); [discriminate|].
  destruct (split c s); [contradiction | discriminate].
Qed.

(** Splitting distributes over a separator in the middle. *)
Lemma split_app_sep (c : ascii) (a b : string) :
  split c (a +:+ String c b) = split c a ++ split c b.
Proof.
  induction a as [|x a IH]; [rewrite str_app_nil_l | rewrite str_app_cons]; simpl.
  - now rewrite Ascii.eqb_refl.
  - destruct (Ascii.eqb x c); [now rewrite IH|].
    rewrite IH. pose proof (split_not_nil c a) as Hne.
    destruct (split c a); [contradiction | reflexivity].
Qed.

(** A prefix with no separator in it joins the first piece. *)
Lemma split_app_head (c : ascii) (p s : string) :
  split c p = [p] ->
  split c (p +:+ s) =
    match split c s with
    | piece :: pieces => (p +:+ piece) :: pieces
    | [] => [p]
    end.
Proof.
  revert s. induction p as [|x p IH]; intros s;
    [rewrite str_app_nil_l | rewrite str_app_cons]; simpl.
  - intros _. pose proof (split_not_nil c s). now destruct (split c s).
  - destruct (Ascii.eqb x c); [discriminate|].
    pose proof (split_not_nil c p) as Hne.
    destruct (split c p) as [|q qs] eqn:E; [contradiction|].
    intros [= -> ->]. rewrite (IH s eq_refl).
    pose proof (split_not_nil c s). now destruct (split c s).
Qed.

Lemma join_split (c : ascii) (s : string) : join (String c "") (split c s) = s.
Proof.
  induction s as [|x s IH]; simpl; [reflexivity|].
  destruct (Ascii.eqb_spec x c) as [-> | Hne].
  - pose proof (split_not_nil c s) as Hn.
    destruct (split c s) as [|p ps] eqn:E; [contradiction|].
    simpl. simpl in IH. now rewrite IH.
  - pose proof (split_not_nil c s) as Hn.
    destruct (split c s) as [|p ps] eqn:E; [contradiction|].
    destruct ps as [|p' ps]; simpl in *; now rewrite <- IH.
Qed.

Lemma concat_app (l1 l2 : list string) : concat (l1 ++ l2) = concat l1 +:+ concat l2.
Proof.
  induction l1 as [|x l1 IH]; [reflexivity|].
  change (x +:+ concat (l1 ++ l2) = (x +:+ concat l1) +:+ concat l2).
  now rewrite IH, str_app_assoc.
Qed.

End StringFacts.

(** ** The language detector *)

Section MaxFacts.

Import LanguageDetector.

Lemma max_value_ge (xs : list nat) (x : nat) : x ∈ xs -> x <= max_value xs.
Proof.
  induction xs as [|y xs IH]; intros Hin; [now apply elem_of_nil in Hin|].
  apply elem_of_cons in Hin as [-> | Hin]; simpl; [lia|].
  specialize (IH Hin). lia.
Qed.

Lemma max_value_zero (xs : list nat) : max_value xs = 0 <-> forall x, x ∈ xs -> x = 0.
Proof.
  split.
  - intros H x Hin. apply max_value_ge in Hin. lia.
  - induction xs as [|y xs IH]; intros H; [reflexivity|]. simpl.
    rewrite IH, (H y); [reflexivity | left |].
    intros x Hx. apply H. now right.
Qed.

(** [max] with a key returns the first item among those of largest key. *)
Lemma max_by_key_spec {A} (key : A -> nat) (rest before : list A) (best : A) (mid : list A) :
  (forall x, x ∈ before -> key x < key best) ->
  (forall x, x ∈ mid -> key x <= key best) ->
  exists before' after',
    before ++ best :: mid ++ rest = before' ++ max_by_key key best rest :: after' /\
    (forall x, x ∈ before' -> key x < key (max_by_key key best rest)) /\
    (forall x, x ∈ after' -> key x <= key (max_by_key key best rest)).
Proof.
  revert before best mid.
  induction rest as [|x rest IH]; intros before best mid Hlt Hle; simpl.
  - exists before, mid. now rewrite List.app_nil_r.
  - destruct (key best <? key x) eqn:E.
    + apply Nat.ltb_lt in E.
      destruct (IH (before ++ best :: mid) x []) as (b & a & Heq & Hb & Ha).
      * intros y [Hy | Hy]%elem_of_app; [specialize (Hlt y Hy); lia|].
        apply elem_of_cons in Hy as [-> | Hy]; [lia|]. specialize (Hle y Hy). lia.
      * intros y Hy. now apply elem_of_nil in Hy.
      * exists b, a. split; [|auto]. rewrite <- Heq, <- List.app_assoc. reflexivity.
    + apply Nat.ltb_ge in E.
      destruct (IH before best (mid ++ [x])) as (b & a & Heq & Hb & Ha); [assumption | |].
      * intros y [Hy | Hy]%elem_of_app; [auto|].
        apply list_elem_of_singleton in Hy as ->. lia.
      * exists b, a. split; [|auto]. rewrite <- Heq, <- List.app_assoc. reflexivity.
Qed.

(** Looking a key up in a table whose keys are distinct. *)
Lemma table_get_map {V} (g : string * list string -> V)
    (table : list (string * list string)) (e : string * list string) (default : V) :
  NoDup (map fst table) -> e ∈ table ->
  table_get (map (fun entry => (fst entry, g entry)) table) (fst e) default = g e.
Proof.
  unfold table_get. induction table as [|e' table IH]; intros Hnd Hin.
  - now apply elem_of_nil in Hin.
  - simpl. apply NoDup_cons in Hnd as [Hfresh Hnd].
    destruct (String.eqb_spec (fst e') (fst e)) as [Heq | Hne]; simpl.
    + apply elem_of_cons in Hin as [-> | Hin]; [reflexivity|].
      exfalso. apply Hfresh. rewrite Heq. now apply list_elem_of_fmap_2.
    + apply elem_of_cons in Hin as [-> | Hin]; [congruence | auto].
Qed.

End MaxFacts.

Section DetectorFacts.

Import LanguageDetector.

Context (re_findall : string -> string -> list re_flag -> list string).

Lemma score_patterns_from (patterns : list string) (code : string) (acc : nat) :
  foldl (fun score pattern =>
           score + length (re_findall pattern code [IGNORECASE; MULTILINE]))
        acc patterns
  = acc + language_score re_findall code patterns.
Proof.
  revert acc. induction patterns as [|p ps IH]; intros acc; simpl.
  - unfold language_score. simpl. lia.
  - rewrite IH. unfold language_score, match_count. simpl. lia.
Qed.

(** The inner loop computes the sum the specification speaks of. *)
Lemma score_patterns_sum (patterns : list string) (code : string) :
  score_patterns re_findall patterns code = language_score re_findall code patterns.
Proof. unfold score_patterns. now rewrite score_patterns_from. Qed.

Lemma scores_set_fresh (language : string) (score : nat) (scores : list (string * nat)) :
  language ∉ map fst scores ->
  scores_set language score scores = scores ++ [(language, score)].
Proof.
  intros Hfresh. unfold scores_set.
  destruct (existsb _ scores) eqn:E; [|reflexivity].
  apply existsb_exists in E as ([k v] & Hin & Hk). simpl in Hk.
  apply String.eqb_eq in Hk. subst k. exfalso. apply Hfresh.
  apply list_elem_of_In, in_map_iff. exists (language, v). auto.
Qed.

(** With distinct keys, the outer loop lists the languages in the order of
    the table, each with its score. *)
Lemma score_table_from (g : string * list string -> nat)
    (table : list (string * list string)) (acc : list (string * nat)) :
  NoDup (map fst acc ++ map fst table) ->
  foldl (fun scores entry => scores_set (fst entry) (g entry) scores) acc table
  = acc ++ map (fun entry => (fst entry, g entry)) table.
Proof.
  revert acc. induction table as [|e table IH]; intros acc Hnd; simpl.
  - now rewrite List.app_nil_r.
  - rewrite scores_set_fresh.
    + rewrite IH; [now rewrite <- List.app_assoc|].
      rewrite map_app. simpl. now rewrite <- List.app_assoc.
    + apply NoDup_app in Hnd as (_ & Hdisj & _).
      intros Hin. apply (Hdisj _ Hin). simpl. left.
Qed.

Lemma LANGUAGE_PATTERNS_keys :
  map fst LANGUAGE_PATTERNS
  = ["Python"; "JavaScript"; "Java"; "C++"; "C#"; "TypeScript"; "Go"; "Rust"].
Proof. reflexivity. Qed.

Lemma LANGUAGE_PATTERNS_NoDup : NoDup (map fst LANGUAGE_PATTERNS).
Proof. rewrite LANGUAGE_PATTERNS_keys. apply NoDup_ListNoDup. repeat constructor; simpl; intuition discriminate. Qed.

Lemma score_languages_table (code : string) :
  score_languages re_findall code
  = map (fun entry => (fst entry, language_score re_findall code (snd entry)))
        LANGUAGE_PATTERNS.
Proof.
  unfold score_languages.
  rewrite (score_table_from (fun entry => score_patterns re_findall (snd entry) code)).
  - rewrite List.app_nil_l. apply map_ext. intros e. now rewrite score_patterns_sum.
  - apply LANGUAGE_PATTERNS_NoDup.
Qed.

(** The choice made on a table of distinct languages: the first entry
    among those of largest score. *)
Lemma first_max_table (g : string * list string -> nat)
    (first : string * list string) (rest : list (string * list string)) :
  NoDup (map fst (first :: rest)) ->
  let scores := map (fun entry => (fst entry, g entry)) (first :: rest) in
  exists before language patterns after,
    first :: rest = before ++ (language, patterns) :: after /\
    max_by_key (scores_get scores) (fst first) (map fst rest) = language /\
    (forall e, e ∈ before -> g e < g (language, patterns)) /\
    (forall e, e ∈ after -> g e <= g (language, patterns)).
Proof.
  intros Hnd scores.
  assert (Hkey : forall e, e ∈ first :: rest -> scores_get scores (fst e) = g e).
  { intros e He. unfold scores_get, scores. now apply table_get_map. }
  destruct (max_by_key_spec (scores_get scores) (map fst rest) [] (fst first) [])
    as (b & a & Heq & Hb & Ha).
  { intros x Hx. now apply elem_of_nil in Hx. }
  { intros x Hx. now apply elem_of_nil in Hx. }
  set (r := max_by_key (scores_get scores) (fst first) (map fst rest)) in *.
  change ([] ++ fst first :: [] ++ map fst rest) with (map fst (first :: rest)) in Heq.
  apply map_eq_app in Heq as (before & tl & Htbl & Hbefore & Htl).
  apply map_eq_cons in Htl as ([language patterns] & after & -> & Hr & Hafter).
  simpl in Hr. subst b a.
  assert (Hin : (language, patterns) ∈ first :: rest).
  { rewrite Htbl. apply elem_of_app. right. left. }
  exists before, language, patterns, after. repeat split; [assumption | now symmetry | |].
  - intros e He. rewrite <- (Hkey (language, patterns) Hin), <- (Hkey e).
    + simpl. rewrite Hr. apply Hb. now apply list_elem_of_fmap_2.
    + rewrite Htbl. apply elem_of_app. now left.
  - intros e He. rewrite <- (Hkey (language, patterns) Hin), <- (Hkey e).
    + simpl. rewrite Hr. apply Ha. now apply list_elem_of_fmap_2.
    + rewrite Htbl. apply elem_of_app. right. now right.
Qed.

(** C2. On code that is neither empty nor blank, [detect_language_regex]
    scores each language by the sum, over its patterns, of the number of
    matches [re.findall] reports under IGNORECASE, and returns the language
    of largest score, the first one in the order Python, JavaScript, Java,
    C++, C#, TypeScript, Go, Rust when several reach it; when every score
    is zero it returns "Unknown". *)
Theorem detect_language_regex_first_max (code : string) :
  blank code = false ->
  let score := language_score re_findall code in
  map fst LANGUAGE_PATTERNS
    = ["Python"; "JavaScript"; "Java"; "C++"; "C#"; "TypeScript"; "Go"; "Rust"] /\
  ((forall e, e ∈ LANGUAGE_PATTERNS -> score (snd e) = 0) ->
     detect_language_regex re_findall code = "Unknown") /\
  ((exists e, e ∈ LANGUAGE_PATTERNS /\ 0 < score (snd e)) ->
     exists before language patterns after,
       LANGUAGE_PATTERNS = before ++ (language, patterns) :: after /\
       detect_language_regex re_findall code = language /\
       0 < score patterns /\
       (forall e, e ∈ before -> score (snd e) < score patterns) /\
       (forall e, e ∈ after -> score (snd e) <= score patterns)).
Proof.
  intros Hblank score. split; [reflexivity|].
  unfold detect_language_regex.
  rewrite blank_empty_or_strip, Hblank, score_languages_table. simpl negb. cbv iota.
  pose proof LANGUAGE_PATTERNS_NoDup as Hnd.
  destruct LANGUAGE_PATTERNS as [|first rest] eqn:Htable; [discriminate|].
  set (scores := map _ (first :: rest)).
  assert (Hzero : max_value (map snd scores) = 0 <->
                  forall e, e ∈ first :: rest -> score (snd e) = 0).
  { rewrite max_value_zero. unfold scores. rewrite map_map. simpl snd. split.
    - intros H e He. apply H. now apply (list_elem_of_fmap_2 (fun e => score (snd e))).
    - intros H x Hx. apply list_elem_of_fmap in Hx as (e & -> & He). auto. }
  change (match scores with
          | [] => "Unknown"
          | first0 :: rest0 =>
              if max_value (map snd scores) =? 0 then "Unknown"
              else max_by_key (scores_get scores) (fst first0) (map fst rest0)
          end)
    with (if max_value (map snd scores) =? 0 then "Unknown"
          else max_by_key (scores_get scores) (fst (fst first, score (snd first)))
                 (map fst (map (fun entry => (fst entry, score (snd entry))) rest))).
  split.
  - intros Hall. now rewrite (proj2 Hzero Hall).
  - intros (e & He & Hpos).
    destruct (max_value (map snd scores) =? 0) eqn:E.
    { apply Nat.eqb_eq in E. pose proof (proj1 Hzero E e He). lia. }
    destruct (first_max_table (fun entry => score (snd entry)) first rest Hnd)
      as (before & language & patterns & after & Heq & Hmax & Hb & Ha).
    exists before, language, patterns, after.
    split; [assumption|]. split.
    + rewrite <- Hmax. simpl fst. now rewrite map_map.
    + split; [|split; assumption].
      rewrite Heq in He. apply elem_of_app in He as [He | He].
      * specialize (Hb e He). simpl in Hb. lia.
      * apply elem_of_cons in He as [-> | He]; [assumption|].
        specialize (Ha e He). simpl in Ha. lia.
Qed.

End DetectorFacts.

Section FallbackFacts.

Import LanguageDetector.

Context (re_findall : string -> string -> list re_flag -> list string).

Lemma detect_language_regex_blank (code : string) :
  blank code = true -> detect_language_regex re_findall code = "Unknown".
Proof.
  intros H. unfold detect_language_regex. now rewrite blank_empty_or_strip, H.
Qed.

(** Without a language model the regex verdict is final. *)
Lemma detect_language_no_lm (self : t) (code : string) (w : World) :
  lm self = None ->
  detect_language re_findall self code w = (Ok (detect_language_regex re_findall code), w).
Proof.
  intros H. unfold detect_language. rewrite H.
  now rewrite andb_false_r.
Qed.

(** With one, an "Unknown" verdict hands the code to [detect_language_llm]. *)
Lemma detect_language_unknown_lm (self : t) (code : string) (w : World) :
  is_Some (lm self) ->
  detect_language_regex re_findall code = "Unknown" ->
  detect_language re_findall self code w
  = detect_language_llm (class_of self) code (fallback_logged w).
Proof.
  intros [the_lm Hlm] H. unfold detect_language. rewrite H, Hlm. reflexivity.
Qed.

(** C3, amended.  On empty or blank code [detect_language_regex] answers
    "Unknown" whatever the engine would find, so no pattern is scored; and
    [detect_language] returns that "Unknown" with no fallback call and no
    other effect when no language model is configured.  When one is
    configured, blank code is handed to [detect_language_llm] like any
    other code the regex pass cannot classify. *)
Theorem detect_language_blank (self : t) (code : string) (w : World) :
  blank code = true ->
  detect_language_regex re_findall code = "Unknown" /\
  (lm self = None -> detect_language re_findall self code w = (Ok "Unknown", w)) /\
  (is_Some (lm self) ->
     detect_language re_findall self code w
     = detect_language_llm (class_of self) code (fallback_logged w)).
Proof.
  intros Hblank. pose proof (detect_language_regex_blank code Hblank) as Hre.
  split; [assumption|]. split.
  - intros Hlm. now rewrite detect_language_no_lm, Hre.
  - intros Hlm. now apply detect_language_unknown_lm.
Qed.

(** The class of the source binds no [lm], so the classmethod raises at
    its first line, before its [try], and before any call to the model. *)
Lemma detect_language_llm_raises (code : string) (w : World) :
  detect_language_llm cls code w
  = (Raise (AttributeError "type object 'LanguageDetector' has no attribute 'lm'"), w).
Proof. reflexivity. Qed.

Lemma detect_language_raises_run (the_lm : LM) (code : string) (w : World) :
  detect_language_regex re_findall code = "Unknown" ->
  detect_language re_findall (__init__ (Some the_lm)) code w
  = (Raise (AttributeError "type object 'LanguageDetector' has no attribute 'lm'"),
     fallback_logged w).
Proof.
  intros H.
  rewrite detect_language_unknown_lm by (simpl; eauto || assumption).
  apply detect_language_llm_raises.
Qed.

(** C4, as the code runs.  When the regex pass answers "Unknown" and a
    language model is configured, [detect_language] logs the fallback and
    then raises AttributeError to its caller; the model is not called. *)
Theorem detect_language_fallback_raises (the_lm : LM) (code : string) (w : World) :
  detect_language_regex re_findall code = "Unknown" ->
  detect_language re_findall (__init__ (Some the_lm)) code w
  = (Raise (AttributeError "type object 'LanguageDetector' has no attribute 'lm'"),
     fallback_logged w)
  /\ trace (snd (detect_language re_findall (__init__ (Some the_lm)) code w)) = trace w.
Proof.
  intros H. rewrite (detect_language_raises_run the_lm code w H). split; reflexivity.
Qed.

(** What the fallback does once the class does bind [lm]: one call to the
    model, its reply validated against the known names, and "Unknown" for
    an unrecognised reply or when the call raises. *)
Lemma detect_language_llm_bound (the_lm : LM) (code : string) (w : World) :
  let reply := the_lm (trace w) (prompt_for code) in
  let known := map fst LANGUAGE_PATTERNS ++ ["Unknown"] in
  exists language w',
    detect_language_llm (mkClass (Some (Some the_lm))) code w = (Ok language, w') /\
    trace w' = trace w ++ [CallLM (prompt_for code)] /\
    heap w' = heap w /\
    language ∈ known /\
    match reply with
    | Ok response =>
        language = (if bool_decide (strip response ∈ known) then strip response
                    else "Unknown")
        /\ log w' = log w
    | Raise e =>
        language = "Unknown"
        /\ log w' = log w ++ [(WARNING, "LLM language detection failed: " +:+ exn_str e)]
    end.
Proof.
  intros reply known. subst reply.
  unfold detect_language_llm. cbn [class_getattr_lm class_lm].
  unfold bind at 1. unfold lift. cbn iota beta.
  unfold try_except, bind, invoke. fold known.
  destruct (the_lm (trace w) (prompt_for code)) as [response | e].
  - destruct (existsb (String.eqb (strip response)) known) eqn:E.
    + apply existsb_exists in E as (x & Hin & Hx). apply String.eqb_eq in Hx. subst x.
      apply list_elem_of_In in Hin.
      eexists _, _. split; [reflexivity|]. repeat split; [assumption|].
      now rewrite bool_decide_eq_true_2.
    + eexists _, _. split; [reflexivity|]. repeat split.
      * unfold known. apply elem_of_app. right. left.
      * rewrite bool_decide_eq_false_2; [reflexivity|].
        intros Hin. apply list_elem_of_In in Hin.
        assert (existsb (String.eqb (strip response)) known = true); [|congruence].
        apply existsb_exists. exists (strip response). split; [assumption|].
        apply String.eqb_refl.
  - eexists _, _. split; [reflexivity|]. repeat split.
    unfold known. apply elem_of_app. right. left.
Qed.

End FallbackFacts.

(** ** The monad and the store *)

Section RuntimeFacts.

Lemma run_bind {A B} (m : M A) (k : A -> M B) (w : World) :
  bind m k w = match m w with
               | (Ok a, w') => k a w'
               | (Raise e, w') => (Raise e, w')
               end.
Proof. reflexivity. Qed.

Lemma run_bind_ok {A B} (m : M A) (k : A -> M B) (w w' : World) (a : A) :
  m w = (Ok a, w') -> bind m k w = k a w'.
Proof. intros H. now rewrite run_bind, H. Qed.

Lemma run_bind_raise {A B} (m : M A) (k : A -> M B) (w w' : World) (e : exn) :
  m w = (Raise e, w') -> bind m k w = (Raise e, w').
Proof. intros H. now rewrite run_bind, H. Qed.

Lemma reads_run {A} (m : M A) (w : World) : reads m -> m w = (fst (m w), w).
Proof. intros H. rewrite <- (H w) at 3. now destruct (m w). Qed.

Lemma reads_ret {A} (a : A) : reads (ret a).
Proof. now intros w. Qed.

Lemma reads_lift {A} (r : outcome A) : reads (lift r).
Proof. now intros w. Qed.

Lemma reads_bind {A B} (m : M A) (k : A -> M B) :
  reads m -> (forall a, reads (k a)) -> reads (bind m k).
Proof.
  intros Hm Hk w. rewrite run_bind, (reads_run m w Hm).
  destruct (fst (m w)); [apply Hk | reflexivity].
Qed.

Lemma reads_deref (l : loc) : reads (deref l).
Proof. intros w. unfold deref. now destruct (heap w !! l). Qed.

Lemma reads_deref_dict (l : loc) : reads (deref_dict l).
Proof.
  apply reads_bind; [apply reads_deref|].
  intros [d | items]; [apply reads_ret | now intros w].
Qed.

Lemma reads_deref_list (l : loc) : reads (deref_list l).
Proof.
  apply reads_bind; [apply reads_deref|].
  intros [d | items]; [now intros w | apply reads_ret].
Qed.

Lemma reads_map_m {A B} (f : A -> M B) (xs : list A) :
  (forall x, reads (f x)) -> reads (map_m f xs).
Proof.
  intros Hf. induction xs as [|x xs IH]; simpl; [apply reads_ret|].
  apply reads_bind; [apply Hf|]. intros y.
  apply reads_bind; [apply IH|]. intros ys. apply reads_ret.
Qed.

Lemma reads_fold_m {A S} (body : S -> A -> M S) (xs : list A) (s : S) :
  (forall s x, reads (body s x)) -> reads (fold_m body s xs).
Proof.
  intros Hf. revert s. induction xs as [|x xs IH]; intros s; simpl; [apply reads_ret|].
  apply reads_bind; [apply Hf | auto].
Qed.

Lemma deref_dict_run (l : loc) (d : Dict) (w : World) :
  heap w !! l = Some (ODict d) -> deref_dict l w = (Ok d, w).
Proof. intros H. unfold deref_dict, deref, bind. now rewrite H. Qed.

Lemma deref_list_run (l : loc) (items : list loc) (w : World) :
  heap w !! l = Some (OList items) -> deref_list l w = (Ok items, w).
Proof. intros H. unfold deref_list, deref, bind. now rewrite H. Qed.

(** A reference that can be used as a dictionary leads to one. *)
Lemma deref_dict_ok (l : loc) (d : Dict) (w : World) :
  fst (deref_dict l w) = Ok d -> heap w !! l = Some (ODict d).
Proof.
  unfold deref_dict, deref, bind.
  destruct (heap w !! l) as [[d' | items]|]; simpl; congruence.
Qed.

Lemma deref_list_ok (l : loc) (items : list loc) (w : World) :
  fst (deref_list l w) = Ok items -> heap w !! l = Some (OList items).
Proof.
  unfold deref_list, deref, bind.
  destruct (heap w !! l) as [[d' | items']|]; simpl; congruence.
Qed.

Lemma enumerate_cons {A} (start : nat) (x : A) (xs : list A) :
  enumerate start (x :: xs) = (start, x) :: enumerate (S start) xs.
Proof. reflexivity. Qed.

(** Reading every dictionary of a list the store holds. *)
Lemma map_m_deref {B} (f : Dict -> B) (items : list loc) (ds : list Dict) (w : World) :
  refs_to (heap w) items ds ->
  map_m (fun ref => x <- deref_dict ref ;; ret (f x)) items w = (Ok (map f ds), w).
Proof.
  induction 1 as [|r d items ds Hr _ IH]; [reflexivity|].
  simpl. rewrite run_bind, run_bind, (deref_dict_run r d w Hr). simpl.
  now rewrite run_bind, IH.
Qed.

(** When the keys of the sort can all be computed, they are the ranks. *)
Lemma map_m_rank_ok (items : list loc) (keys : list nat) (w : World) :
  fst (map_m (fun ref => x <- deref_dict ref ;;
                         ret (EmpatheticCodeReviewer.severity_rank x)) items w) = Ok keys ->
  keys = map (rank_at (heap w)) items.
Proof.
  revert keys. induction items as [|r items IH]; intros keys; simpl.
  - now intros [= <-].
  - rewrite run_bind, run_bind, (reads_run _ w (reads_deref_dict r)).
    destruct (fst (deref_dict r w)) as [d|e] eqn:Hd; simpl; [|discriminate].
    apply deref_dict_ok in Hd. rewrite run_bind.
    rewrite (reads_run _ w (reads_map_m _ items
               (fun r0 => reads_bind _ _ (reads_deref_dict r0) (fun x => reads_ret _)))).
    destruct (fst (map_m _ items w)) as [ks|e] eqn:Hks; simpl; [|discriminate].
    intros [= <-]. rewrite (IH ks eq_refl). simpl. f_equal.
    unfold rank_at. now rewrite Hd.
Qed.

End RuntimeFacts.

(** ** The stable sort *)

Section SortFacts.

Context {A : Type}.

Lemma insert_key_perm (k : nat) (x : A) (l : list (nat * A)) :
  insert_key k x l ≡ₚ (k, x) :: l.
Proof.
  induction l as [|[k' y] l IH]; simpl; [reflexivity|].
  destruct (k <=? k'); [reflexivity|].
  rewrite IH. apply perm_swap.
Qed.

Lemma sort_by_key_perm (l : list (nat * A)) : sort_by_key l ≡ₚ l.
Proof.
  induction l as [|[k x] l IH]; simpl; [reflexivity|].
  rewrite insert_key_perm. now apply perm_skip.
Qed.

Lemma insert_key_sorted (k : nat) (x : A) (l : list (nat * A)) :
  StronglySorted key_le l -> StronglySorted key_le (insert_key k x l).
Proof.
  induction 1 as [|[k' y] l Hs IH Hall]; simpl.
  - repeat constructor.
  - destruct (Nat.leb_spec k k') as [Hle | Hgt].
    + constructor; [now constructor|].
      constructor; [exact Hle|].
      eapply List.Forall_impl; [|exact Hall].
      intros [k'' z] Hz. unfold key_le in *. simpl in *. lia.
    + constructor; [assumption|].
      apply Forall_forall. intros a Ha.
      rewrite insert_key_perm in Ha.
      apply elem_of_cons in Ha as [-> | Ha].
      * unfold key_le. simpl. lia.
      * rewrite Forall_forall in Hall. now apply Hall.
Qed.

Lemma sort_by_key_sorted (l : list (nat * A)) : StronglySorted key_le (sort_by_key l).
Proof.
  induction l as [|[k x] l IH]; simpl; [constructor|].
  now apply insert_key_sorted.
Qed.

(** Stability: among the items of one key, the order is the original one. *)
Lemma insert_key_filter (j k : nat) (x : A) (l : list (nat * A)) :
  List.filter (fun a => fst a =? j) (insert_key k x l)
  = List.filter (fun a => fst a =? j) ((k, x) :: l).
Proof.
  induction l as [|[k' y] l IH]; [reflexivity|].
  simpl insert_key. destruct (Nat.leb_spec k k') as [Hle | Hgt]; [reflexivity|].
  simpl in *. rewrite IH.
  destruct (Nat.eqb_spec k j), (Nat.eqb_spec k' j); try reflexivity. lia.
Qed.

Lemma sort_by_key_stable (j : nat) (l : list (nat * A)) :
  List.filter (fun a => fst a =? j) (sort_by_key l)
  = List.filter (fun a => fst a =? j) l.
Proof.
  induction l as [|[k x] l IH]; [reflexivity|].
  simpl sort_by_key. rewrite insert_key_filter. simpl. now rewrite IH.
Qed.

End SortFacts.

Section SortOnFacts.

Context {B : Type} (rank : B -> nat).

Lemma decorated_keys (xs : list B) :
  Forall (fun a => fst a = rank (snd a)) (sort_by_key (map (fun x => (rank x, x)) xs)).
Proof.
  apply Forall_forall. intros a Ha.
  rewrite sort_by_key_perm in Ha.
  apply list_elem_of_fmap in Ha as (x & -> & _). reflexivity.
Qed.

Lemma sort_on_perm (xs : list B) : sort_on rank xs ≡ₚ xs.
Proof.
  unfold sort_on. rewrite sort_by_key_perm, map_map. simpl.
  now rewrite map_id.
Qed.

Lemma sort_on_length (xs : list B) : length (sort_on rank xs) = length xs.
Proof. now rewrite sort_on_perm. Qed.

Lemma sort_on_sorted (xs : list B) :
  StronglySorted (fun x y => rank x <= rank y) (sort_on rank xs).
Proof.
  unfold sort_on. pose proof (decorated_keys xs) as Hk.
  pose proof (sort_by_key_sorted (map (fun x => (rank x, x)) xs)) as Hs.
  induction Hs as [|a l Hs IH Hall]; simpl; [constructor|].
  apply Forall_cons in Hk as [Ha Hk].
  constructor; [auto|].
  apply List.Forall_map. rewrite Forall_forall in Hall, Hk |- *.
  intros b Hb. specialize (Hall b Hb). unfold key_le in Hall.
  rewrite <- Ha, <- (Hk b Hb). exact Hall.
Qed.

Lemma sort_on_stable (j : nat) (xs : list B) :
  List.filter (fun x => rank x =? j) (sort_on rank xs)
  = List.filter (fun x => rank x =? j) xs.
Proof.
  unfold sort_on.
  assert (Hf : forall l : list (nat * B),
             Forall (fun a => fst a = rank (snd a)) l ->
             List.filter (fun x => rank x =? j) (map snd l)
             = map snd (List.filter (fun a => fst a =? j) l)).
  { induction 1 as [|a l Ha _ IH]; [reflexivity|]. simpl.
    rewrite Ha, IH. now destruct (rank (snd a) =? j). }
  rewrite Hf by apply decorated_keys.
  rewrite sort_by_key_stable, <- Hf.
  - rewrite map_map. simpl. now rewrite map_id.
  - apply Forall_forall. intros a Ha.
    apply list_elem_of_fmap in Ha as (x & -> & _). reflexivity.
Qed.

(** What [list.sort] stores: the keys zipped with the items. *)
Lemma zip_ranks (xs : list B) :
  map snd (sort_by_key (zip (map rank xs) xs)) = sort_on rank xs.
Proof.
  unfold sort_on. f_equal. f_equal.
  induction xs as [|x xs IH]; [reflexivity|]. simpl. now rewrite IH.
Qed.

End SortOnFacts.

Section SortRelated.

Context {B C : Type} (R : B -> C -> Prop) (rank_b : B -> nat) (rank_c : C -> nat).
Context (Hrank : forall x y, R x y -> rank_b x = rank_c y).

Lemma insert_key_related (k : nat) (x : B) (y : C) l1 l2 :
  R x y -> Forall2 (related_by R) l1 l2 ->
  Forall2 (related_by R) (insert_key k x l1) (insert_key k y l2).
Proof.
  intros Hxy. induction 1 as [|[k1 x1] [k2 y1] l1 l2 [Hk Hr] Hall IH]; simpl.
  - repeat constructor. exact Hxy.
  - simpl in Hk. subst k2. destruct (k <=? k1).
    + constructor; [now split|]. constructor; [now split | exact Hall].
    + constructor; [now split | exact IH].
Qed.

(** Sorting two lists related item by item keeps them so. *)
Lemma sort_on_related (xs : list B) (ys : list C) :
  Forall2 R xs ys -> Forall2 R (sort_on rank_b xs) (sort_on rank_c ys).
Proof.
  intros H. unfold sort_on.
  assert (Hs : Forall2 (related_by R)
                 (sort_by_key (map (fun x => (rank_b x, x)) xs))
                 (sort_by_key (map (fun y => (rank_c y, y)) ys))).
  { induction H as [|x y xs ys Hxy _ IH]; simpl; [constructor|].
    rewrite (Hrank x y Hxy). now apply insert_key_related. }
  induction Hs as [|a b l1 l2 [_ Hr] _ IH]; simpl; constructor; assumption.
Qed.

End SortRelated.

(** ** The renderer *)

Section RendererFacts.

Import EmpatheticCodeReviewer.

Lemma foldl_app_prefix {X} (f : string -> X -> string) (h : X -> string) :
  (forall r x, f r x = r +:+ h x) ->
  forall (xs : list X) (a b : string), foldl f (a +:+ b) xs = a +:+ foldl f b xs.
Proof.
  intros Hf xs. induction xs as [|x xs IH]; intros a b; simpl; [reflexivity|].
  now rewrite !Hf, str_app_assoc, IH.
Qed.

Lemma foldl_bullets (lines : list string) (report : string) :
  foldl (fun report line => report +:+ ("- " +:+ line +:+ nl)) report lines
  = report +:+ bullets lines.
Proof.
  revert report. induction lines as [|line lines IH]; intros report; simpl.
  - now rewrite str_app_nil_r.
  - rewrite IH, str_app_assoc. reflexivity.
Qed.

(** Everything the renderer does is appending: a prefix of the report can
    be set aside. *)
Lemma append_resources_prefix (a b : string) (d : Dict) :
  append_resources (a +:+ b) d = a +:+ append_resources b d.
Proof.
  unfold append_resources.
  destruct (resources_truthy _); [|reflexivity].
  destruct (get_default (resources d) (ResList [])) as [|text|items].
  - now rewrite !str_app_assoc.
  - rewrite str_app_assoc,
      (foldl_app_prefix _ (fun line => "- " +:+ line +:+ nl)) by reflexivity.
    now rewrite str_app_assoc.
  - rewrite str_app_assoc.
    rewrite (foldl_app_prefix _
               (fun x => if truthy x && truthy (strip x)
                         then "- " +:+ strip x +:+ nl else "")).
    + now rewrite str_app_assoc.
    + intros r x. destruct (truthy x && truthy (strip x));
        [reflexivity | now rewrite str_app_nil_r].
Qed.

Lemma comment_section_prefix (code_lang a b : string) (i : nat) (d : Dict) :
  comment_section code_lang (a +:+ b) i d
  = match comment_section code_lang b i d with
    | Ok s => Ok (a +:+ s)
    | Raise e => Raise e
    end.
Proof.
  unfold comment_section.
  destruct (original d), (positive_rephrasing d), (explanation d),
    (suggested_improvement d); try reflexivity.
  cbn [getitem obind]. rewrite <- append_resources_prefix. now rewrite !str_app_assoc.
Qed.

(** With its four keys bound a comment renders, whatever its other keys. *)
Lemma comment_section_some (code_lang report : string) (i : nat) (d : Dict) :
  has_required_keys d -> exists s, comment_section code_lang report i d = Ok s.
Proof.
  intros ([o Ho] & [p Hp] & [e He] & [s Hs]).
  unfold comment_section. rewrite Ho, Hp, He, Hs. cbn [getitem obind]. eauto.
Qed.

Lemma comment_section_ok (code_lang report : string) (i : nat) (d : Dict) :
  has_required_keys d ->
  comment_section code_lang report i d = Ok (report +:+ section_text code_lang i d).
Proof.
  intros Hd. rewrite <- (str_app_nil_r report) at 1.
  rewrite comment_section_prefix. unfold section_text.
  now destruct (comment_section_some code_lang "" i d Hd) as [s ->].
Qed.

Lemma comment_section_extends (code_lang report r : string) (i : nat) (d : Dict) :
  comment_section code_lang report i d = Ok r -> exists rest, r = report +:+ rest.
Proof.
  rewrite <- (str_app_nil_r report) at 1. rewrite comment_section_prefix.
  destruct (comment_section code_lang "" i d) as [s|]; [|discriminate].
  intros [= <-]. eauto.
Qed.

Lemma render_comments_ok (code_lang report : string) (i : nat) (ds : list Dict) :
  Forall has_required_keys ds ->
  render_comments code_lang report i ds
  = Ok (report +:+ concat (imap (fun k d => section_text code_lang (i + k) d) ds)).
Proof.
  intros H. revert report i.
  induction H as [|d ds Hd _ IH]; intros report i; simpl.
  - now rewrite str_app_nil_r.
  - rewrite (comment_section_ok _ _ _ _ Hd). cbn [obind]. rewrite IH.
    rewrite str_app_assoc, Nat.add_0_r. do 3 f_equal.
    f_equal. apply imap_ext. intros k x _. simpl. f_equal. lia.
Qed.

Lemma render_comments_extends (code_lang report r : string) (i : nat) (ds : list Dict) :
  render_comments code_lang report i ds = Ok r -> exists rest, r = report +:+ rest.
Proof.
  revert report i. induction ds as [|d ds IH]; intros report i; simpl.
  - intros [= <-]. exists "". now rewrite str_app_nil_r.
  - destruct (comment_section code_lang report i d) as [s|] eqn:E; [|discriminate].
    cbn [obind]. intros H. apply IH in H as [rest ->].
    apply comment_section_extends in E as [rest' ->].
    exists (rest' +:+ rest). now rewrite str_app_assoc.
Qed.

(** A report renders as head, sections and tail once every comment has
    its four keys. *)
Lemma render_report_ok (code_snippet language summary : string) (ds : list Dict) :
  Forall has_required_keys ds ->
  render_report code_snippet language summary ds
  = Ok (report_of_sections code_snippet language summary
          (sections (table_get lang_map language "text") ds)).
Proof.
  intros H. unfold render_report. rewrite (render_comments_ok _ _ _ _ H).
  reflexivity.
Qed.

Lemma reads_append_comment (code_lang report : string) (i : nat) (ref : loc) :
  reads (append_comment code_lang report i ref).
Proof.
  apply reads_bind; [apply reads_deref_dict|]. intros d. apply reads_lift.
Qed.

(** The loop over the references is the loop over the dictionaries. *)
Lemma fold_m_render (code_lang : string) (items : list loc) (ds : list Dict)
    (report : string) (i : nat) (w : World) :
  refs_to (heap w) items ds ->
  fold_m (fun report entry => append_comment code_lang report (fst entry) (snd entry))
         report (enumerate i items) w
  = (render_comments code_lang report i ds, w).
Proof.
  intros H. revert report i.
  induction H as [|r d items ds Hr _ IH]; intros report i; [reflexivity|].
  rewrite enumerate_cons. simpl. rewrite run_bind.
  unfold append_comment at 1. simpl fst. simpl snd.
  rewrite (run_bind_ok _ _ w w d (deref_dict_run r d w Hr)). unfold lift.
  destruct (comment_section code_lang report i d) as [s|e]; [apply IH | reflexivity].
Qed.

End RendererFacts.

Section ReportFacts.

Import EmpatheticCodeReviewer.

Lemma reads_rank_key (ref : loc) :
  reads (x <- deref_dict ref ;; ret (severity_rank x)).
Proof. apply reads_bind; [apply reads_deref_dict | intros x; apply reads_ret]. Qed.

(** A reference to a dictionary is not the reference to the list. *)
Lemma refs_to_insert_list (h : gmap loc obj) (l : loc) (old new items : list loc)
    (ds : list Dict) :
  h !! l = Some (OList old) -> refs_to h items ds ->
  refs_to (<[l := OList new]> h) items ds.
Proof.
  intros Hl H. induction H as [|r d items ds Hr _ IH]; constructor; [|exact IH].
  rewrite lookup_insert_ne; [exact Hr | congruence].
Qed.

(** [generate_markdown_report] on a list of dictionaries the store holds:
    the list object is sorted in place, and the report is the rendering of
    the sorted dictionaries. *)
Lemma generate_markdown_report_run
    (code_snippet summary language : string) (comments : loc)
    (items : list loc) (ds : list Dict) (w : World) :
  heap w !! comments = Some (OList items) ->
  refs_to (heap w) items ds ->
  generate_markdown_report code_snippet comments summary language w
  = (render_report code_snippet language summary (sort_comments ds),
     mkWorld (log w) (trace w)
             (<[comments := OList (sort_refs (heap w) items)]> (heap w))).
Proof.
  intros Hl Hds. unfold generate_markdown_report, list_sort.
  rewrite run_bind, run_bind, (deref_list_run _ _ _ Hl), run_bind.
  rewrite (map_m_deref severity_rank items ds w Hds).
  assert (Hranks : map severity_rank ds = map (rank_at (heap w)) items).
  { clear Hl. induction Hds as [|r d items ds Hr _ IH]; [reflexivity|].
    simpl. rewrite IH. f_equal. unfold rank_at. now rewrite Hr. }
  rewrite Hranks, zip_ranks. unfold store_list at 1. cbv iota beta.
  fold (sort_refs (heap w) items).
  set (w1 := mkWorld _ _ _).
  assert (Hl1 : heap w1 !! comments = Some (OList (sort_refs (heap w) items))).
  { apply lookup_insert_eq. }
  assert (Hds1 : refs_to (heap w1) (sort_refs (heap w) items) (sort_comments ds)).
  { apply (refs_to_insert_list _ _ items); [assumption|].
    apply (sort_on_related (fun r d => heap w !! r = Some (ODict d))); [|assumption].
    intros r d Hr. unfold rank_at. now rewrite Hr. }
  rewrite run_bind, (deref_list_run _ _ _ Hl1), run_bind.
  rewrite (fold_m_render _ _ _ _ _ _ Hds1).
  unfold render_report.
  now destruct (render_comments _ _ 1 (sort_comments ds)).
Qed.

(** The frame of [generate_markdown_report]: the log and the trace are
    untouched; the store changes at most at [comments], where the list is
    replaced by its sorted version. *)
Lemma generate_markdown_report_world
    (code_snippet summary language : string) (comments : loc) (w w' : World)
    (r : outcome string) :
  generate_markdown_report code_snippet comments summary language w = (r, w') ->
  log w' = log w /\ trace w' = trace w /\
  (heap w' = heap w \/
   exists items, heap w !! comments = Some (OList items) /\
                 heap w' = <[comments := OList (sort_refs (heap w) items)]> (heap w)).
Proof.
  unfold generate_markdown_report, list_sort.
  rewrite run_bind, run_bind, (reads_run _ w (reads_deref_list comments)).
  destruct (fst (deref_list comments w)) as [items|e] eqn:Hl;
    [|intros [= <- <-]; repeat split; now left].
  apply deref_list_ok in Hl.
  rewrite run_bind, (reads_run _ w (reads_map_m _ items reads_rank_key)).
  destruct (fst (map_m _ items w)) as [keys|e] eqn:Hk;
    [|intros [= <- <-]; repeat split; now left].
  apply map_m_rank_ok in Hk. subst keys. rewrite zip_ranks.
  unfold store_list at 1. cbv iota beta. fold (sort_refs (heap w) items).
  set (w1 := mkWorld _ _ _).
  rewrite run_bind, (reads_run _ w1 (reads_deref_list comments)).
  destruct (fst (deref_list comments w1)) as [items1|e];
    [|intros [= <- <-]; repeat split; right; eauto].
  rewrite run_bind.
  rewrite (reads_run _ w1 (reads_fold_m _ (enumerate 1 items1) _
             (fun s x => reads_append_comment _ s (fst x) (snd x)))).
  destruct (fst (fold_m _ _ _ w1)); intros [= <- <-]; repeat split; right; eauto.
Qed.

End ReportFacts.

(** ** Claims about the renderer *)

Section RendererClaims.

Import EmpatheticCodeReviewer.

(** C9.  Rendering only reorders the collection.  Whatever the store holds
    and whether or not the rendering succeeds, after
    [generate_markdown_report] every dictionary is the one it was, key by
    key (and no dictionary has appeared); the list passed as [comments]
    holds a permutation of the references it held, every other list is as
    it was. *)
Theorem generate_markdown_report_frame
    (code_snippet summary language : string) (comments : loc) (w : World) :
  let w' := snd (generate_markdown_report code_snippet comments summary language w) in
  (forall (l : loc) (d : Dict),
     heap w' !! l = Some (ODict d) <-> heap w !! l = Some (ODict d)) /\
  (forall (l : loc) (items : list loc),
     heap w !! l = Some (OList items) ->
     exists items', heap w' !! l = Some (OList items') /\ items' ≡ₚ items /\
                    (l <> comments -> items' = items)) /\
  dom (heap w') = dom (heap w).
Proof.
  intros w'.
  destruct (generate_markdown_report_world code_snippet summary language comments w w'
              (fst (generate_markdown_report code_snippet comments summary language w)))
    as (_ & _ & [Hh | (its & Hl & Hh)]).
  { subst w'. now destruct (generate_markdown_report _ _ _ _ w). }
  - rewrite Hh. repeat split; eauto.
  - rewrite Hh. split; [|split].
    + intros l d. destruct (decide (l = comments)) as [-> | Hne].
      * rewrite lookup_insert_eq, Hl. split; congruence.
      * now rewrite lookup_insert_ne.
    + intros l items Hitems. destruct (decide (l = comments)) as [-> | Hne].
      * rewrite lookup_insert_eq. eexists. split; [reflexivity|].
        assert (its = items) as -> by congruence.
        split; [apply sort_on_perm | congruence].
      * rewrite lookup_insert_ne by congruence. eauto.
    + apply set_eq. intros l. rewrite !elem_of_dom.
      destruct (decide (l = comments)) as [-> | Hne].
      * rewrite lookup_insert_eq, Hl. split; eauto.
      * now rewrite lookup_insert_ne.
Qed.

Lemma severity_rank_cases (d : Dict) :
  severity_rank d =
    match severity d with
    | Some s => if String.eqb s "HIGH" then 0
                else if String.eqb s "MEDIUM" then 1
                else if String.eqb s "LOW" then 2 else 1
    | None => 1
    end.
Proof.
  unfold severity_rank, table_get, severity_order. destruct (severity d) as [s|];
    [|reflexivity].
  cbn [List.find fst snd get_default]. rewrite !(String.eqb_sym _ s).
  destruct (String.eqb s "HIGH"); [reflexivity|].
  destruct (String.eqb s "MEDIUM"); [reflexivity|].
  now destruct (String.eqb s "LOW").
Qed.

(** C6.  [generate_markdown_report] renders the comments in the order of a
    stable sort on the severity rank, HIGH 0, MEDIUM 1, LOW 2, a severity
    that is none of the three (or is missing) ranking as MEDIUM: what is
    rendered is a permutation of the comments, in non-decreasing rank, and
    the comments of any one rank keep their relative order. *)
Theorem generate_markdown_report_sorts
    (code_snippet summary language : string) (comments : loc)
    (items : list loc) (ds : list Dict) (w : World) :
  heap w !! comments = Some (OList items) ->
  refs_to (heap w) items ds ->
  exists sorted : list Dict,
    fst (generate_markdown_report code_snippet comments summary language w)
      = render_report code_snippet language summary sorted /\
    (Forall has_required_keys ds ->
       fst (generate_markdown_report code_snippet comments summary language w)
       = Ok (report_of_sections code_snippet language summary
               (imap (fun k d => section_text (table_get lang_map language "text") (S k) d)
                     sorted))) /\
    sorted ≡ₚ ds /\
    StronglySorted (fun x y => severity_rank x <= severity_rank y) sorted /\
    (forall k, List.filter (fun d => severity_rank d =? k) sorted
               = List.filter (fun d => severity_rank d =? k) ds) /\
    (forall d, severity_rank d =
                 match severity d with
                 | Some s => if String.eqb s "HIGH" then 0
                             else if String.eqb s "MEDIUM" then 1
                             else if String.eqb s "LOW" then 2 else 1
                 | None => 1
                 end).
Proof.
  intros Hl Hds. exists (sort_comments ds).
  rewrite (generate_markdown_report_run _ _ _ _ _ _ _ Hl Hds). simpl fst.
  split; [reflexivity|]. split.
  { intros Hkeys. apply render_report_ok.
    apply Forall_forall. intros d Hd. rewrite Forall_forall in Hkeys.
    apply Hkeys. unfold sort_comments in Hd. now rewrite sort_on_perm in Hd. }
  split; [apply sort_on_perm|]. split; [apply sort_on_sorted|].
  split; [intros k; apply sort_on_stable | apply severity_rank_cases].
Qed.

End RendererClaims.

Section ResourcesClaim.

Import EmpatheticCodeReviewer.

Lemma strip_truthy (x : string) : truthy x && truthy (strip x) = truthy (strip x).
Proof. destruct x; reflexivity. Qed.

Lemma foldl_item_bullets (items : list string) (report : string) :
  foldl (fun report resource =>
           if truthy resource && truthy (strip resource)
           then report +:+ ("- " +:+ strip resource +:+ nl)
           else report)
        report items
  = report +:+ bullets (List.filter truthy (map strip items)).
Proof.
  revert report. induction items as [|x items IH]; intros report; simpl.
  - now rewrite str_app_nil_r.
  - rewrite IH, strip_truthy. destruct (truthy (strip x)); [|reflexivity].
    now rewrite str_app_assoc.
Qed.

(** What lines 288-300 add, case by case. *)
Lemma append_resources_cases (body : string) (d : Dict) :
  append_resources body d =
    match resources d with
    | None | Some ResNone | Some (ResStr "") | Some (ResList []) => body
    | Some (ResStr text) =>
        body +:+ resources_heading +:+ nl
        +:+ bullets (map strip (List.filter (fun line => truthy (strip line))
                                            (split "010" text)))
        +:+ nl
    | Some (ResList items) =>
        body +:+ resources_heading +:+ nl
        +:+ bullets (List.filter truthy (map strip items)) +:+ nl
    end.
Proof.
  unfold append_resources.
  destruct (resources d) as [[|text|items]|]; cbn [get_default resources_truthy];
    try reflexivity.
  - destruct text as [|c text]; [reflexivity|]. cbn [truthy].
    rewrite foldl_bullets. fold (resource_lines (String c text)).
    unfold resource_lines. now rewrite !str_app_assoc.
  - destruct items as [|x items]; [reflexivity|].
    rewrite foldl_item_bullets. now rewrite !str_app_assoc.
Qed.

(** Rendering cannot fail on comments that have their four keys. *)
Lemma generate_markdown_report_total
    (code_snippet summary language : string) (comments : loc)
    (items : list loc) (ds : list Dict) (w : World) :
  heap w !! comments = Some (OList items) ->
  refs_to (heap w) items ds ->
  Forall has_required_keys ds ->
  fst (generate_markdown_report code_snippet comments summary language w)
  = Ok (report_of_sections code_snippet language summary
          (sections (table_get lang_map language "text") (sort_comments ds))).
Proof.
  intros Hl Hds Hkeys.
  rewrite (generate_markdown_report_run _ _ _ _ _ _ _ Hl Hds). simpl fst.
  apply render_report_ok. apply Forall_forall. intros d Hd.
  rewrite Forall_forall in Hkeys. apply Hkeys.
  unfold sort_comments in Hd. now rewrite sort_on_perm in Hd.
Qed.



End ResourcesClaim.

(** ** The code fence *)

Section FenceFacts.

Import EmpatheticCodeReviewer.

Lemma split_app_nl (a b : string) :
  split "010" (a +:+ nl +:+ b) = split "010" a ++ split "010" b.
Proof. exact (split_app_sep "010" a b). Qed.

Lemma split_nl_head (b : string) : split "010" (nl +:+ b) = "" :: split "010" b.
Proof. reflexivity. Qed.

Lemma first_fence_skip (l1 l2 : list string) :
  Forall (fun line => is_fence line = false) l1 ->
  first_fence (l1 ++ l2) = first_fence l2.
Proof. induction 1 as [|x l1 Hx _ IH]; simpl; [reflexivity | now rewrite Hx]. Qed.

Lemma fence_body_stop (l1 l2 : list string) (x : string) :
  Forall (fun line => is_fence line = false) l1 -> is_fence x = true ->
  fence_body (l1 ++ x :: l2) = Some l1.
Proof.
  intros H Hx. induction H as [|y l1 Hy _ IH]; simpl; [now rewrite Hx|].
  now rewrite Hy, IH.
Qed.

Lemma code_lang_one_line (language : string) :
  split "010" ("```" +:+ table_get lang_map language "text")
  = ["```" +:+ table_get lang_map language "text"].
Proof.
  unfold table_get, lang_map. cbn [List.find fst snd].
  repeat (destruct (String.eqb _ language); [reflexivity|]). reflexivity.
Qed.

Lemma first_fence_cons (x : string) (l : list string) :
  is_fence x = false -> first_fence (x :: l) = first_fence l.
Proof. intros H. simpl. now rewrite H. Qed.

Lemma first_fence_open (x : string) (l : list string) :
  is_fence x = true -> first_fence (x :: l) = fence_body l.
Proof. intros H. simpl. now rewrite H. Qed.

Lemma fenced_block_parse (orig code_lang_line code_snippet : string) (tail : list string) :
  Forall (fun line => is_fence line = false) (split "010" orig) ->
  split "010" code_lang_line = [code_lang_line] ->
  is_fence code_lang_line = true ->
  fence_free code_snippet ->
  option_map (join nl)
    (first_fence ("" :: split "010" orig ++ "" :: split "010" code_lang_line ++
                  split "010" code_snippet ++ split "010" "```" ++ tail))
  = Some code_snippet.
Proof.
  intros Horig Hline Hopen Hcode.
  rewrite first_fence_cons by reflexivity.
  rewrite first_fence_skip by exact Horig.
  rewrite first_fence_cons by reflexivity.
  rewrite Hline. cbn [app].
  rewrite (first_fence_open _ _ Hopen).
  change (split "010" "```" ++ tail) with ("```" :: tail).
  rewrite (fence_body_stop (split "010" code_snippet) tail "```" Hcode eq_refl).
  simpl. f_equal. apply (join_split "010").
Qed.

Lemma report_head_parse (code_snippet language rest : string) :
  fence_free language -> fence_free code_snippet ->
  parse_code_fence
    (report_head code_snippet language (table_get lang_map language "text") +:+ rest)
  = Some code_snippet.
Proof.
  intros Hlang Hcode. unfold parse_code_fence, report_head.
  set (code_lang := table_get lang_map language "text").
  rewrite !str_app_assoc.
  rewrite split_app_nl, split_nl_head.
  rewrite <- (str_app_assoc _ language).
  rewrite split_app_nl, split_nl_head.
  rewrite split_app_nl, split_nl_head.
  rewrite <- (str_app_assoc "```" code_lang).
  rewrite (split_app_nl ("```" +:+ code_lang)), (split_app_nl code_snippet).
  rewrite (split_app_nl "```").
  rewrite first_fence_skip by (repeat constructor).
  rewrite first_fence_cons by reflexivity.
  rewrite (split_app_head "010" "**Programming Language Detected:** " language eq_refl).
  unfold fence_free in Hlang.
  destruct (split "010" language) as [|l0 ls]; cbv iota; cbn [app].
  - rewrite first_fence_cons by reflexivity.
    apply fenced_block_parse; [repeat constructor | apply code_lang_one_line | reflexivity | exact Hcode].
  - apply Forall_cons in Hlang as [_ Hls].
    rewrite first_fence_cons by reflexivity.
    rewrite first_fence_skip by exact Hls.
    apply fenced_block_parse; [repeat constructor | apply code_lang_one_line | reflexivity | exact Hcode].
Qed.

Lemma fold_m_extends (code_lang : string) (xs : list (nat * loc)) (report r : string)
    (w w' : World) :
  fold_m (fun report entry => append_comment code_lang report (fst entry) (snd entry))
         report xs w = (Ok r, w') ->
  exists rest, r = report +:+ rest.
Proof.
  revert report w. induction xs as [|[i ref] xs IH]; intros report w; simpl.
  - intros [= <- _]. exists "". now rewrite str_app_nil_r.
  - rewrite run_bind. unfold append_comment at 1.
    rewrite run_bind, (reads_run _ w (reads_deref_dict ref)).
    destruct (fst (deref_dict ref w)) as [d|e]; [|discriminate].
    unfold lift. simpl fst. simpl snd.
    destruct (comment_section code_lang report i d) as [s|e] eqn:E; [|discriminate].
    intros H. apply IH in H as [rest ->].
    apply comment_section_extends in E as [rest' ->].
    exists (rest' +:+ rest). now rewrite str_app_assoc.
Qed.

(** A report, when there is one, starts with the head of lines 253-269. *)
Lemma generate_markdown_report_head
    (code_snippet summary language report : string) (comments : loc) (w : World) :
  fst (generate_markdown_report code_snippet comments summary language w) = Ok report ->
  exists rest,
    report = report_head code_snippet language (table_get lang_map language "text")
             +:+ rest.
Proof.
  unfold generate_markdown_report.
  rewrite run_bind.
  destruct (list_sort comments _ w) as [[[]|e] w1]; [|discriminate].
  rewrite run_bind, (reads_run _ w1 (reads_deref_list comments)).
  destruct (fst (deref_list comments w1)) as [items|e]; [|discriminate].
  rewrite run_bind.
  destruct (fold_m _ _ (enumerate 1 items) w1) as [[r|e] w2] eqn:E; [|discriminate].
  apply fold_m_extends in E as [rest ->].
  intros [= <-]. unfold report_tail. rewrite !str_app_assoc. eauto.
Qed.

(** C8, amended.  When no line of [code_snippet] starts with three
    backquotes (and no line of the language label does), the first fenced
    block of any report [generate_markdown_report] returns is
    [code_snippet], character for character; and a report is returned
    whenever the comments have the keys the renderer subscripts. *)
Theorem code_fence_round_trip
    (code_snippet summary language : string) (comments : loc) (w : World) :
  fence_free code_snippet ->
  fence_free language ->
  (forall report,
     fst (generate_markdown_report code_snippet comments summary language w) = Ok report ->
     parse_code_fence report = Some code_snippet) /\
  (forall items ds,
     heap w !! comments = Some (OList items) -> refs_to (heap w) items ds ->
     Forall has_required_keys ds ->
     exists report,
       fst (generate_markdown_report code_snippet comments summary language w) = Ok report /\
       parse_code_fence report = Some code_snippet).
Proof.
  intros Hcode Hlang.
  assert (Hparse : forall report,
            fst (generate_markdown_report code_snippet comments summary language w)
            = Ok report -> parse_code_fence report = Some code_snippet).
  { intros report H. apply generate_markdown_report_head in H as [rest ->].
    now apply report_head_parse. }
  split; [exact Hparse|].
  intros items ds Hl Hds Hkeys.
  eexists. split; [exact (generate_markdown_report_total _ _ _ _ _ _ _ Hl Hds Hkeys)|].
  apply Hparse. exact (generate_markdown_report_total _ _ _ _ _ _ _ Hl Hds Hkeys).
Qed.

End FenceFacts.

(** ** The orchestrator *)

Section ReviewFacts.

Import EmpatheticCodeReviewer.

Lemma forward_run (a : EmpathyAnalyzer.t) (code_snippet comment language : string) (w : World) :
  exists lg,
    EmpathyAnalyzer.forward a code_snippet comment language w
    = (Ok (forward_result a (trace w) code_snippet comment language),
       mkWorld lg (forward_history a (trace w) code_snippet comment language) (heap w)).
Proof.
  unfold forward_result, forward_history, world_at, EmpathyAnalyzer.forward,
    try_except, bind, EmpathyAnalyzer.call_empathy_transformer,
    EmpathyAnalyzer.call_resource_finder, invoke, logger, ret.
  cbn [trace log heap].
  destruct (EmpathyAnalyzer.empathy_transformer a (trace w) _ _ _) as [p|e];
    [|eexists; reflexivity].
  destruct (EmpathyAnalyzer.resource_finder a _ _ _) as [r|e]; eexists; reflexivity.
Qed.

Lemma forward_result_keys (a : EmpathyAnalyzer.t) (history : list call)
    (code_snippet comment language : string) (bindings : Dict) :
  forward_result a history code_snippet comment language = Some bindings ->
  original bindings = None /\ is_Some (positive_rephrasing bindings) /\
  is_Some (explanation bindings) /\ is_Some (suggested_improvement bindings) /\
  is_Some (severity bindings) /\ is_Some (resources bindings).
Proof.
  unfold forward_result, world_at, EmpathyAnalyzer.forward,
    try_except, bind, EmpathyAnalyzer.call_empathy_transformer,
    EmpathyAnalyzer.call_resource_finder, invoke, logger, ret.
  cbn [trace log heap].
  destruct (EmpathyAnalyzer.empathy_transformer a history _ _ _) as [p|e];
    [|discriminate].
  destruct (EmpathyAnalyzer.resource_finder a _ _ _) as [r|e]; [|discriminate].
  intros [= <-]. cbn. eauto 10.
Qed.

Lemma record_for_keys (a : EmpathyAnalyzer.t) (history : list call)
    (code_snippet language comment : string) :
  has_required_keys (record_for a history code_snippet language comment) /\
  original (record_for a history code_snippet language comment) = Some comment.
Proof.
  unfold record_for.
  destruct (forward_result a history code_snippet comment language) as [b|] eqn:E.
  - apply forward_result_keys in E as (Ho & [p Hp] & [e He] & [s Hs] & _).
    unfold has_required_keys, dict_merge. cbn. rewrite Ho, Hp, He, Hs. eauto 10.
  - unfold has_required_keys. cbn. eauto 10.
Qed.

Lemma fresh_unused (h : gmap loc obj) : h !! fresh (dom h) = None.
Proof. apply not_elem_of_dom, is_fresh. Qed.

Lemma append_new_run (tc : loc) (d : Dict) (items : list loc) (w : World) :
  heap w !! tc = Some (OList items) ->
  (ref <- alloc (ODict d) ;; list_append tc ref) w
  = (Ok tt,
     mkWorld (log w) (trace w)
       (<[tc := OList (items ++ [fresh (dom (heap w))])]>
          (<[fresh (dom (heap w)) := ODict d]> (heap w)))).
Proof.
  intros Hl. unfold bind, alloc, list_append, deref_list, deref, store_list, bind, ret.
  cbn [heap log trace].
  rewrite lookup_insert_ne, Hl; [reflexivity|].
  intros E. pose proof (fresh_unused (heap w)) as Hf. rewrite E in Hf. congruence.
Qed.

Lemma process_comment_run (self : t) (code_snippet language : string) (total : nat)
    (tc : loc) (i : nat) (comment : string) (w : World) (items : list loc) :
  heap w !! tc = Some (OList items) ->
  exists lg ref,
    heap w !! ref = None /\
    process_comment self code_snippet language total tc i comment w
    = (Ok tt,
       mkWorld lg
         (forward_history (analyzer self) (trace w) code_snippet comment language)
         (<[tc := OList (items ++ [ref])]>
            (<[ref := ODict (record_for (analyzer self) (trace w) code_snippet
                               language comment)]> (heap w)))).
Proof.
  intros Hl. unfold process_comment.
  rewrite run_bind. unfold logger at 1. cbv iota beta.
  set (w1 := mkWorld _ (trace w) (heap w)).
  destruct (forward_run (analyzer self) code_snippet comment language w1) as [lg Hf].
  unfold try_except. rewrite run_bind, Hf. cbn [trace heap w1].
  unfold record_for.
  destruct (forward_result (analyzer self) (trace w) code_snippet comment language)
    as [bindings|].
  - unfold dict_display, lift. rewrite run_bind.
    rewrite (append_new_run tc _ items) by exact Hl.
    eexists _, _. split; [apply fresh_unused | reflexivity].
  - unfold dict_display, lift. rewrite run_bind.
    rewrite run_bind. unfold logger at 1. cbv iota beta.
    rewrite (append_new_run tc _ items) by exact Hl.
    eexists _, _. split; [apply fresh_unused | reflexivity].
Qed.

(** The store after one more record has been appended. *)
Lemma refs_to_append (h : gmap loc obj) (tc ref : loc) (items : list loc)
    (ds : list Dict) (d : Dict) :
  h !! tc = Some (OList items) -> h !! ref = None -> refs_to h items ds ->
  refs_to (<[tc := OList (items ++ [ref])]> (<[ref := ODict d]> h))
          (items ++ [ref]) (ds ++ [d]).
Proof.
  intros Hl Hfresh Hds. apply Forall2_app.
  - eapply Forall2_impl; [exact Hds|]. intros r x Hr. simpl in Hr.
    rewrite !lookup_insert_ne; [exact Hr | congruence | congruence].
  - constructor; [|constructor].
    rewrite lookup_insert_ne by congruence. apply lookup_insert_eq.
Qed.

(** The loop of lines 223-237: it cannot fail, and it appends one record
    per comment, in order. *)
Lemma process_comments_run (self : t) (code_snippet language : string) (total : nat)
    (tc : loc) (comments : list string) :
  forall (start : nat) (w : World) (items : list loc) (ds : list Dict),
  heap w !! tc = Some (OList items) -> refs_to (heap w) items ds ->
  exists w' items',
    for_each (enumerate start comments)
             (fun entry => process_comment self code_snippet language total tc
                             (fst entry) (snd entry)) w
    = (Ok tt, w') /\
    heap w' !! tc = Some (OList items') /\
    refs_to (heap w') items'
            (ds ++ transformed (analyzer self) (trace w) code_snippet language comments) /\
    trace w' = history_after (analyzer self) (trace w) code_snippet language comments.
Proof.
  induction comments as [|comment comments IH]; intros start w items ds Hl Hds.
  - exists w, items. simpl. rewrite List.app_nil_r. auto.
  - rewrite enumerate_cons. simpl for_each. rewrite run_bind. simpl fst. simpl snd.
    destruct (process_comment_run self code_snippet language total tc start comment
                w items Hl) as (lg & ref & Hfresh & ->).
    set (w1 := mkWorld lg _ _).
    destruct (IH (S start) w1 (items ++ [ref])
                 (ds ++ [record_for (analyzer self) (trace w) code_snippet language comment]))
      as (w' & items' & Hrun & Hl' & Hds' & Htr).
    + apply lookup_insert_eq.
    + now apply refs_to_append.
    + exists w', items'. split; [exact Hrun|]. split; [exact Hl'|].
      simpl. rewrite <- List.app_assoc in Hds'. split; [exact Hds' | exact Htr].
Qed.


Lemma transformed_keys (a : EmpathyAnalyzer.t) (code_snippet language : string)
    (comments : list string) (history : list call) :
  Forall has_required_keys (transformed a history code_snippet language comments).
Proof.
  revert history. induction comments as [|c comments IH]; intros history; simpl.
  - constructor.
  - constructor; [apply record_for_keys | apply IH].
Qed.

Lemma transformed_length (a : EmpathyAnalyzer.t) (code_snippet language : string)
    (comments : list string) (history : list call) :
  length (transformed a history code_snippet language comments) = length comments.
Proof.
  revert history. induction comments as [|c comments IH]; intros history; simpl;
    [reflexivity | now rewrite IH].
Qed.

(** Line 238 cannot fail: every record has a positive rephrasing. *)
Lemma map_m_bullets (items : list loc) (ds : list Dict) (w : World) :
  refs_to (heap w) items ds -> Forall has_required_keys ds ->
  map_m (fun ref =>
           tc <- deref_dict ref ;;
           v <- lift (getitem "positive_rephrasing" (positive_rephrasing tc)) ;;
           ret ("- " +:+ v))
        items w
  = (Ok (map (fun d => "- " +:+ get_default (positive_rephrasing d) "") ds), w).
Proof.
  intros Hds Hkeys. set (f := fun ref : loc => _).
  induction Hds as [|r d items ds Hr _ IH]; [reflexivity|].
  apply Forall_cons in Hkeys as [(_ & [p Hp] & _) Hkeys].
  cbn [map_m map]. rewrite run_bind. unfold f at 1.
  rewrite run_bind, (deref_dict_run r d w Hr), Hp.
  cbn [getitem get_default]. unfold lift at 1. rewrite run_bind.
  unfold ret at 1. rewrite run_bind, (IH Hkeys). reflexivity.
Qed.
End ReviewFacts.

Section ReviewRun.

Import EmpatheticCodeReviewer.

Context (re_findall : string -> string -> list LanguageDetector.re_flag -> list string).

Lemma process_review_detect_raises (self : t) (input_data : Input) (w w1 : World) (e : exn) :
  LanguageDetector.detect_language re_findall (language_detector self)
    (code_snippet input_data) w = (Raise e, w1) ->
  process_review re_findall self input_data w = (Raise e, w1).
Proof. intros H. unfold process_review. now rewrite (run_bind_raise _ _ _ _ _ H). Qed.

Lemma process_review_run (self : t) (input_data : Input) (w w1 : World) (language : string) :
  LanguageDetector.detect_language re_findall (language_detector self)
    (code_snippet input_data) w = (Ok language, w1) ->
  let code := code_snippet input_data in
  let ds := transformed (analyzer self) (trace w1) code language
              (review_comments input_data) in
  let history := history_after (analyzer self) (trace w1) code language
                   (review_comments input_data) in
  fst (process_review re_findall self input_data w)
  = match EmpathyAnalyzer.summary_generator (analyzer self) history code
            (all_feedback_of ds) language with
    | Ok summary =>
        Ok (report_of_sections code language summary
              (sections (table_get lang_map language "text") (sort_comments ds)))
    | Raise e => Raise (UnboundLocalError "summary")
    end.
Proof.
  intros Hdetect code ds history. unfold process_review.
  rewrite (run_bind_ok _ _ _ _ _ Hdetect).
  rewrite run_bind. unfold logger at 1. cbv iota beta.
  rewrite run_bind. unfold alloc at 1. cbv iota beta zeta. cbn [heap log trace].
  set (tc := fresh (dom (heap w1))).
  set (w3 := mkWorld _ (trace w1) _).
  destruct (process_comments_run self code language (length (review_comments input_data))
              tc (review_comments input_data) 0 w3 [] [])
    as (w4 & items & Hrun & Hl & Hds & Htr).
  { apply lookup_insert_eq. }
  { constructor. }
  fold code. rewrite run_bind, Hrun.
  rewrite run_bind, (deref_list_run _ _ _ Hl).
  simpl app in Hds. cbn [trace w3] in Hds, Htr. fold ds in Hds. fold history in Htr.
  rewrite run_bind, (map_m_bullets items ds w4 Hds (transformed_keys _ _ _ _ _)).
  fold (all_feedback_of ds).
  rewrite run_bind. unfold try_except, EmpathyAnalyzer.call_summary_generator.
  rewrite run_bind. unfold invoke at 1. cbv iota beta. rewrite Htr.
  destruct (EmpathyAnalyzer.summary_generator (analyzer self) history code
              (all_feedback_of ds) language) as [summary|e].
  - unfold ret at 1. cbv iota beta. unfold read_local, lift. rewrite run_bind.
    cbv iota beta. rewrite run_bind.
    set (w5 := mkWorld _ _ _).
    rewrite (generate_markdown_report_run code summary language tc items ds w5 Hl Hds).
    rewrite (render_report_ok code language summary (sort_comments ds)).
    + reflexivity.
    + apply Forall_forall. intros d Hd. unfold sort_comments in Hd.
      rewrite sort_on_perm in Hd. revert d Hd. apply Forall_forall, transformed_keys.
  - reflexivity.
Qed.

End ReviewRun.

(** ** Claims about the orchestrator *)

Section ReviewClaims.

Import EmpatheticCodeReviewer.

Context (re_findall : string -> string -> list LanguageDetector.re_flag -> list string).

(** [forward] returns [None] exactly when one of its two calls raises. *)
Lemma forward_result_none (a : EmpathyAnalyzer.t) (history : list call)
    (code_snippet comment language : string) :
  let context := language +:+ " best practices and clean code principles" in
  forward_result a history code_snippet comment language = None <->
  (exists e, EmpathyAnalyzer.empathy_transformer a history code_snippet comment context
             = Raise e) \/
  (exists p e,
     EmpathyAnalyzer.empathy_transformer a history code_snippet comment context = Ok p /\
     EmpathyAnalyzer.resource_finder a
       (history ++ [CallEmpathy code_snippet comment context])
       (slice_to 100 (EmpathySignature.why_explanation p)) language = Raise e).
Proof.
  intros context.
  unfold forward_result, world_at, EmpathyAnalyzer.forward,
    try_except, bind, EmpathyAnalyzer.call_empathy_transformer,
    EmpathyAnalyzer.call_resource_finder, invoke, logger, ret.
  cbn [trace log heap]. fold context.
  destruct (EmpathyAnalyzer.empathy_transformer a history _ _ _) as [p|e].
  - destruct (EmpathyAnalyzer.resource_finder a _ _ _) as [r|e] eqn:E; cbn [fst].
    + split; [discriminate|].
      intros [[e He] | (p' & e & Hp & He)]; [discriminate|].
      injection Hp as <-. congruence.
    + split; [|reflexivity]. intros _. right. eauto.
  - cbn [fst]. split; [|reflexivity]. intros _. left. eauto.
Qed.

(** When [forward] has returned [None], the [try] of line 225 fails on the
    dictionary display, and the handler logs that TypeError and appends the
    fallback record. *)
Lemma process_comment_fallback (self : t) (code_snippet language : string) (total : nat)
    (tc : loc) (i : nat) (comment : string) (w : World) (items : list loc) :
  heap w !! tc = Some (OList items) ->
  forward_result (analyzer self) (trace w) code_snippet comment language = None ->
  exists lg ref,
    heap w !! ref = None /\
    process_comment self code_snippet language total tc i comment w
    = (Ok tt,
       mkWorld
         (lg ++ [(ERROR, "Error processing comment '" +:+ comment +:+ "': "
                         +:+ "'NoneType' object is not a mapping")])
         (forward_history (analyzer self) (trace w) code_snippet comment language)
         (<[tc := OList (items ++ [ref])]>
            (<[ref := ODict (fallback_record comment)]> (heap w)))).
Proof.
  intros Hl Hnone. unfold process_comment.
  rewrite run_bind. unfold logger at 1. cbv iota beta.
  set (w1 := mkWorld _ (trace w) (heap w)).
  destruct (forward_run (analyzer self) code_snippet comment language w1) as [lg Hf].
  unfold try_except. rewrite run_bind, Hf. cbn [trace heap w1]. rewrite Hnone.
  unfold dict_display, lift. rewrite run_bind.
  rewrite run_bind. unfold logger at 1. cbv iota beta.
  rewrite (append_new_run tc _ items) by exact Hl.
  eexists _, _. split; [apply fresh_unused | reflexivity].
Qed.

(** C10.  [EmpathyAnalyzer.forward] never raises: it returns a value, and
    that value is [None] exactly when the transformer or the resource
    lookup raised.  Unpacking that [None] into the comment record is a
    TypeError, and this is the exception the orchestrator's handler
    catches: it logs it and appends the fallback record. *)
Theorem forward_never_raises (self : t) (code_snippet language comment : string)
    (total : nat) (tc : loc) (i : nat) (w : World) :
  let a := analyzer self in
  let context := language +:+ " best practices and clean code principles" in
  (exists v w',
     EmpathyAnalyzer.forward a code_snippet comment language w = (Ok v, w') /\
     (v = None <->
      (exists e, EmpathyAnalyzer.empathy_transformer a (trace w) code_snippet comment
                   context = Raise e) \/
      (exists p e,
         EmpathyAnalyzer.empathy_transformer a (trace w) code_snippet comment context
         = Ok p /\
         EmpathyAnalyzer.resource_finder a
           (trace w ++ [CallEmpathy code_snippet comment context])
           (slice_to 100 (EmpathySignature.why_explanation p)) language = Raise e))) /\
  dict_display comment None = Raise (TypeError "'NoneType' object is not a mapping") /\
  (forall items,
     heap w !! tc = Some (OList items) ->
     forward_result a (trace w) code_snippet comment language = None ->
     exists w' ref,
       process_comment self code_snippet language total tc i comment w = (Ok tt, w') /\
       heap w' !! tc = Some (OList (items ++ [ref])) /\
       heap w' !! ref = Some (ODict (fallback_record comment)) /\
       last (log w') = Some (ERROR, "Error processing comment '" +:+ comment +:+ "': "
                                    +:+ "'NoneType' object is not a mapping")).
Proof.
  intros a context. split; [|split; [reflexivity|]].
  - destruct (forward_run a code_snippet comment language w) as [lg Hf].
    eexists _, _. split; [exact Hf|]. apply forward_result_none.
  - intros items Hl Hnone.
    destruct (process_comment_fallback self code_snippet language total tc i comment
                w items Hl Hnone) as (lg & ref & Hfresh & Hrun).
    eexists _, ref. split; [exact Hrun|]. cbn [heap log].
    split; [apply lookup_insert_eq|]. split.
    + rewrite lookup_insert_ne, lookup_insert_eq; [reflexivity|]. congruence.
    + apply last_snoc.
Qed.

(** Each record of the loop is the one of its own comment, made from the
    calls that came before it. *)
Lemma transformed_lookup (a : EmpathyAnalyzer.t) (code_snippet language : string)
    (comments : list string) (history : list call) (i : nat) (comment : string) :
  comments !! i = Some comment ->
  transformed a history code_snippet language comments !! i
  = Some (record_for a (history_after a history code_snippet language (take i comments))
                     code_snippet language comment).
Proof.
  revert history i. induction comments as [|c comments IH]; intros history i H.
  - discriminate.
  - destruct i as [|i]; simpl in *.
    + now injection H as ->.
    + now apply IH.
Qed.

(** The feedback sections of [process_review]: whenever language detection
    returns, the loop makes one record per comment, the fallback record for
    exactly the comments on which [forward] returned [None]; and when the
    summary call answers, the report holds one section per record. *)
Lemma process_review_sections (self : t) (input_data : Input) (w w1 : World)
    (language : string) :
  LanguageDetector.detect_language re_findall (language_detector self)
    (code_snippet input_data) w = (Ok language, w1) ->
  let code := code_snippet input_data in
  let comments := review_comments input_data in
  let a := analyzer self in
  let ds := transformed a (trace w1) code language comments in
  length ds = length comments /\
  (forall i comment,
     comments !! i = Some comment ->
     let history := history_after a (trace w1) code language (take i comments) in
     ds !! i = Some (match forward_result a history code comment language with
                     | Some bindings =>
                         dict_merge (mkDict (Some comment) None None None None None)
                                    bindings
                     | None => fallback_record comment
                     end)) /\
  (forall summary,
     EmpathyAnalyzer.summary_generator a
       (history_after a (trace w1) code language comments) code (all_feedback_of ds)
       language = Ok summary ->
     let parts := sections (table_get lang_map language "text") (sort_comments ds) in
     fst (process_review re_findall self input_data w)
     = Ok (report_of_sections code language summary parts) /\
     length parts = length comments).
Proof.
  intros Hdetect code comments a ds. split; [apply transformed_length|]. split.
  - intros i comment Hi history. unfold ds. now rewrite (transformed_lookup _ _ _ _ _ _ _ Hi).
  - intros summary Hsum parts. split.
    + rewrite (process_review_run re_findall self input_data w w1 language Hdetect).
      fold code comments a ds. now rewrite Hsum.
    + unfold parts, sections. rewrite length_imap. unfold sort_comments.
      rewrite sort_on_length. apply transformed_length.
Qed.

(** C1, as the code runs.  On a reviewer built by [__init__], a snippet
    that the regex pass cannot classify makes [process_review] raise
    AttributeError before any comment is processed: there is no report. *)
Theorem process_review_unclassified_raises
    (the_lm : LM) (the_analyzer : EmpathyAnalyzer.t) (input_data : Input) (w : World) :
  LanguageDetector.detect_language_regex re_findall (code_snippet input_data) = "Unknown" ->
  fst (process_review re_findall (__init__ the_lm the_analyzer) input_data w)
  = Raise (AttributeError "type object 'LanguageDetector' has no attribute 'lm'").
Proof.
  intros H.
  pose proof (detect_language_raises_run re_findall the_lm (code_snippet input_data) w H)
    as Hrun.
  now rewrite (process_review_detect_raises re_findall (__init__ the_lm the_analyzer)
                 input_data w _ _ Hrun).
Qed.

(** C5, as the code runs.  When the summary call raises, [process_review]
    logs the error and then raises UnboundLocalError on reading [summary]:
    it returns no report. *)
Theorem process_review_summary_failure (self : t) (input_data : Input) (w w1 : World)
    (language : string) (e : exn) :
  LanguageDetector.detect_language re_findall (language_detector self)
    (code_snippet input_data) w = (Ok language, w1) ->
  let code := code_snippet input_data in
  let comments := review_comments input_data in
  let a := analyzer self in
  EmpathyAnalyzer.summary_generator a
    (history_after a (trace w1) code language comments) code
    (all_feedback_of (transformed a (trace w1) code language comments)) language
  = Raise e ->
  fst (process_review re_findall self input_data w) = Raise (UnboundLocalError "summary").
Proof.
  intros Hdetect code comments a Hsum.
  rewrite (process_review_run re_findall self input_data w w1 language Hdetect).
  fold code comments a. now rewrite Hsum.
Qed.

End ReviewClaims.

(** * Runs on the sample collaborators *)

Section Runs.

Import LanguageDetector EmpatheticCodeReviewer Samples.

(** The snippet of [main] is classified as Python; two ties at the top go
    to the language that comes first; a snippet that matches nothing is
    "Unknown". *)
Example detect_example_snippet :
  score_languages findall example_snippet
  = [("Python", 3); ("JavaScript", 0); ("Java", 0); ("C++", 0); ("C#", 0);
     ("TypeScript", 1); ("Go", 0); ("Rust", 0)]
  /\ detect_language_regex findall example_snippet = "Python".
Proof. split; vm_compute; reflexivity. Qed.

Example detect_tie_first_wins :
  score_languages findall "namespace Foo"
  = [("Python", 0); ("JavaScript", 0); ("Java", 0); ("C++", 1); ("C#", 1);
     ("TypeScript", 0); ("Go", 0); ("Rust", 0)]
  /\ detect_language_regex findall "namespace Foo" = "C++".
Proof. split; vm_compute; reflexivity. Qed.

Example detect_plain_snippet : detect_language_regex findall plain_snippet = "Unknown".
Proof. vm_compute. reflexivity. Qed.

(** C2, on the snippet of [main]. *)
Lemma detect_language_regex_first_max_witness :
  blank example_snippet = false /\
  exists before language patterns after,
    LANGUAGE_PATTERNS = before ++ (language, patterns) :: after /\
    detect_language_regex findall example_snippet = language /\
    0 < language_score findall example_snippet patterns.
Proof.
  split; [reflexivity|].
  destruct (detect_language_regex_first_max findall example_snippet eq_refl)
    as (_ & _ & Hmax).
  destruct Hmax as (before & language & patterns & after & Htable & Hlang & Hpos & _).
  - exists ("Python", snd (hd ("", []) LANGUAGE_PATTERNS)). split; [left|].
    vm_compute. lia.
  - exists before, language, patterns, after. auto.
Defined.

(** C3, amended, on three spaces. *)
Lemma detect_language_blank_witness :
  blank "   " = true /\
  detect_language_regex findall "   " = "Unknown" /\
  detect_language findall (LanguageDetector.__init__ None) "   " empty_world
  = (Ok "Unknown", empty_world).
Proof.
  split; [reflexivity|].
  destruct (detect_language_blank findall (LanguageDetector.__init__ None) "   "
              empty_world eq_refl) as (Hre & Hnone & _).
  split; [exact Hre | exact (Hnone eq_refl)].
Defined.

(** C3 as stated fails: with a language model configured, blank code is
    handed to the fallback, which here raises; and once the class binds
    [lm], the model is called with the blank code. *)
Lemma detect_language_blank_counterexample :
  blank "   " = true /\
  fst (detect_language findall (LanguageDetector.__init__ (Some lm_python)) "   "
         empty_world)
  = Raise (AttributeError "type object 'LanguageDetector' has no attribute 'lm'") /\
  fst (detect_language findall (LanguageDetector.__init__ (Some lm_python)) "   "
         empty_world)
  <> Ok "Unknown" /\
  trace (snd (detect_language findall (LanguageDetector.mk (mkClass (Some (Some lm_python)))
                                                           (Some lm_python))
                "   " empty_world))
  = [CallLM (prompt_for "   ")].
Proof. repeat split; try reflexivity. discriminate. Qed.

(** C4: the failing call, on a snippet no pattern matches. *)
Lemma detect_language_fallback_raises_witness :
  detect_language_regex findall plain_snippet = "Unknown" /\
  detect_language findall (LanguageDetector.__init__ (Some lm_python)) plain_snippet
    empty_world
  = (Raise (AttributeError "type object 'LanguageDetector' has no attribute 'lm'"),
     fallback_logged empty_world) /\
  trace (snd (detect_language findall (LanguageDetector.__init__ (Some lm_python))
                plain_snippet empty_world)) = [].
Proof.
  assert (H : detect_language_regex findall plain_snippet = "Unknown")
    by (vm_compute; reflexivity).
  split; [exact H|].
  exact (detect_language_fallback_raises findall lm_python plain_snippet empty_world H).
Defined.

(** C1: a run of [process_review] that ends without a report. *)
Lemma process_review_unclassified_raises_witness :
  detect_language_regex findall plain_snippet = "Unknown" /\
  fst (process_review findall (EmpatheticCodeReviewer.__init__ lm_python answering)
         (mkInput plain_snippet example_comments) empty_world)
  = Raise (AttributeError "type object 'LanguageDetector' has no attribute 'lm'").
Proof.
  split; [vm_compute; reflexivity|].
  apply (process_review_unclassified_raises findall lm_python answering
           (mkInput plain_snippet example_comments) empty_world).
  vm_compute. reflexivity.
Defined.

(** On the input of [main], with a transformer that fails on the second
    comment: three sections, the fallback record for that comment. *)
Example process_review_example :
  let self := EmpatheticCodeReviewer.__init__ lm_python
                (failing_on "Variable 'u' is a bad name.") in
  let ds := transformed (analyzer self) [] example_snippet "Python" example_comments in
  ds !! 1 = Some (fallback_record "Variable 'u' is a bad name.") /\
  fst (process_review findall self example_input empty_world)
  = Ok (report_of_sections example_snippet "Python" "Well done overall."
          (sections "python" (sort_comments ds))) /\
  length (sections "python" (sort_comments ds)) = 3.
Proof.
  intros self ds.
  assert (Hdetect : detect_language findall (language_detector self)
                      (code_snippet example_input) empty_world
                    = (Ok "Python", empty_world)) by (vm_compute; reflexivity).
  destruct (process_review_sections findall self example_input empty_world empty_world
              "Python" Hdetect) as (_ & _ & Hreport).
  destruct (Hreport "Well done overall." eq_refl) as [Hrun Hlen].
  split; [reflexivity|]. split; [exact Hrun | exact Hlen].
Qed.

(** C5: the input of [main] with a summary generator that raises. *)
Lemma process_review_summary_failure_witness :
  detect_language findall
    (language_detector (EmpatheticCodeReviewer.__init__ lm_python no_summary))
    example_snippet empty_world = (Ok "Python", empty_world) /\
  fst (process_review findall (EmpatheticCodeReviewer.__init__ lm_python no_summary)
         example_input empty_world)
  = Raise (UnboundLocalError "summary").
Proof.
  assert (Hdetect : detect_language findall
            (language_detector (EmpatheticCodeReviewer.__init__ lm_python no_summary))
            (code_snippet example_input) empty_world = (Ok "Python", empty_world))
    by (vm_compute; reflexivity).
  split; [exact Hdetect|].
  exact (process_review_summary_failure findall
           (EmpatheticCodeReviewer.__init__ lm_python no_summary) example_input
           empty_world empty_world "Python" (ServiceError "timeout") Hdetect eq_refl).
Defined.

Lemma four_world_list : heap four_world !! 1%positive = Some (OList four_refs).
Proof. reflexivity. Qed.

Lemma four_world_refs : refs_to (heap four_world) four_refs four_comments.
Proof. repeat constructor. Qed.

Lemma four_comments_keys : Forall has_required_keys four_comments.
Proof. repeat constructor; eexists; reflexivity. Qed.

(** The comments of severities LOW, HIGH, MEDIUM, HIGH are rendered in the
    order HIGH, HIGH, MEDIUM, LOW, the two HIGH ones in their first order;
    the list object is left in that order. *)
Example sort_example :
  map original (sort_comments four_comments)
  = [Some "second"; Some "fourth"; Some "third"; Some "first"] /\
  map severity (sort_comments four_comments)
  = [Some "HIGH"; Some "HIGH"; Some "MEDIUM"; Some "LOW"] /\
  heap (snd (generate_markdown_report example_snippet 1%positive "Fine." "Python"
               four_world)) !! 1%positive
  = Some (OList [3; 5; 4; 2]%positive).
Proof. repeat split; vm_compute; reflexivity. Qed.

(** C6, on these four comments. *)
Lemma generate_markdown_report_sorts_witness :
  heap four_world !! 1%positive = Some (OList four_refs) /\
  refs_to (heap four_world) four_refs four_comments /\
  exists sorted,
    fst (generate_markdown_report example_snippet 1%positive "Fine." "Python" four_world)
    = render_report example_snippet "Python" "Fine." sorted /\
    sorted ≡ₚ four_comments /\
    StronglySorted (fun x y => severity_rank x <= severity_rank y) sorted.
Proof.
  split; [exact four_world_list|]. split; [exact four_world_refs|].
  destruct (generate_markdown_report_sorts example_snippet "Fine." "Python" 1%positive
              four_refs four_comments four_world four_world_list four_world_refs)
    as (sorted & Hrun & _ & Hperm & Hsorted & _).
  exists sorted. auto.
Defined.



(** C8, amended, on the snippet of [main]. *)
Lemma code_fence_round_trip_witness :
  fence_free example_snippet /\ fence_free "Python" /\
  exists report,
    fst (generate_markdown_report example_snippet 1%positive "Fine." "Python" four_world)
    = Ok report /\
    parse_code_fence report = Some example_snippet.
Proof.
  assert (Hcode : fence_free example_snippet) by (vm_compute; repeat constructor).
  assert (Hlang : fence_free "Python") by (vm_compute; repeat constructor).
  split; [exact Hcode|]. split; [exact Hlang|].
  exact (proj2 (code_fence_round_trip example_snippet "Fine." "Python" 1%positive
                  four_world Hcode Hlang)
               four_refs four_comments four_world_list four_world_refs
               four_comments_keys).
Defined.

(** C8 as stated fails: a snippet that holds a fence line comes back cut
    at that line. *)
Lemma code_fence_counterexample :
  exists report,
    fst (generate_markdown_report fenced_snippet 1%positive "Fine." "Python"
           no_comments_world) = Ok report /\
    parse_code_fence report = Some "x" /\
    parse_code_fence report <> Some fenced_snippet.
Proof.
  eexists. split; [vm_compute; reflexivity|].
  split; [vm_compute; reflexivity | vm_compute; discriminate].
Qed.

End Runs.

(** * Further properties

    Properties of the code beyond its specification: the range of the
    detector, the effects of the analyzer and of the orchestrator, the
    errors and the fixed points of the renderer, and the runs of [main]. *)
Section DetectorRange.

Import LanguageDetector EmpatheticCodeReviewer.

Context (re_findall : string -> string -> list re_flag -> list string).

(** The two ways [detect_language_regex] can end. *)
Lemma detect_language_regex_cases (code : string) :
  (detect_language_regex re_findall code = "Unknown" /\
   (blank code = true \/
    forall e, e ∈ LANGUAGE_PATTERNS -> language_score re_findall code (snd e) = 0))
  \/ (blank code = false /\
      exists patterns,
        (detect_language_regex re_findall code, patterns) ∈ LANGUAGE_PATTERNS /\
        0 < language_score re_findall code patterns).
Proof.
  destruct (blank code) eqn:Hblank.
  { left. split; [now apply detect_language_regex_blank | now left]. }
  set (score := language_score re_findall code).
  unfold detect_language_regex.
  rewrite blank_empty_or_strip, Hblank, score_languages_table. simpl negb. cbv iota.
  pose proof LANGUAGE_PATTERNS_NoDup as Hnd.
  destruct LANGUAGE_PATTERNS as [|first rest] eqn:Htable; [discriminate|].
  set (scores := map _ (first :: rest)).
  assert (Hzero : max_value (map snd scores) = 0 <->
                  forall e, e ∈ first :: rest -> score (snd e) = 0).
  { rewrite max_value_zero. unfold scores. rewrite map_map. simpl snd. split.
    - intros H e He. apply H. now apply (list_elem_of_fmap_2 (fun e => score (snd e))).
    - intros H x Hx. apply list_elem_of_fmap in Hx as (e & -> & He). auto. }
  change (match scores with
          | [] => "Unknown"
          | first0 :: rest0 =>
              if max_value (map snd scores) =? 0 then "Unknown"
              else max_by_key (scores_get scores) (fst first0) (map fst rest0)
          end)
    with (if max_value (map snd scores) =? 0 then "Unknown"
          else max_by_key (scores_get scores) (fst (fst first, score (snd first)))
                 (map fst (map (fun entry => (fst entry, score (snd entry))) rest))).
  destruct (max_value (map snd scores) =? 0) eqn:E.
  - apply Nat.eqb_eq in E. left. split; [reflexivity|]. right. now apply Hzero.
  - apply Nat.eqb_neq in E. right. split; [reflexivity|].
    destruct (first_max_table (fun entry => score (snd entry)) first rest Hnd)
      as (before & language & patterns & after & Heq & Hmax & Hb & Ha).
    assert (Hlang : max_by_key (scores_get scores) (fst (fst first, score (snd first)))
                      (map fst (map (fun entry => (fst entry, score (snd entry))) rest))
                    = language).
    { rewrite <- Hmax. simpl fst. now rewrite map_map. }
    rewrite Hlang. exists patterns. split.
    + rewrite Heq. apply elem_of_app. right. left.
    + destruct (Nat.eq_dec (score patterns) 0) as [Hz|Hz]; [|lia].
      exfalso. apply E, Hzero. intros e He. rewrite Heq in He.
      apply elem_of_app in He as [He | He].
      * specialize (Hb e He). simpl in Hb. lia.
      * apply elem_of_cons in He as [-> | He]; [assumption|].
        specialize (Ha e He). simpl in Ha. lia.
Qed.

Lemma detect_language_regex_range (code : string) :
  detect_language_regex re_findall code ∈ map fst LANGUAGE_PATTERNS ++ ["Unknown"].
Proof.
  destruct (detect_language_regex_cases code) as [[-> _] | (_ & patterns & Hin & _)].
  - apply elem_of_app. right. left.
  - apply elem_of_app. left. exact (list_elem_of_fmap_2 fst _ _ Hin).
Qed.

(** X1.  Whatever the engine finds, [detect_language_regex] returns one of
    the eight names of [LANGUAGE_PATTERNS] or "Unknown"; it returns
    "Unknown" exactly when the code is blank or no pattern of any language
    matches; and [lang_map] has an entry of its own for whatever it
    returns, so the fence label of a detected language is never the
    default of line 267. *)
Theorem detect_language_regex_known (code : string) :
  let language := detect_language_regex re_findall code in
  language ∈ map fst LANGUAGE_PATTERNS ++ ["Unknown"] /\
  (language = "Unknown" <->
   blank code = true \/
   forall e, e ∈ LANGUAGE_PATTERNS -> language_score re_findall code (snd e) = 0) /\
  exists label, (language, label) ∈ lang_map.
Proof.
  intros language. subst language.
  pose proof (detect_language_regex_range code) as Hknown.
  split; [exact Hknown|]. split.
  - split.
    + intros Hu.
      destruct (detect_language_regex_cases code) as [[_ H] | (_ & patterns & Hin & _)];
        [exact H|].
      rewrite Hu in Hin.
      assert (Hkey : "Unknown" ∈ map fst LANGUAGE_PATTERNS)
        by exact (list_elem_of_fmap_2 fst _ _ Hin).
      rewrite LANGUAGE_PATTERNS_keys in Hkey.
      exfalso. revert Hkey. clear. intros Hin.
      repeat (apply elem_of_cons in Hin as [Hin | Hin]; [discriminate|]).
      now apply elem_of_nil in Hin.
    + intros H.
      destruct (detect_language_regex_cases code) as [[Hu _] | (Hb & patterns & Hin & Hpos)];
        [exact Hu|].
      destruct H as [H | H]; [congruence|].
      specialize (H _ Hin). simpl in H. lia.
  - rewrite LANGUAGE_PATTERNS_keys in Hknown. revert Hknown.
    generalize (detect_language_regex re_findall code). intros language Hin.
    simpl in Hin.
    repeat (apply elem_of_cons in Hin as [-> | Hin];
            [eexists; unfold lang_map; solve [repeat first [left | right]] |]).
    now apply elem_of_nil in Hin.
Qed.

End DetectorRange.

Section DetectorOutcome.

Import LanguageDetector.

Context (re_findall : string -> string -> list re_flag -> list string).

(** A verdict of the regex pass other than "Unknown" is final. *)
Lemma detect_language_classified (self : t) (code : string) (w : World) :
  detect_language_regex re_findall code <> "Unknown" ->
  detect_language re_findall self code w = (Ok (detect_language_regex re_findall code), w).
Proof.
  intros H. unfold detect_language.
  destruct (String.eqb_spec (detect_language_regex re_findall code) "Unknown");
    [contradiction | reflexivity].
Qed.

(** X2.  A detector built by [__init__] never calls the language model and
    never touches the store.  Whenever [detect_language] returns, it
    returns the verdict of the regex pass and has changed nothing; it
    raises exactly when a model is configured and the regex pass answers
    "Unknown", and what it raises then is the AttributeError of line 129. *)
Theorem detect_language_never_calls_model
    (lm_instance : option LM) (code : string) (w : World) :
  let verdict := detect_language_regex re_findall code in
  let r := detect_language re_findall (__init__ lm_instance) code w in
  trace (snd r) = trace w /\ heap (snd r) = heap w /\
  (forall language, fst r = Ok language -> language = verdict /\ snd r = w) /\
  ((exists e, fst r = Raise e) <-> is_Some lm_instance /\ verdict = "Unknown") /\
  (forall e, fst r = Raise e ->
     e = AttributeError "type object 'LanguageDetector' has no attribute 'lm'").
Proof.
  intros verdict r. subst r.
  destruct lm_instance as [the_lm|].
  - destruct (String.eqb_spec verdict "Unknown") as [Hu | Hc].
    + rewrite (detect_language_raises_run re_findall the_lm code w Hu). cbn [fst snd].
      split; [reflexivity|]. split; [reflexivity|].
      split; [intros language Hr; discriminate|].
      split; [split; [intros _; split; [eauto | exact Hu] | intros _; eauto]|].
      now intros e [= <-].
    + rewrite (detect_language_classified _ code w Hc). cbn [fst snd].
      split; [reflexivity|]. split; [reflexivity|].
      split; [intros language [= <-]; split; reflexivity|].
      split; [split; [intros [e He]; discriminate | intros [_ Hu]; contradiction]|].
      intros e He. discriminate.
  - rewrite detect_language_no_lm by reflexivity. cbn [fst snd].
    split; [reflexivity|]. split; [reflexivity|].
    split; [intros language [= <-]; split; reflexivity|].
    split; [split; [intros [e He]; discriminate | intros [[x Hx] _]; discriminate]|].
    intros e He. discriminate.
Qed.

(** X3.  On a detector whose class binds [lm] (by an assignment to the
    class or in a subclass), [detect_language] never raises and returns one
    of the eight names or "Unknown", without touching the store.  It calls
    a model at most once, and the model it calls is the one the class
    binds, whatever the instance holds: a failure of the call gives
    "Unknown", and a reply within ASCII is trimmed and kept if it is a
    known name, and gives "Unknown" otherwise. *)
Theorem detect_language_bound_total
    (self : t) (bound : option LM) (code : string) (w : World) :
  class_lm (class_of self) = Some bound ->
  let known := map fst LANGUAGE_PATTERNS ++ ["Unknown"] in
  exists language w',
    detect_language re_findall self code w = (Ok language, w') /\
    language ∈ known /\
    heap w' = heap w /\
    ((trace w' = trace w /\
      (language = detect_language_regex re_findall code \/ language = "Unknown")) \/
     exists the_lm,
       bound = Some the_lm /\
       trace w' = trace w ++ [CallLM (prompt_for code)] /\
       match the_lm (trace w) (prompt_for code) with
       | Ok response =>
           is_ascii response = true ->
           language = (if bool_decide (strip response ∈ known) then strip response
                       else "Unknown")
       | Raise _ => language = "Unknown"
       end).
Proof.
  intros Hclass known.
  assert (Hunknown : "Unknown" ∈ known) by (apply elem_of_app; right; left).
  destruct (String.eqb_spec (detect_language_regex re_findall code) "Unknown") as [Hu | Hc].
  - destruct (lm self) as [inst|] eqn:Hlm.
    + rewrite detect_language_unknown_lm by (rewrite ?Hlm; eauto).
      destruct self as [[c] l]. cbn [class_of class_lm] in *. subst c.
      destruct bound as [the_lm|].
      * destruct (detect_language_llm_bound the_lm code (fallback_logged w))
          as (language & w' & Hrun & Htr & Hh & Hin & Hcase).
        exists language, w'. split; [exact Hrun|]. split; [exact Hin|].
        split; [exact Hh|]. right. exists the_lm. split; [reflexivity|].
        split; [exact Htr|]. cbn [fallback_logged trace] in Hcase.
        destruct (the_lm (trace w) (prompt_for code)); [intros _|]; now destruct Hcase.
      * exists "Unknown", (fallback_logged w). split; [reflexivity|].
        split; [exact Hunknown|]. split; [reflexivity|]. left. split; [reflexivity|].
        now right.
    + rewrite detect_language_no_lm by exact Hlm. rewrite Hu.
      exists "Unknown", w. split; [reflexivity|]. split; [exact Hunknown|].
      split; [reflexivity|]. left. split; [reflexivity|]. now right.
  - rewrite (detect_language_classified self code w Hc).
    eexists _, w. split; [reflexivity|].
    split; [apply detect_language_regex_range|].
    split; [reflexivity|]. left. split; [reflexivity|]. now left.
Qed.

End DetectorOutcome.

Section AnalyzerEffects.

Import EmpatheticCodeReviewer.

Lemma slice_to_length (n : nat) (s : string) :
  String.length (slice_to n s) = Nat.min n (String.length s).
Proof.
  revert s. induction n as [|n IH]; intros [|c s]; simpl; try reflexivity.
  now rewrite IH.
Qed.

Lemma slice_to_prefix (n : nat) (s : string) : exists rest, s = slice_to n s +:+ rest.
Proof.
  revert s. induction n as [|n IH]; intros s.
  - exists s. now destruct s.
  - destruct s as [|c s]; [now exists ""|].
    destruct (IH s) as [rest Hrest]. exists rest.
    simpl slice_to. rewrite str_app_cons. now rewrite <- Hrest.
Qed.

(** X4.  [EmpathyAnalyzer.forward] never raises and never touches the
    store.  It calls the transformer once, first, and the resource finder
    at most once and only when the transformer has answered; the topic it
    passes is a prefix of the explanation, and for an explanation within
    ASCII it is the explanation cut at 100 characters, a shorter one being
    passed whole.  It logs one error exactly when it returns [None], and
    nothing otherwise. *)
Theorem forward_effects
    (a : EmpathyAnalyzer.t) (code_snippet comment language : string) (w : World) :
  let context := language +:+ " best practices and clean code principles" in
  let first_call := CallEmpathy code_snippet comment context in
  exists v w',
    EmpathyAnalyzer.forward a code_snippet comment language w = (Ok v, w') /\
    heap w' = heap w /\
    ((trace w' = trace w ++ [first_call] /\ v = None /\
      exists e, EmpathyAnalyzer.empathy_transformer a (trace w) code_snippet comment context
                = Raise e) \/
     exists p topic rest,
       EmpathyAnalyzer.empathy_transformer a (trace w) code_snippet comment context = Ok p /\
       trace w' = trace w ++ [first_call; CallResources topic language] /\
       EmpathySignature.why_explanation p = topic +:+ rest /\
       (is_ascii (EmpathySignature.why_explanation p) = true ->
        String.length topic
        = Nat.min 100 (String.length (EmpathySignature.why_explanation p)))) /\
    match v with
    | Some _ => log w' = log w
    | None =>
        exists e, log w' = log w ++ [(ERROR, "Error in empathy analysis: " +:+ exn_str e)]
    end.
Proof.
  intros context first_call.
  unfold EmpathyAnalyzer.forward, try_except, bind,
    EmpathyAnalyzer.call_empathy_transformer, EmpathyAnalyzer.call_resource_finder,
    invoke, logger, ret.
  cbn [trace log heap]. fold context.
  destruct (EmpathyAnalyzer.empathy_transformer a (trace w) code_snippet comment context)
    as [p|e] eqn:Hp.
  - destruct (slice_to_prefix 100 (EmpathySignature.why_explanation p)) as [rest Hrest].
    destruct (EmpathyAnalyzer.resource_finder a _ _ _) as [r|e] eqn:Hr.
    + eexists _, _. split; [reflexivity|]. cbn [heap trace log].
      split; [reflexivity|]. split; [|reflexivity].
      right. exists p, (slice_to 100 (EmpathySignature.why_explanation p)), rest.
      split; [reflexivity|]. split; [now rewrite <- List.app_assoc|].
      split; [exact Hrest | intros _; apply slice_to_length].
    + eexists _, _. split; [reflexivity|]. cbn [heap trace log].
      split; [reflexivity|]. split; [|eauto].
      right. exists p, (slice_to 100 (EmpathySignature.why_explanation p)), rest.
      split; [reflexivity|]. split; [now rewrite <- List.app_assoc|].
      split; [exact Hrest | intros _; apply slice_to_length].
  - eexists _, _. split; [reflexivity|]. cbn [heap trace log].
    split; [reflexivity|]. split; [|eauto].
    left. split; [reflexivity|]. split; [reflexivity|]. eauto.
Qed.

End AnalyzerEffects.

Section ReviewLoop.

Import EmpatheticCodeReviewer.

Lemma record_for_all_keys (a : EmpathyAnalyzer.t) (history : list call)
    (code_snippet language comment : string) :
  has_all_keys (record_for a history code_snippet language comment).
Proof.
  split; [apply record_for_keys|]. unfold record_for.
  destruct (forward_result a history code_snippet comment language) as [b|] eqn:E.
  - apply forward_result_keys in E as (_ & _ & _ & _ & [s Hs] & [r Hr]).
    unfold dict_merge. cbn. rewrite Hs, Hr. eauto.
  - cbn. eauto.
Qed.

Lemma transformed_all_keys (a : EmpathyAnalyzer.t) (code_snippet language : string)
    (comments : list string) (history : list call) :
  Forall has_all_keys (transformed a history code_snippet language comments).
Proof.
  revert history. induction comments as [|c comments IH]; intros history; simpl.
  - constructor.
  - constructor; [apply record_for_all_keys | apply IH].
Qed.

Lemma transformed_originals (a : EmpathyAnalyzer.t) (code_snippet language : string)
    (comments : list string) (history : list call) :
  map original (transformed a history code_snippet language comments) = map Some comments.
Proof.
  revert history. induction comments as [|c comments IH]; intros history; simpl.
  - reflexivity.
  - rewrite IH. f_equal. apply record_for_keys.
Qed.

(** The loop creates objects and replaces the list; every other object of
    the store stays as it was. *)
Lemma process_comments_frame (self : t) (code_snippet language : string) (total : nat)
    (tc : loc) (comments : list string) :
  forall (start : nat) (w w' : World) (items : list loc),
  heap w !! tc = Some (OList items) ->
  for_each (enumerate start comments)
           (fun entry => process_comment self code_snippet language total tc
                           (fst entry) (snd entry)) w
  = (Ok tt, w') ->
  forall l o, l <> tc -> heap w !! l = Some o -> heap w' !! l = Some o.
Proof.
  induction comments as [|comment comments IH]; intros start w w' items Hl.
  - simpl. intros [= <-]. auto.
  - rewrite enumerate_cons. simpl for_each. rewrite run_bind. simpl fst. simpl snd.
    destruct (process_comment_run self code_snippet language total tc start comment
                w items Hl) as (lg & ref & Hfresh & ->).
    intros Hrun l o Hne Ho.
    apply (IH _ _ _ (items ++ [ref]) (lookup_insert_eq _ _ _) Hrun l o Hne).
    cbn [heap]. rewrite !lookup_insert_ne; [exact Ho | congruence | congruence].
Qed.

(** X5.  The loop of lines 223-237 cannot fail, whatever the predictors
    do.  It appends one record per comment, in the order of the comments,
    after the records the list held, which stay as they were, like every
    other object of the store; each new record has the comment itself
    under "original" and binds all six keys. *)
Theorem process_comments_total
    (self : t) (code_snippet language : string) (total start : nat) (tc : loc)
    (comments : list string) (w : World) (items0 : list loc) (ds0 : list Dict) :
  heap w !! tc = Some (OList items0) ->
  refs_to (heap w) items0 ds0 ->
  exists w' items ds,
    for_each (enumerate start comments)
             (fun entry => process_comment self code_snippet language total tc
                             (fst entry) (snd entry)) w
    = (Ok tt, w') /\
    heap w' !! tc = Some (OList items) /\
    refs_to (heap w') items (ds0 ++ ds) /\
    length items = length items0 + length comments /\
    map original ds = map Some comments /\
    Forall has_all_keys ds /\
    (forall l o, l <> tc -> heap w !! l = Some o -> heap w' !! l = Some o).
Proof.
  intros Hl Hds.
  destruct (process_comments_run self code_snippet language total tc comments start w
              items0 ds0 Hl Hds) as (w' & items & Hrun & Hl' & Hds' & _).
  exists w', items, (transformed (analyzer self) (trace w) code_snippet language comments).
  split; [exact Hrun|]. split; [exact Hl'|]. split; [exact Hds'|].
  split; [|split; [apply transformed_originals|split; [apply transformed_all_keys|]]].
  2:{ exact (process_comments_frame self code_snippet language total tc comments start
               w w' items0 Hl Hrun). }
  rewrite (Forall2_length _ _ _ Hds'), (Forall2_length _ _ _ Hds), length_app.
  now rewrite transformed_length.
Qed.

End ReviewLoop.

Section ReviewOutcomes.

Import EmpatheticCodeReviewer.

Context (re_findall : string -> string -> list LanguageDetector.re_flag -> list string).

(** X6.  On a reviewer built by [__init__], [process_review] returns a
    report exactly when the regex pass classifies the snippet and the
    summary call answers.  Otherwise it raises, and only one of two
    exceptions: the AttributeError of line 129 or the UnboundLocalError of
    line 246; the rendering itself never fails. *)
Theorem process_review_outcomes
    (the_lm : LM) (the_analyzer : EmpathyAnalyzer.t) (input_data : Input) (w : World) :
  let code := code_snippet input_data in
  let comments := review_comments input_data in
  let verdict := LanguageDetector.detect_language_regex re_findall code in
  let ds := transformed the_analyzer (trace w) code verdict comments in
  let answer := EmpathyAnalyzer.summary_generator the_analyzer
                  (history_after the_analyzer (trace w) code verdict comments)
                  code (all_feedback_of ds) verdict in
  let r := fst (process_review re_findall (__init__ the_lm the_analyzer) input_data w) in
  ((exists report, r = Ok report) <->
   verdict <> "Unknown" /\ exists summary, answer = Ok summary) /\
  (forall e, r = Raise e ->
     e = AttributeError "type object 'LanguageDetector' has no attribute 'lm'" \/
     e = UnboundLocalError "summary").
Proof.
  intros code comments verdict ds answer r.
  destruct (String.eqb_spec verdict "Unknown") as [Hu | Hc].
  - pose proof (detect_language_raises_run re_findall the_lm code w Hu) as Hrun.
    assert (Hr : r = Raise (AttributeError
                              "type object 'LanguageDetector' has no attribute 'lm'")).
    { unfold r.
      now rewrite (process_review_detect_raises re_findall (__init__ the_lm the_analyzer)
                     input_data w _ _ Hrun). }
    rewrite Hr. split.
    + split; [intros [report H]; discriminate | intros [H _]; contradiction].
    + intros e [= <-]. now left.
  - pose proof (detect_language_classified re_findall
                  (language_detector (__init__ the_lm the_analyzer)) code w Hc) as Hrun.
    assert (Hr : r = match answer with
                     | Ok summary =>
                         Ok (report_of_sections code verdict summary
                               (sections (table_get lang_map verdict "text")
                                         (sort_comments ds)))
                     | Raise _ => Raise (UnboundLocalError "summary")
                     end).
    { unfold r.
      exact (process_review_run re_findall (__init__ the_lm the_analyzer) input_data
               w w verdict Hrun). }
    rewrite Hr. destruct answer as [summary|e0].
    + split; [|intros e He; discriminate].
      split; [intros _; split; [exact Hc | eauto] | intros _; eauto].
    + split.
      * split; [intros [report H]; discriminate | intros [_ [s H]]; discriminate].
      * intros e [= <-]. now right.
Qed.

End ReviewOutcomes.

Section ReviewCalls.

Import EmpatheticCodeReviewer.

Context (re_findall : string -> string -> list LanguageDetector.re_flag -> list string).

(** The calls [forward] adds to the history: one or two, both to the
    predictors. *)
Lemma forward_history_calls (a : EmpathyAnalyzer.t) (history : list call)
    (code_snippet comment language : string) :
  exists calls,
    forward_history a history code_snippet comment language = history ++ calls /\
    1 <= length calls <= 2 /\
    forallb is_analysis_call calls = true.
Proof.
  unfold forward_history, world_at, EmpathyAnalyzer.forward, try_except, bind,
    EmpathyAnalyzer.call_empathy_transformer, EmpathyAnalyzer.call_resource_finder,
    invoke, logger, ret.
  cbn [trace log heap].
  destruct (EmpathyAnalyzer.empathy_transformer a history _ _ _) as [p|e].
  - destruct (EmpathyAnalyzer.resource_finder a _ _ _) as [r|e]; cbn [snd trace];
      rewrite <- List.app_assoc; eexists; (split; [reflexivity|]); simpl;
      (split; [lia | reflexivity]).
  - cbn [snd trace]. eexists. split; [reflexivity|]. simpl. split; [lia | reflexivity].
Qed.

Lemma history_after_calls (a : EmpathyAnalyzer.t) (code_snippet language : string)
    (comments : list string) (history : list call) :
  exists calls,
    history_after a history code_snippet language comments = history ++ calls /\
    length comments <= length calls <= 2 * length comments /\
    forallb is_analysis_call calls = true.
Proof.
  revert history. induction comments as [|c comments IH]; intros history; simpl.
  - exists []. rewrite List.app_nil_r. simpl. split; [reflexivity|]. split; [lia | reflexivity].
  - destruct (forward_history_calls a history code_snippet c language)
      as (calls1 & -> & Hlen1 & Hall1).
    destruct (IH (history ++ calls1)) as (calls2 & -> & Hlen2 & Hall2).
    exists (calls1 ++ calls2). rewrite <- List.app_assoc. split; [reflexivity|].
    rewrite length_app, forallb_app, Hall1, Hall2. split; [lia | reflexivity].
Qed.

(** The calls made by the end of [process_review], once the language is
    detected: those of the loop, then the summary call. *)
Lemma process_review_trace (self : t) (input_data : Input) (w w1 : World) (language : string) :
  LanguageDetector.detect_language re_findall (language_detector self)
    (code_snippet input_data) w = (Ok language, w1) ->
  let code := code_snippet input_data in
  let ds := transformed (analyzer self) (trace w1) code language
              (review_comments input_data) in
  let history := history_after (analyzer self) (trace w1) code language
                   (review_comments input_data) in
  trace (snd (process_review re_findall self input_data w))
  = history ++ [CallSummary code (all_feedback_of ds) language].
Proof.
  intros Hdetect code ds history. unfold process_review.
  rewrite (run_bind_ok _ _ _ _ _ Hdetect).
  rewrite run_bind. unfold logger at 1. cbv iota beta.
  rewrite run_bind. unfold alloc at 1. cbv iota beta zeta. cbn [heap log trace].
  set (tc := fresh (dom (heap w1))).
  set (w3 := mkWorld _ (trace w1) _).
  destruct (process_comments_run self code language (length (review_comments input_data))
              tc (review_comments input_data) 0 w3 [] [])
    as (w4 & items & Hrun & Hl & Hds & Htr).
  { apply lookup_insert_eq. }
  { constructor. }
  fold code. rewrite run_bind, Hrun.
  rewrite run_bind, (deref_list_run _ _ _ Hl).
  simpl app in Hds. cbn [trace w3] in Hds, Htr. fold ds in Hds. fold history in Htr.
  rewrite run_bind, (map_m_bullets items ds w4 Hds (transformed_keys _ _ _ _ _)).
  fold (all_feedback_of ds).
  rewrite run_bind. unfold try_except, EmpathyAnalyzer.call_summary_generator.
  rewrite run_bind. unfold invoke at 1. cbv iota beta. rewrite Htr.
  destruct (EmpathyAnalyzer.summary_generator (analyzer self) history code
              (all_feedback_of ds) language) as [summary|e].
  - unfold ret at 1. cbv iota beta. unfold read_local, lift. rewrite run_bind.
    cbv iota beta. rewrite run_bind.
    set (w5 := mkWorld _ _ _).
    rewrite (generate_markdown_report_run code summary language tc items ds w5 Hl Hds).
    rewrite (render_report_ok code language summary (sort_comments ds)).
    + reflexivity.
    + apply Forall_forall. intros d Hd. unfold sort_comments in Hd.
      rewrite sort_on_perm in Hd. revert d Hd. apply Forall_forall, transformed_keys.
  - reflexivity.
Qed.

(** X7.  Once the language is detected, [process_review] calls the
    predictors between N and 2N times for N comments, and then the summary
    generator exactly once, as its last call, whether or not that call
    answers; the feedback it passes lists the rephrasings in the order of
    the comments, not in the order of the report. *)
Theorem process_review_calls
    (self : t) (input_data : Input) (w w1 : World) (language : string) :
  LanguageDetector.detect_language re_findall (language_detector self)
    (code_snippet input_data) w = (Ok language, w1) ->
  let code := code_snippet input_data in
  let comments := review_comments input_data in
  let ds := transformed (analyzer self) (trace w1) code language comments in
  exists calls,
    trace (snd (process_review re_findall self input_data w))
    = trace w1 ++ calls ++ [CallSummary code (all_feedback_of ds) language] /\
    length comments <= length calls <= 2 * length comments /\
    forallb is_analysis_call calls = true /\
    map original ds = map Some comments.
Proof.
  intros Hdetect code comments ds.
  destruct (history_after_calls (analyzer self) code language comments (trace w1))
    as (calls & Hcalls & Hlen & Hall).
  exists calls. split.
  - rewrite (process_review_trace self input_data w w1 language Hdetect).
    fold code comments. rewrite Hcalls. now rewrite <- List.app_assoc.
  - split; [exact Hlen|]. split; [exact Hall | apply transformed_originals].
Qed.

(** X8.  With no review comments, and once the language is detected,
    [process_review] makes one call only, to the summary generator, with an
    empty feedback text; when that call answers, the report is the head
    followed at once by the tail, with no feedback section. *)
Theorem process_review_no_comments
    (self : t) (code : string) (w w1 : World) (language : string) :
  LanguageDetector.detect_language re_findall (language_detector self) code w
  = (Ok language, w1) ->
  let r := process_review re_findall self (mkInput code []) w in
  trace (snd r) = trace w1 ++ [CallSummary code "" language] /\
  fst r = match EmpathyAnalyzer.summary_generator (analyzer self) (trace w1) code ""
                  language with
          | Ok summary =>
              Ok (report_head code language (table_get lang_map language "text")
                  +:+ report_tail "" summary)
          | Raise _ => Raise (UnboundLocalError "summary")
          end.
Proof.
  intros Hdetect r. subst r. split.
  - exact (process_review_trace self (mkInput code []) w w1 language Hdetect).
  - rewrite (process_review_run re_findall self (mkInput code []) w w1 language Hdetect).
    cbn [code_snippet review_comments transformed history_after].
    change (all_feedback_of []) with "".
    destruct (EmpathyAnalyzer.summary_generator (analyzer self) (trace w1) code "" language)
      as [summary|e]; [|reflexivity].
    unfold report_of_sections, report_tail. cbn [sections imap sort_comments].
    change (sort_comments []) with (@nil Dict). cbn [sections imap concat foldr].
    now rewrite !str_app_assoc.
Qed.

End ReviewCalls.

Section ReviewLog.

Import EmpatheticCodeReviewer.

(** [forward] in full: its value, its calls and its log entries depend on
    the calls made before it only. *)
Lemma forward_world (a : EmpathyAnalyzer.t) (code_snippet comment language : string)
    (w : World) :
  EmpathyAnalyzer.forward a code_snippet comment language w
  = (Ok (forward_result a (trace w) code_snippet comment language),
     mkWorld (log w ++ forward_log a (trace w) code_snippet comment language)
             (forward_history a (trace w) code_snippet comment language) (heap w)).
Proof.
  unfold forward_result, forward_history, forward_log, world_at, EmpathyAnalyzer.forward,
    try_except, bind, EmpathyAnalyzer.call_empathy_transformer,
    EmpathyAnalyzer.call_resource_finder, invoke, logger, ret.
  cbn [trace log heap].
  destruct (EmpathyAnalyzer.empathy_transformer a (trace w) _ _ _) as [p|e];
    [|reflexivity].
  destruct (EmpathyAnalyzer.resource_finder a _ _ _) as [r|e]; cbn [fst snd log];
    [now rewrite List.app_nil_r | reflexivity].
Qed.

Lemma forward_log_cases (a : EmpathyAnalyzer.t) (history : list call)
    (code_snippet comment language : string) :
  match forward_result a history code_snippet comment language with
  | Some _ => forward_log a history code_snippet comment language = []
  | None =>
      exists e, forward_log a history code_snippet comment language
                = [(ERROR, "Error in empathy analysis: " +:+ exn_str e)]
  end.
Proof.
  unfold forward_result, forward_log, world_at, EmpathyAnalyzer.forward,
    try_except, bind, EmpathyAnalyzer.call_empathy_transformer,
    EmpathyAnalyzer.call_resource_finder, invoke, logger, ret.
  cbn [trace log heap].
  destruct (EmpathyAnalyzer.empathy_transformer a history _ _ _) as [p|e];
    [|cbn; eauto].
  destruct (EmpathyAnalyzer.resource_finder a _ _ _) as [r|e]; cbn; eauto.
Qed.

(** One turn of the loop, with its log: the progress line, then nothing
    when [forward] returned a dictionary, and two errors when it returned
    [None]. *)
Lemma process_comment_log (self : t) (code_snippet language : string) (total : nat)
    (tc : loc) (i : nat) (comment : string) (w : World) (items : list loc) :
  heap w !! tc = Some (OList items) ->
  exists errors ref,
    process_comment self code_snippet language total tc i comment w
    = (Ok tt,
       mkWorld (log w ++ progress_entry total i :: errors)
         (forward_history (analyzer self) (trace w) code_snippet comment language)
         (<[tc := OList (items ++ [ref])]>
            (<[ref := ODict (record_for (analyzer self) (trace w) code_snippet
                               language comment)]> (heap w)))) /\
    forallb is_error errors = true /\
    length errors
    = match forward_result (analyzer self) (trace w) code_snippet comment language with
      | Some _ => 0
      | None => 2
      end.
Proof.
  intros Hl. unfold process_comment.
  rewrite run_bind. unfold logger at 1. cbv iota beta.
  fold (progress_entry total i).
  set (w1 := mkWorld _ (trace w) (heap w)).
  unfold try_except. rewrite run_bind, forward_world. cbn [trace heap log w1].
  unfold record_for.
  pose proof (forward_log_cases (analyzer self) (trace w) code_snippet comment language)
    as Hlog.
  destruct (forward_result (analyzer self) (trace w) code_snippet comment language)
    as [bindings|].
  - rewrite Hlog, List.app_nil_r.
    unfold dict_display, lift. rewrite run_bind.
    rewrite (append_new_run tc _ items) by exact Hl.
    exists [], (fresh (dom (heap w))). cbn [log trace heap]. auto.
  - destruct Hlog as [e ->].
    unfold dict_display, lift. rewrite run_bind.
    rewrite run_bind. unfold logger at 1. cbv iota beta.
    rewrite (append_new_run tc _ items) by exact Hl.
    eexists [_; _], (fresh (dom (heap w))). cbn [log trace heap].
    rewrite <- !List.app_assoc. auto.
Qed.

(** X9.  The log of the loop of lines 223-237.  Its INFO entries are the
    progress lines, one per comment, numbered from 1 in the order of the
    comments, each with the total; every other entry is an ERROR, and
    there are two of them for each comment on which [forward] returned
    [None]: no failure goes unlogged, and nothing is logged as a warning. *)
Theorem process_comments_log
    (self : t) (code_snippet language : string) (total : nat) (tc : loc)
    (comments : list string) :
  forall (start : nat) (w : World) (items : list loc),
  heap w !! tc = Some (OList items) ->
  exists added,
    log (snd (for_each (enumerate start comments)
                (fun entry => process_comment self code_snippet language total tc
                                (fst entry) (snd entry)) w))
    = log w ++ added /\
    List.filter is_info added
    = map (progress_entry total) (seq start (length comments)) /\
    forallb (fun entry => is_info entry || is_error entry) added = true /\
    length (List.filter is_error added)
    = 2 * length (failed (analyzer self) (trace w) code_snippet language comments).
Proof.
  induction comments as [|comment comments IH]; intros start w items Hl.
  - exists []. simpl. now rewrite List.app_nil_r.
  - rewrite enumerate_cons. simpl for_each. rewrite run_bind. simpl fst. simpl snd.
    destruct (process_comment_log self code_snippet language total tc start comment
                w items Hl) as (errors & ref & -> & Herr & Hlen).
    set (w1 := mkWorld _ _ _).
    destruct (IH (S start) w1 (items ++ [ref]) (lookup_insert_eq _ _ _))
      as (added & Hlog & Hinfo & Hall & Herrors).
    exists (progress_entry total start :: errors ++ added).
    assert (Hfilter_info : List.filter is_info errors = []).
    { clear -Herr. induction errors as [|[[] msg] errors IHe]; simpl in *;
        try discriminate; auto. }
    assert (Hfilter_err : List.filter is_error errors = errors).
    { clear -Herr. induction errors as [|[[] msg] errors IHe]; simpl in *;
        try discriminate; [reflexivity|]. now rewrite IHe. }
    split; [|split; [|split]].
    + rewrite Hlog. cbn [log w1]. now rewrite <- List.app_assoc.
    + cbn [List.filter is_info progress_entry fst]. fold (progress_entry total start).
      rewrite List.filter_app, Hfilter_info, Hinfo. reflexivity.
    + cbn [forallb is_info is_error progress_entry fst orb andb].
      rewrite forallb_app, Hall, andb_true_r.
      clear -Herr. induction errors as [|[[] msg] errors IHe]; simpl in *;
        try discriminate; auto.
    + cbn [List.filter is_error progress_entry fst].
      rewrite List.filter_app, Hfilter_err, length_app, Herrors, Hlen.
      cbn [trace w1 failed].
      destruct (forward_result (analyzer self) (trace w) code_snippet comment language);
        rewrite length_app; simpl; lia.
Qed.

End ReviewLog.

Section RendererErrors.

Import EmpatheticCodeReviewer.

(** A section fails only on a missing key, with the KeyError of that key. *)
Lemma comment_section_raises (code_lang report : string) (i : nat) (d : Dict) (e : exn) :
  comment_section code_lang report i d = Raise e ->
  ~ has_required_keys d /\ exists key, e = KeyError key /\ key ∈ required_keys.
Proof.
  unfold comment_section, has_required_keys, required_keys.
  destruct (original d) as [o|]; cbn [getitem obind].
  2:{ intros [= <-]. split; [intros ([x Hx] & _); discriminate|].
      eexists. split; [reflexivity|]. set_solver. }
  destruct (positive_rephrasing d) as [p|]; cbn [getitem obind].
  2:{ intros [= <-]. split; [intros (_ & [x Hx] & _); discriminate|].
      eexists. split; [reflexivity|]. set_solver. }
  destruct (explanation d) as [x|]; cbn [getitem obind].
  2:{ intros [= <-]. split; [intros (_ & _ & [y Hy] & _); discriminate|].
      eexists. split; [reflexivity|]. set_solver. }
  destruct (suggested_improvement d) as [s|]; cbn [getitem obind].
  2:{ intros [= <-]. split; [intros (_ & _ & _ & [y Hy]); discriminate|].
      eexists. split; [reflexivity|]. set_solver. }
  discriminate.
Qed.

Lemma render_comments_raises (code_lang report : string) (i : nat) (ds : list Dict) (e : exn) :
  render_comments code_lang report i ds = Raise e ->
  ~ Forall has_required_keys ds /\ exists key, e = KeyError key /\ key ∈ required_keys.
Proof.
  revert report i. induction ds as [|d ds IH]; intros report i; simpl; [discriminate|].
  destruct (comment_section code_lang report i d) as [s|e0] eqn:E; cbn [obind].
  - intros H. apply IH in H as [Hn Hk]. split; [|exact Hk].
    intros Hall. apply Hn. now apply Forall_cons in Hall as [_ Hall].
  - intros [= <-]. apply comment_section_raises in E as [Hn Hk]. split; [|exact Hk].
    intros Hall. apply Hn. now apply Forall_cons in Hall as [Hd _].
Qed.

Lemma comment_section_keys (code_lang report s : string) (i : nat) (d : Dict) :
  comment_section code_lang report i d = Ok s -> has_required_keys d.
Proof.
  unfold comment_section, has_required_keys.
  destruct (original d), (positive_rephrasing d), (explanation d),
    (suggested_improvement d); try discriminate. eauto 10.
Qed.

Lemma render_comments_keys (code_lang report s : string) (i : nat) (ds : list Dict) :
  render_comments code_lang report i ds = Ok s -> Forall has_required_keys ds.
Proof.
  revert report i. induction ds as [|d ds IH]; intros report i; simpl; [constructor|].
  destruct (comment_section code_lang report i d) as [s'|e] eqn:E; [|discriminate].
  cbn [obind]. intros H. constructor; [exact (comment_section_keys _ _ _ _ _ E)|].
  exact (IH _ _ H).
Qed.

Lemma sort_comments_keys (ds : list Dict) :
  Forall has_required_keys (sort_comments ds) <-> Forall has_required_keys ds.
Proof.
  unfold sort_comments. rewrite !Forall_forall.
  split; intros H d Hd; apply H.
  - now rewrite sort_on_perm.
  - now rewrite sort_on_perm in Hd.
Qed.

(** X10.  On a list of dictionaries, [generate_markdown_report] returns a
    report exactly when every comment binds the four keys it subscripts;
    otherwise it raises the KeyError of one of those four keys, and nothing
    else.  Either way the list has by then been sorted in place. *)
Theorem generate_markdown_report_key_error
    (code_snippet summary language : string) (comments : loc)
    (items : list loc) (ds : list Dict) (w : World) :
  heap w !! comments = Some (OList items) ->
  refs_to (heap w) items ds ->
  let r := generate_markdown_report code_snippet comments summary language w in
  ((exists report, fst r = Ok report) <-> Forall has_required_keys ds) /\
  (forall e, fst r = Raise e -> exists key, e = KeyError key /\ key ∈ required_keys) /\
  heap (snd r) !! comments = Some (OList (sort_refs (heap w) items)).
Proof.
  intros Hl Hds r. subst r.
  rewrite (generate_markdown_report_run _ _ _ _ _ _ _ Hl Hds). cbn [fst snd heap].
  split; [|split; [|apply lookup_insert_eq]].
  - split.
    + intros [report Hr]. apply sort_comments_keys.
      unfold render_report in Hr.
      destruct (render_comments _ _ 1 (sort_comments ds)) as [s|e] eqn:E;
        [|discriminate].
      exact (render_comments_keys _ _ _ _ _ E).
    + intros Hk. apply sort_comments_keys in Hk.
      rewrite (render_report_ok _ _ _ _ Hk). eauto.
  - intros e He. unfold render_report in He.
    destruct (render_comments _ _ 1 (sort_comments ds)) as [s|e0] eqn:E; [discriminate|].
    cbn [obind] in He. injection He as <-.
    now apply render_comments_raises in E as [_ Hk].
Qed.

End RendererErrors.

Section SortedAgain.

Context {B : Type} (rank : B -> nat).

(** A stable sort leaves a sorted list as it is. *)
Lemma sort_by_key_sorted_id (xs : list B) :
  StronglySorted (fun x y => rank x <= rank y) xs ->
  sort_by_key (map (fun x => (rank x, x)) xs) = map (fun x => (rank x, x)) xs.
Proof.
  induction 1 as [|x xs Hs IH Hall]; [reflexivity|].
  cbn [map]. simpl sort_by_key. rewrite IH.
  destruct xs as [|y xs]; [reflexivity|].
  cbn [map insert_key]. apply Forall_cons in Hall as [Hxy _].
  apply Nat.leb_le in Hxy. now rewrite Hxy.
Qed.

Lemma sort_on_sorted_id (xs : list B) :
  StronglySorted (fun x y => rank x <= rank y) xs -> sort_on rank xs = xs.
Proof.
  intros H. unfold sort_on. rewrite (sort_by_key_sorted_id xs H), map_map.
  simpl. apply map_id.
Qed.

Lemma sort_on_idem (xs : list B) : sort_on rank (sort_on rank xs) = sort_on rank xs.
Proof. apply sort_on_sorted_id, sort_on_sorted. Qed.

End SortedAgain.

Section SortedRelated.

Context {B C : Type} (R : B -> C -> Prop) (rank_b : B -> nat) (rank_c : C -> nat).
Context (Hrank : forall x y, R x y -> rank_b x = rank_c y).

(** Sortedness passes from a list to one related to it item by item. *)
Lemma sorted_related (xs : list B) (ys : list C) :
  Forall2 R xs ys ->
  StronglySorted (fun x y => rank_c x <= rank_c y) ys ->
  StronglySorted (fun x y => rank_b x <= rank_b y) xs.
Proof.
  induction 1 as [|x y xs ys Hxy Hall IH]; intros Hs; [constructor|].
  apply StronglySorted_inv in Hs as [Hs Hy].
  constructor; [auto|].
  rewrite (Hrank x y Hxy). clear IH Hs.
  induction Hall as [|x' y' xs ys Hxy' _ IH]; [constructor|].
  apply Forall_cons in Hy as [Hy Hys].
  constructor; [now rewrite (Hrank x' y' Hxy') | auto].
Qed.

End SortedRelated.

Section RendererAgain.

Import EmpatheticCodeReviewer.

(** The references of a sorted list lead to the sorted dictionaries, in the
    store where the list has been replaced. *)
Lemma refs_to_sorted (h : gmap loc obj) (comments : loc) (items : list loc)
    (ds : list Dict) :
  h !! comments = Some (OList items) -> refs_to h items ds ->
  refs_to (<[comments := OList (sort_refs h items)]> h) (sort_refs h items)
          (sort_comments ds).
Proof.
  intros Hl Hds. apply (refs_to_insert_list _ _ items); [assumption|].
  apply (sort_on_related (fun r d => h !! r = Some (ODict d))); [|assumption].
  intros r d Hr. unfold rank_at. now rewrite Hr.
Qed.

(** X11.  Rendering twice is rendering once: a second call of
    [generate_markdown_report] with the same arguments returns what the
    first returned, a failure included, and leaves the store as the first
    call left it, the list being sorted already. *)
Theorem generate_markdown_report_idempotent
    (code_snippet summary language : string) (comments : loc)
    (items : list loc) (ds : list Dict) (w : World) :
  heap w !! comments = Some (OList items) ->
  refs_to (heap w) items ds ->
  let r := generate_markdown_report code_snippet comments summary language w in
  generate_markdown_report code_snippet comments summary language (snd r) = r.
Proof.
  intros Hl Hds r. subst r.
  rewrite (generate_markdown_report_run _ _ _ _ _ _ _ Hl Hds). cbn [snd].
  set (sorted := sort_refs (heap w) items).
  set (w1 := mkWorld _ _ _).
  assert (Hl1 : heap w1 !! comments = Some (OList sorted)) by apply lookup_insert_eq.
  assert (Hds1 : refs_to (heap w1) sorted (sort_comments ds))
    by exact (refs_to_sorted (heap w) comments items ds Hl Hds).
  rewrite (generate_markdown_report_run _ _ _ _ _ _ _ Hl1 Hds1).
  change (sort_comments (sort_comments ds))
    with (sort_on severity_rank (sort_on severity_rank ds)).
  rewrite sort_on_idem. fold (sort_comments ds).
  f_equal. unfold w1. cbn [log trace heap]. f_equal.
  assert (Hs : sort_refs (heap w1) sorted = sorted).
  { apply sort_on_sorted_id.
    apply (sorted_related (fun r d => heap w1 !! r = Some (ODict d))
             (rank_at (heap w1)) severity_rank) with (ys := sort_comments ds).
    - intros r d Hr. unfold rank_at. now rewrite Hr.
    - exact Hds1.
    - apply sort_on_sorted. }
  cbn [heap w1] in Hs. rewrite Hs. apply insert_insert_eq.
Qed.

(** The loop of lines 274-300 only appends: what it adds does not depend
    on the report it is given. *)
Lemma fold_m_prefix (code_lang : string) (xs : list (nat * loc)) (a b : string) (w : World) :
  fold_m (fun report entry => append_comment code_lang report (fst entry) (snd entry))
         (a +:+ b) xs w
  = match fold_m (fun report entry => append_comment code_lang report (fst entry) (snd entry))
                 b xs w with
    | (Ok s, w') => (Ok (a +:+ s), w')
    | (Raise e, w') => (Raise e, w')
    end.
Proof.
  revert b w. induction xs as [|[i ref] xs IH]; intros b w; [reflexivity|].
  simpl fold_m. rewrite !run_bind. cbn [fst snd]. unfold append_comment.
  rewrite !run_bind, (reads_run _ w (reads_deref_dict ref)).
  destruct (fst (deref_dict ref w)) as [d|e]; [|reflexivity].
  unfold lift. rewrite comment_section_prefix.
  destruct (comment_section code_lang b i d) as [s|e]; [apply IH | reflexivity].
Qed.

Lemma report_tail_prefix (report summary : string) :
  report_tail report summary = report +:+ report_tail "" summary.
Proof. unfold report_tail. now rewrite !str_app_assoc. Qed.

(** X12.  A report, whenever one is returned, is the head of lines
    253-269, then the feedback sections, then the tail of lines 302-306
    with the summary in it; and the feedback sections depend on the
    comments and the language only: with another snippet and another
    summary the same call returns the same sections inside the other head
    and tail. *)
Theorem generate_markdown_report_envelope
    (code_snippet summary language report : string) (comments : loc) (w : World) :
  fst (generate_markdown_report code_snippet comments summary language w) = Ok report ->
  let code_lang := table_get lang_map language "text" in
  exists middle,
    report = report_head code_snippet language code_lang +:+ middle
             +:+ report_tail "" summary /\
    forall code_snippet' summary',
      fst (generate_markdown_report code_snippet' comments summary' language w)
      = Ok (report_head code_snippet' language code_lang +:+ middle
            +:+ report_tail "" summary').
Proof.
  intros Hrun code_lang. revert Hrun.
  unfold generate_markdown_report. fold code_lang.
  rewrite run_bind.
  destruct (list_sort comments _ w) as [[[]|e] w1] eqn:Hsort; [|discriminate].
  rewrite run_bind, (reads_run _ w1 (reads_deref_list comments)).
  destruct (fst (deref_list comments w1)) as [items|e] eqn:Hitems; [|discriminate].
  rewrite run_bind.
  rewrite <- (str_app_nil_r (report_head code_snippet language code_lang)).
  rewrite fold_m_prefix.
  destruct (fold_m _ "" (enumerate 1 items) w1) as [[middle|e] w2] eqn:Hfold;
    [|discriminate].
  intros [= <-]. exists middle. split.
  - now rewrite (report_tail_prefix (_ +:+ middle)), !str_app_nil_r, str_app_assoc.
  - intros code_snippet' summary'.
    rewrite run_bind, Hsort.
    rewrite run_bind, (reads_run _ w1 (reads_deref_list comments)), Hitems.
    rewrite run_bind.
    rewrite <- (str_app_nil_r (report_head code_snippet' language code_lang)).
    rewrite fold_m_prefix, Hfold. unfold ret. cbn [fst].
    now rewrite (report_tail_prefix (_ +:+ middle)), !str_app_nil_r, str_app_assoc.
Qed.

End RendererAgain.

Section ResourceLines.

Import EmpatheticCodeReviewer.

Lemma split_blank (c : ascii) (s : string) :
  blank s = true -> Forall (fun piece => blank piece = true) (split c s).
Proof.
  induction s as [|x s IH]; simpl; [repeat constructor|].
  intros [Hx Hs]%andb_prop. specialize (IH Hs).
  destruct (Ascii.eqb x c); [now constructor|].
  destruct (split c s) as [|piece pieces]; [repeat constructor; simpl; now rewrite Hx|].
  apply Forall_cons in IH as [Hp Hps].
  constructor; [simpl; now rewrite Hx, Hp | exact Hps].
Qed.

Lemma filter_strip_blank (lines : list string) :
  Forall (fun line => blank line = true) lines ->
  List.filter (fun line => truthy (strip line)) lines = [].
Proof.
  induction 1 as [|line lines Hline _ IH]; [reflexivity|].
  simpl. apply strip_empty_iff in Hline. now rewrite Hline.
Qed.

Lemma filter_truthy_strip_blank (items : list string) :
  Forall (fun x => blank x = true) items ->
  List.filter truthy (map strip items) = [].
Proof.
  induction 1 as [|x items Hx _ IH]; [reflexivity|].
  simpl. apply strip_empty_iff in Hx. now rewrite Hx.
Qed.

(** X13.  Resources that are not empty but hold white space only (a string
    of blanks and newlines, or a list of blank strings) are not left out:
    the heading of the Learning Resources subsection is written, followed
    by no bullet at all. *)
Theorem blank_resources_heading_only (body : string) (d : Dict) :
  (exists text, resources d = Some (ResStr text) /\ text <> "" /\ blank text = true) \/
  (exists items, resources d = Some (ResList items) /\ items <> [] /\
                 Forall (fun x => blank x = true) items) ->
  append_resources body d = body +:+ resources_heading +:+ nl +:+ nl.
Proof.
  intros [(text & Hr & Hne & Hb) | (items & Hr & Hne & Hb)];
    rewrite append_resources_cases, Hr.
  - destruct text as [|c text]; [contradiction|].
    now rewrite (filter_strip_blank _ (split_blank "010" _ Hb)).
  - destruct items as [|x items]; [contradiction|].
    now rewrite (filter_truthy_strip_blank _ Hb).
Qed.

Lemma split_no_sep (c : ascii) (s : string) :
  Forall (fun piece => has_char c piece = false) (split c s).
Proof.
  induction s as [|x s IH]; simpl; [repeat constructor|].
  destruct (Ascii.eqb x c) eqn:E; [now constructor|].
  destruct (split c s) as [|piece pieces]; [repeat constructor; simpl; now rewrite E|].
  apply Forall_cons in IH as [Hp Hps].
  constructor; [simpl; now rewrite E, Hp | exact Hps].
Qed.

Lemma lstrip_no_char (c : ascii) (s : string) :
  has_char c s = false -> has_char c (lstrip s) = false.
Proof.
  induction s as [|x s IH]; simpl; [reflexivity|].
  intros [Hx Hs]%orb_false_elim.
  destruct (isspace x); [auto | simpl; now rewrite Hx, Hs].
Qed.

Lemma rstrip_no_char (c : ascii) (s : string) :
  has_char c s = false -> has_char c (rstrip s) = false.
Proof.
  induction s as [|x s IH]; simpl; [reflexivity|].
  intros [Hx Hs]%orb_false_elim. specialize (IH Hs).
  destruct (rstrip s) as [|y r].
  - destruct (isspace x); [reflexivity | simpl; now rewrite Hx].
  - simpl in *. now rewrite Hx, IH.
Qed.

Lemma rstrip_idem (s : string) : rstrip (rstrip s) = rstrip s.
Proof.
  induction s as [|x s IH]; simpl; [reflexivity|].
  destruct (rstrip s) as [|y r] eqn:E.
  - destruct (isspace x) eqn:Hx; [reflexivity | simpl; now rewrite Hx].
  - simpl. simpl in IH. now rewrite IH.
Qed.

Lemma lstrip_rstrip_head (s : string) :
  lstrip s = s -> lstrip (rstrip s) = rstrip s.
Proof.
  destruct s as [|x s]; [reflexivity|]. simpl.
  destruct (isspace x) eqn:Hx.
  - intros H. exfalso.
    assert (Hlen : String.length (lstrip s) <= String.length s).
    { clear. induction s as [|y s IH]; simpl; [lia|]. destruct (isspace y); simpl; lia. }
    rewrite H in Hlen. simpl in Hlen. lia.
  - intros _. destruct (rstrip s); simpl; now rewrite Hx.
Qed.

Lemma lstrip_idem (s : string) : lstrip (lstrip s) = lstrip s.
Proof.
  induction s as [|x s IH]; simpl; [reflexivity|].
  destruct (isspace x) eqn:Hx; [exact IH | simpl; now rewrite Hx].
Qed.

(** Trimming twice is trimming once. *)
Lemma strip_idem (s : string) : strip (strip s) = strip s.
Proof.
  unfold strip.
  rewrite (lstrip_rstrip_head (lstrip s)) by apply lstrip_idem.
  apply rstrip_idem.
Qed.

Lemma strip_no_char (c : ascii) (s : string) :
  has_char c s = false -> has_char c (strip s) = false.
Proof. intros H. unfold strip. now apply rstrip_no_char, lstrip_no_char. Qed.

(** X14.  The bullets made from resources given as one string within
    ASCII are well formed: each holds one line of the string, trimmed, so
    it is not empty, has no blank at either end, and has no newline in it;
    they come in the order of the lines, and there are no more of them
    than lines. *)
Theorem string_resources_bullets (body text : string) (d : Dict) :
  resources d = Some (ResStr text) ->
  text <> "" ->
  is_ascii text = true ->
  append_resources body d
  = body +:+ resources_heading +:+ nl +:+ bullets (resource_lines text) +:+ nl /\
  Forall (fun line => line <> "" /\ strip line = line /\ has_char "010" line = false)
         (resource_lines text) /\
  length (resource_lines text) <= length (split "010" text).
Proof.
  intros Hr Hne _. split; [|split].
  - rewrite append_resources_cases, Hr. now destruct text.
  - unfold resource_lines. apply Forall_forall. intros line Hin.
    apply list_elem_of_fmap in Hin as (piece & -> & Hin).
    apply list_elem_of_In, filter_In in Hin as [Hin Htruthy].
    split; [now apply truthy_true|]. split; [apply strip_idem|].
    apply strip_no_char.
    pose proof (split_no_sep "010" text) as Hall.
    rewrite Forall_forall in Hall. apply Hall. now apply list_elem_of_In.
  - unfold resource_lines. rewrite length_map.
    rewrite <- (filter_length (fun line => truthy (strip line)) (split "010" text)).
    apply Nat.le_add_r.
Qed.

Lemma table_get_emoji (d : Dict) :
  table_get severity_emoji_table (get_default (severity d) "MEDIUM") "ğŸŸ¡"
  = rank_emoji (severity_rank d).
Proof.
  unfold severity_rank, table_get, severity_order, severity_emoji_table.
  destruct (severity d) as [s|]; [|reflexivity].
  cbn [List.find fst snd get_default].
  destruct (String.eqb "HIGH" s); [reflexivity|].
  destruct (String.eqb "MEDIUM" s); [reflexivity|].
  now destruct (String.eqb "LOW" s).
Qed.

(** X15.  The two tables of the renderer agree: the emoji in the heading of
    a section is the one of the rank the comment was sorted by, so the
    headings of a report show the red, then the yellow, then the green
    ones.  The heading also holds the position of the section, counted
    from 1, and the original comment between double quotes. *)
Theorem section_heading (code_lang : string) (i : nat) (d : Dict) :
  has_required_keys d ->
  exists comment rest,
    original d = Some comment /\
    section_text code_lang i d
    = "---" +:+ nl +:+ nl +:+ "### " +:+ rank_emoji (severity_rank d)
      +:+ " Analysis of Comment #" +:+ pretty i +:+ ": " +:+ dq +:+ comment +:+ dq
      +:+ nl +:+ nl +:+ rest.
Proof.
  intros ([o Ho] & [p Hp] & [e He] & [s Hs]).
  exists o. unfold section_text, comment_section.
  rewrite Ho, Hp, He, Hs. cbn [getitem obind]. rewrite table_get_emoji.
  eexists. split; [reflexivity|].
  rewrite str_app_nil_l, !str_app_assoc, !append_resources_prefix.
  reflexivity.
Qed.

End ResourceLines.

Section MainFacts.

Import EmpatheticCodeReviewer Program Observing.

Context (re_findall : string -> string -> list LanguageDetector.re_flag -> list string).

(** The constructor, case by case. *)
Lemma init_run (env : Env) (w : World) :
  Program.__init__ env w =
    match dspy_LM env (getenv env "OPENROUTER_API_KEY") with
    | Raise e =>
        (Raise e, logged ERROR ("Failed to initialize language model: " +:+ exn_str e) w)
    | Ok the_lm =>
        match dspy_configure env the_lm with
        | Raise e =>
            (Raise e,
             logged ERROR ("Failed to initialize language model: " +:+ exn_str e) w)
        | Ok _ =>
            match EmpathyAnalyzer_new env with
            | Raise e => (Raise e, logged INFO "Successfully initialized language model" w)
            | Ok the_analyzer =>
                (Ok (EmpatheticCodeReviewer.__init__ the_lm the_analyzer),
                 logged INFO "Successfully initialized language model" w)
            end
        end
    end.
Proof.
  unfold Program.__init__, try_except, bind, lift, logger, raise, ret, logged.
  destruct (dspy_LM env _) as [the_lm|e]; [|reflexivity].
  destruct (dspy_configure env the_lm) as [[]|e]; [|reflexivity].
  now destruct (EmpathyAnalyzer_new env).
Qed.

(** The [try] of [main]: build the reviewer, run the review, output the
    report. *)
Lemma main_try_steps (env : Env) (p : Process) :
  main_try re_findall env p =
    match Program.__init__ env (world p) with
    | (Raise e, w0) => (Raise e, mkProcess w0 (io p))
    | (Ok reviewer, w0) =>
        match process_review re_findall reviewer (example_input)
                (logged INFO "Processing code review..." w0) with
        | (Raise e, w1) => (Raise e, mkProcess w1 (io p))
        | (Ok report, w1) => report_output env report (mkProcess w1 (io p))
        end
    end.
Proof.
  unfold main_try, io_bind at 1, run at 1.
  destruct (Program.__init__ env (world p)) as [[reviewer|e] w0]; cbn [fst snd];
    [|reflexivity].
  unfold io_bind at 1, run at 1. unfold logger at 1 2. cbn [fst snd world io].
  unfold io_bind at 1, run at 1. cbn [world io]. fold (logged INFO "Processing code review..." w0).
  destruct (process_review re_findall reviewer example_input _) as [[report|e] w1];
    cbn [fst snd]; reflexivity.
Qed.

(** The output calls made for a report: the five of [output_calls] when
    all of them succeed, the first ones of them otherwise. *)
Lemma report_output_calls (env : Env) (report : string) (p : Process) :
  exists calls,
    snd (report_output env report p) = mkProcess (world p) (io p ++ calls) /\
    calls `prefix_of` output_calls report /\
    (forall u, fst (report_output env report p) = Ok u -> calls = output_calls report).
Proof.
  unfold report_output, io_bind, print, write_text, os_call, io_bind, output_calls.
  repeat (cbn [io world fst snd];
          match goal with
          | |- context [os_answer env ?h ?c] => destruct (os_answer env h c) as [[]|?]
          end);
    cbn [io world fst snd]; eexists; rewrite <- ?List.app_assoc;
    (split; [reflexivity|]);
    (split; [eexists; reflexivity | intros u Hu; first [discriminate | reflexivity]]).
Qed.

Lemma process_review_unknown_raises
    (the_lm : LM) (the_analyzer : EmpathyAnalyzer.t) (input_data : Input) (w : World) :
  LanguageDetector.detect_language_regex re_findall (code_snippet input_data) = "Unknown" ->
  exists w',
    process_review re_findall (EmpatheticCodeReviewer.__init__ the_lm the_analyzer)
      input_data w
    = (Raise (AttributeError "type object 'LanguageDetector' has no attribute 'lm'"), w').
Proof.
  intros H.
  pose proof (detect_language_raises_run re_findall the_lm (code_snippet input_data) w H)
    as Hrun.
  eexists.
  exact (process_review_detect_raises re_findall
           (EmpatheticCodeReviewer.__init__ the_lm the_analyzer) input_data w _ _ Hrun).
Qed.

(** X16.  Without the key (the variable is unset or empty) [main] does
    nothing but print its request: it builds nothing, calls no service,
    logs nothing, opens no file; it then leaves with exit status 1, unless
    the print itself raised. *)
Theorem main_without_api_key (env : Env) (p : Process) :
  getenv env "OPENROUTER_API_KEY" = None \/ getenv env "OPENROUTER_API_KEY" = Some "" ->
  let request := CallPrint "Please set OPENROUTER_API_KEY environment variable" in
  snd (main re_findall env p) = mkProcess (world p) (io p ++ [request]) /\
  fst (main re_findall env p)
  = match os_answer env (io p) request with
    | Ok _ => Exited 1
    | Raise e => Uncaught e
    end.
Proof.
  intros Hkey request. unfold main.
  assert (Hno : negb (match getenv env "OPENROUTER_API_KEY" with
                      | Some key => truthy key
                      | None => false
                      end) = true) by (destruct Hkey as [-> | ->]; reflexivity).
  rewrite Hno. unfold print, os_call. fold request.
  destruct (os_answer env (io p) request) as [[]|e]; split; reflexivity.
Qed.

(** X17.  When [main] returns, the reviewer was built, [process_review]
    returned a report, and the output calls made are exactly these five, in
    this order: the report printed after a newline, the file
    empathetic_review_output.md opened for writing, the same report
    written to it, the file closed, the closing message printed.  This can
    only happen when the regex pass classifies the snippet of [main]. *)
Theorem main_returned (env : Env) (p p' : Process) :
  main re_findall env p = (Returned, p') ->
  exists reviewer w0 report,
    has_api_key env /\
    Program.__init__ env (world p) = (Ok reviewer, w0) /\
    process_review re_findall reviewer example_input
      (logged INFO "Processing code review..." w0) = (Ok report, world p') /\
    io p' = io p ++ output_calls report /\
    LanguageDetector.detect_language_regex re_findall Samples.example_snippet <> "Unknown".
Proof.
  unfold main.
  destruct (getenv env "OPENROUTER_API_KEY") as [key|] eqn:Hkey; cbn [negb].
  2:{ destruct (print env _ p) as [[[]|e] p1]; discriminate. }
  destruct (truthy key) eqn:Htruthy; cbn [negb].
  2:{ destruct (print env _ p) as [[[]|e] p1]; discriminate. }
  rewrite main_try_steps.
  pose proof (init_run env (world p)) as Hinit.
  destruct (Program.__init__ env (world p)) as [[reviewer|e] w0]; [|discriminate].
  destruct (process_review re_findall reviewer example_input _) as [[report|e] w1] eqn:Hrun;
    [|discriminate].
  destruct (report_output_calls env report (mkProcess w1 (io p)))
    as (calls & Hsnd & _ & Hok).
  destruct (report_output env report (mkProcess w1 (io p))) as [[[]|e] p1] eqn:Hout;
    [|discriminate].
  intros [= <-]. cbn [snd fst world io] in Hsnd, Hok.
  rewrite (Hok tt eq_refl) in Hsnd. subst p1. cbn [world io].
  exists reviewer, w0, report.
  split; [exists key; split; [exact Hkey | now apply truthy_true]|].
  split; [reflexivity|]. split; [exact Hrun|]. split; [reflexivity|].
  intros Hu. rewrite Hkey in Hinit.
  destruct (dspy_LM env (Some key)) as [the_lm|]; [|discriminate].
  destruct (dspy_configure env the_lm) as [[]|]; [|discriminate].
  destruct (EmpathyAnalyzer_new env) as [the_analyzer|]; [|discriminate].
  injection Hinit as -> _.
  destruct (process_review_unknown_raises the_lm the_analyzer example_input
              (logged INFO "Processing code review..." w0) Hu) as [w' Hraise].
  rewrite Hraise in Hrun. discriminate.
Qed.

(** X18.  With the key set, no exception leaves [main]: it returns, or it
    leaves with exit status 1 after logging the application error as its
    last log entry.  Either way the output calls it has made are the five
    of a run that goes well or the first ones of them, for the report
    [process_review] returned; when the reviewer cannot be built or
    [process_review] raises, it makes none. *)
Theorem main_exit_status (env : Env) (p : Process) :
  has_api_key env ->
  let r := main re_findall env p in
  (fst r = Returned \/
   fst r = Exited 1 /\
   exists e, last (log (world (snd r))) = Some (ERROR, "Application error: " +:+ exn_str e)) /\
  (io (snd r) = io p \/
   exists reviewer w0 w1 report calls,
     Program.__init__ env (world p) = (Ok reviewer, w0) /\
     process_review re_findall reviewer example_input
       (logged INFO "Processing code review..." w0) = (Ok report, w1) /\
     io (snd r) = io p ++ calls /\
     calls `prefix_of` output_calls report).
Proof.
  intros (key & Hkey & Hne) r. subst r. unfold main. rewrite Hkey.
  apply truthy_true in Hne. rewrite Hne. cbn [negb].
  rewrite main_try_steps.
  destruct (Program.__init__ env (world p)) as [[reviewer|e] w0].
  2:{ cbn [fst snd run logger world io]. split; [|now left].
      right. split; [reflexivity|]. exists e. apply last_snoc. }
  destruct (process_review re_findall reviewer example_input _) as [[report|e] w1] eqn:Hrun.
  2:{ cbn [fst snd run logger world io]. split; [|now left].
      right. split; [reflexivity|]. exists e. apply last_snoc. }
  destruct (report_output_calls env report (mkProcess w1 (io p)))
    as (calls & Hsnd & Hprefix & _).
  destruct (report_output env report (mkProcess w1 (io p))) as [[[]|e] p1].
  - cbn [fst snd] in *. split; [now left|]. right.
    exists reviewer, w0, w1, report, calls. rewrite Hsnd. cbn [io]. auto.
  - cbn [fst snd] in *. subst p1. cbn [run logger fst snd world io].
    split.
    + right. split; [reflexivity|]. exists e. apply last_snoc.
    + right. exists reviewer, w0, w1, report, calls. auto.
Qed.

(** X19.  When the summary generator the library builds raises on every
    call, [main] cannot produce its report, whatever the regex engine and
    the other predictors do: it leaves with exit status 1, having printed
    nothing and opened no file. *)
Theorem main_summary_failure (env : Env) (p : Process) (the_analyzer : EmpathyAnalyzer.t) :
  has_api_key env ->
  EmpathyAnalyzer_new env = Ok the_analyzer ->
  (forall history code_snippet all_feedback language,
     exists e, EmpathyAnalyzer.summary_generator the_analyzer history code_snippet
                 all_feedback language = Raise e) ->
  fst (main re_findall env p) = Exited 1 /\ io (snd (main re_findall env p)) = io p.
Proof.
  intros (key & Hkey & Hne) Hnew Hsummary. unfold main. rewrite Hkey.
  apply truthy_true in Hne. rewrite Hne. cbn [negb].
  rewrite main_try_steps, init_run, Hkey, Hnew.
  destruct (dspy_LM env (Some key)) as [the_lm|e]; [|split; reflexivity].
  destruct (dspy_configure env the_lm) as [[]|e]; [|split; reflexivity].
  set (w0 := logged INFO "Successfully initialized language model" (world p)).
  set (w1 := logged INFO "Processing code review..." w0).
  set (self := EmpatheticCodeReviewer.__init__ the_lm the_analyzer).
  assert (Hraise : exists e, fst (process_review re_findall self example_input w1) = Raise e).
  { destruct (LanguageDetector.detect_language re_findall (language_detector self)
                (code_snippet example_input) w1) as [[language|e] w2] eqn:Hdetect.
    - rewrite (process_review_run re_findall self example_input w1 w2 language Hdetect).
      cbn [analyzer self EmpatheticCodeReviewer.__init__].
      destruct (Hsummary
                  (history_after the_analyzer (trace w2) (code_snippet example_input)
                     language (review_comments example_input))
                  (code_snippet example_input)
                  (all_feedback_of
                     (transformed the_analyzer (trace w2) (code_snippet example_input)
                        language (review_comments example_input)))
                  language) as [e ->].
      eauto.
    - rewrite (process_review_detect_raises re_findall self example_input w1 w2 e Hdetect).
      eauto. }
  destruct Hraise as [e He].
  destruct (process_review re_findall self example_input w1) as [[report|e'] w2];
    cbn [fst] in He; [discriminate|].
  split; reflexivity.
Qed.

(** X20.  When the library fails to build or to configure the language
    model, the failure is logged twice, by the constructor and then by
    [main], which leaves with exit status 1; no service has been called
    and no output made.  When only the predictors fail to build, the log
    first says that the language model was initialized. *)
Theorem main_construction_failure (env : Env) (p : Process) (e : exn) :
  has_api_key env ->
  fst (Program.__init__ env (world p)) = Raise e ->
  let first_entry :=
    match dspy_LM env (getenv env "OPENROUTER_API_KEY") with
    | Ok the_lm =>
        match dspy_configure env the_lm with
        | Ok _ => (INFO, "Successfully initialized language model")
        | Raise _ => (ERROR, "Failed to initialize language model: " +:+ exn_str e)
        end
    | Raise _ => (ERROR, "Failed to initialize language model: " +:+ exn_str e)
    end in
  main re_findall env p
  = (Exited 1,
     mkProcess
       (mkWorld (log (world p) ++ [first_entry; (ERROR, "Application error: " +:+ exn_str e)])
                (trace (world p)) (heap (world p)))
       (io p)).
Proof.
  intros (key & Hkey & Hne) Hinit first_entry. subst first_entry.
  unfold main. rewrite Hkey.
  apply truthy_true in Hne. rewrite Hne. cbn [negb].
  rewrite main_try_steps.
  rewrite init_run, Hkey in Hinit |- *.
  destruct (dspy_LM env (Some key)) as [the_lm|e1].
  - destruct (dspy_configure env the_lm) as [[]|e2].
    + destruct (EmpathyAnalyzer_new env) as [a|e3]; [discriminate|].
      cbn [fst] in Hinit. injection Hinit as ->.
      cbn [snd fst run logger logged world io log trace heap].
      now rewrite <- List.app_assoc.
    + cbn [fst] in Hinit. injection Hinit as ->.
      cbn [snd fst run logger logged world io log trace heap].
      now rewrite <- List.app_assoc.
  - cbn [fst] in Hinit. injection Hinit as ->.
    cbn [snd fst run logger logged world io log trace heap].
    now rewrite <- List.app_assoc.
Qed.

End MainFacts.

(** * Runs of the further properties *)

Section FurtherRuns.

Import LanguageDetector EmpatheticCodeReviewer Samples Program Observing Trial.

(** X3, on a snippet no pattern matches: the model of the class is asked. *)
Lemma detect_language_bound_total_witness :
  class_lm (class_of bound_detector) = Some (Some lm_python) /\
  exists language w',
    detect_language findall bound_detector plain_snippet empty_world = (Ok language, w') /\
    language ∈ map fst LANGUAGE_PATTERNS ++ ["Unknown"] /\
    heap w' = heap empty_world.
Proof.
  split; [reflexivity|].
  destruct (detect_language_bound_total findall bound_detector (Some lm_python)
              plain_snippet empty_world eq_refl)
    as (language & w' & Hrun & Hin & Hheap & _).
  exists language, w'. auto.
Defined.

Example bound_detector_example :
  detect_language findall bound_detector plain_snippet empty_world
  = (Ok "Python",
     mkWorld [(INFO, "Regex detection failed, falling back to LLM")]
             [CallLM (prompt_for plain_snippet)] ∅).
Proof. vm_compute. reflexivity. Qed.

(** X5, on the comments of [main], the second of which fails. *)
Lemma process_comments_total_witness :
  heap no_comments_world !! 1%positive = Some (OList []) /\
  refs_to (heap no_comments_world) [] [] /\
  exists w' items ds,
    for_each (enumerate 0 example_comments)
             (fun entry =>
                process_comment
                  (EmpatheticCodeReviewer.__init__ lm_python
                     (failing_on "Variable 'u' is a bad name."))
                  example_snippet "Python" 3 1%positive (fst entry) (snd entry))
             no_comments_world
    = (Ok tt, w') /\
    heap w' !! 1%positive = Some (OList items) /\
    refs_to (heap w') items ds /\
    length items = 3 /\
    map original ds = map Some example_comments.
Proof.
  assert (Hl : heap no_comments_world !! 1%positive = Some (OList [])) by reflexivity.
  assert (Hds : refs_to (heap no_comments_world) [] []) by constructor.
  split; [exact Hl|]. split; [exact Hds|].
  destruct (process_comments_total
              (EmpatheticCodeReviewer.__init__ lm_python
                 (failing_on "Variable 'u' is a bad name."))
              example_snippet "Python" 3 0 1%positive example_comments
              no_comments_world [] [] Hl Hds)
    as (w' & items & ds & Hrun & Hl' & Hds' & Hlen & Horig & _).
  exists w', items, ds. auto.
Defined.

(** X7 and X8, on the input of [main] and on the same snippet without
    comments. *)
Lemma process_review_calls_witness :
  detect_language findall
    (language_detector (EmpatheticCodeReviewer.__init__ lm_python answering))
    example_snippet empty_world = (Ok "Python", empty_world) /\
  exists calls summary_call,
    trace (snd (process_review findall
                  (EmpatheticCodeReviewer.__init__ lm_python answering)
                  Samples.example_input empty_world))
    = calls ++ [summary_call] /\
    3 <= length calls <= 6.
Proof.
  assert (Hdetect : detect_language findall
            (language_detector (EmpatheticCodeReviewer.__init__ lm_python answering))
            (code_snippet Samples.example_input) empty_world = (Ok "Python", empty_world))
    by (vm_compute; reflexivity).
  split; [exact Hdetect|].
  destruct (process_review_calls findall
              (EmpatheticCodeReviewer.__init__ lm_python answering)
              Samples.example_input empty_world empty_world "Python" Hdetect)
    as (calls & Htrace & Hlen & _).
  exists calls. eexists. split; [exact Htrace | exact Hlen].
Defined.

Lemma process_review_no_comments_witness :
  detect_language findall
    (language_detector (EmpatheticCodeReviewer.__init__ lm_python answering))
    example_snippet empty_world = (Ok "Python", empty_world) /\
  trace (snd (process_review findall
                (EmpatheticCodeReviewer.__init__ lm_python answering)
                (mkInput example_snippet []) empty_world))
  = [CallSummary example_snippet "" "Python"].
Proof.
  assert (Hdetect : detect_language findall
            (language_detector (EmpatheticCodeReviewer.__init__ lm_python answering))
            example_snippet empty_world = (Ok "Python", empty_world))
    by (vm_compute; reflexivity).
  split; [exact Hdetect|].
  exact (proj1 (process_review_no_comments findall
                  (EmpatheticCodeReviewer.__init__ lm_python answering)
                  example_snippet empty_world empty_world "Python" Hdetect)).
Defined.

(** X9, on the comments of [main], the second of which fails: three
    progress lines and two errors. *)
Lemma process_comments_log_witness :
  heap no_comments_world !! 1%positive = Some (OList []) /\
  exists added,
    log (snd (for_each (enumerate 0 example_comments)
                (fun entry =>
                   process_comment
                     (EmpatheticCodeReviewer.__init__ lm_python
                        (failing_on "Variable 'u' is a bad name."))
                     example_snippet "Python" 3 1%positive (fst entry) (snd entry))
                no_comments_world))
    = [] ++ added /\
    List.filter is_info added
    = [ (INFO, "Processing comment 1/3"); (INFO, "Processing comment 2/3");
        (INFO, "Processing comment 3/3") ] /\
    length (List.filter is_error added) = 2.
Proof.
  assert (Hl : heap no_comments_world !! 1%positive = Some (OList [])) by reflexivity.
  split; [exact Hl|].
  destruct (process_comments_log
              (EmpatheticCodeReviewer.__init__ lm_python
                 (failing_on "Variable 'u' is a bad name."))
              example_snippet "Python" 3 1%positive example_comments 0
              no_comments_world [] Hl)
    as (added & Hlog & Hinfo & _ & Herrors).
  exists added. split; [exact Hlog|]. split; [exact Hinfo | exact Herrors].
Defined.

(** X10, X11 and X12, on the four comments of [four_world]. *)
Lemma generate_markdown_report_key_error_witness :
  heap four_world !! 1%positive = Some (OList four_refs) /\
  refs_to (heap four_world) four_refs four_comments /\
  ((exists report,
      fst (generate_markdown_report example_snippet 1%positive "Fine." "Python" four_world)
      = Ok report) <-> Forall has_required_keys four_comments).
Proof.
  split; [exact four_world_list|]. split; [exact four_world_refs|].
  exact (proj1 (generate_markdown_report_key_error example_snippet "Fine." "Python"
                  1%positive four_refs four_comments four_world
                  four_world_list four_world_refs)).
Defined.

(** A comment without "explanation" makes the rendering raise. *)
Example missing_explanation_example :
  fst (generate_markdown_report example_snippet 1%positive "Fine." "Python"
         (mkWorld [] []
            (list_to_map [(1%positive, OList [2%positive]);
                          (2%positive,
                           ODict (mkDict (Some "first") (Some "Consider.") None
                                         (Some "pass") None None))])))
  = Raise (KeyError "explanation").
Proof. vm_compute. reflexivity. Qed.

Lemma generate_markdown_report_idempotent_witness :
  heap four_world !! 1%positive = Some (OList four_refs) /\
  refs_to (heap four_world) four_refs four_comments /\
  generate_markdown_report example_snippet 1%positive "Fine." "Python"
    (snd (generate_markdown_report example_snippet 1%positive "Fine." "Python" four_world))
  = generate_markdown_report example_snippet 1%positive "Fine." "Python" four_world.
Proof.
  split; [exact four_world_list|]. split; [exact four_world_refs|].
  exact (generate_markdown_report_idempotent example_snippet "Fine." "Python" 1%positive
           four_refs four_comments four_world four_world_list four_world_refs).
Defined.

Lemma generate_markdown_report_envelope_witness :
  exists report middle,
    fst (generate_markdown_report example_snippet 1%positive "Fine." "Python" four_world)
    = Ok report /\
    report = report_head example_snippet "Python" "python" +:+ middle
             +:+ report_tail "" "Fine.".
Proof.
  pose proof (generate_markdown_report_total example_snippet "Fine." "Python" 1%positive
                four_refs four_comments four_world four_world_list four_world_refs
                four_comments_keys) as Hrun.
  destruct (generate_markdown_report_envelope example_snippet "Fine." "Python" _
              1%positive four_world Hrun) as (middle & Hreport & _).
  eexists _, middle. split; [exact Hrun | exact Hreport].
Defined.

(** X13, X14 and X15, on sample comments. *)
Lemma blank_resources_heading_only_witness :
  ((exists text, resources blank_resources = Some (ResStr text) /\ text <> "" /\
                 blank text = true) \/
   (exists items, resources blank_resources = Some (ResList items) /\ items <> [] /\
                  Forall (fun x => blank x = true) items)) /\
  append_resources "" blank_resources = "" +:+ resources_heading +:+ nl +:+ nl.
Proof.
  assert (H : (exists text, resources blank_resources = Some (ResStr text) /\ text <> "" /\
                            blank text = true) \/
              (exists items, resources blank_resources = Some (ResList items) /\
                             items <> [] /\ Forall (fun x => blank x = true) items)).
  { left. eexists. split; [reflexivity|]. split; [discriminate | reflexivity]. }
  split; [exact H|].
  exact (blank_resources_heading_only "" blank_resources H).
Defined.

Lemma string_resources_bullets_witness :
  resources (comment_with "third" "MEDIUM" (Some (ResStr three_lines)))
  = Some (ResStr three_lines) /\
  three_lines <> "" /\
  is_ascii three_lines = true /\
  Forall (fun line => line <> "" /\ strip line = line /\ has_char "010" line = false)
         (resource_lines three_lines).
Proof.
  assert (Hne : three_lines <> "") by discriminate.
  split; [reflexivity|]. split; [exact Hne|]. split; [reflexivity|].
  exact (proj1 (proj2 (string_resources_bullets "" three_lines
                         (comment_with "third" "MEDIUM" (Some (ResStr three_lines)))
                         eq_refl Hne eq_refl))).
Defined.

Lemma section_heading_witness :
  has_required_keys (comment_with "second" "HIGH" None) /\
  exists comment rest,
    original (comment_with "second" "HIGH" None) = Some comment /\
    section_text "python" 1 (comment_with "second" "HIGH" None)
    = "---" +:+ nl +:+ nl +:+ "### " +:+ rank_emoji 0
      +:+ " Analysis of Comment #" +:+ "1" +:+ ": " +:+ dq +:+ comment +:+ dq
      +:+ nl +:+ nl +:+ rest.
Proof.
  assert (Hkeys : has_required_keys (comment_with "second" "HIGH" None))
    by (repeat split; eexists; reflexivity).
  split; [exact Hkeys|].
  exact (section_heading "python" 1 (comment_with "second" "HIGH" None) Hkeys).
Defined.

(** X16 to X20: runs of [main]. *)
Lemma main_without_api_key_witness :
  (getenv (env_with None (Ok lm_python) answering) "OPENROUTER_API_KEY" = None \/
   getenv (env_with None (Ok lm_python) answering) "OPENROUTER_API_KEY" = Some "") /\
  main findall (env_with None (Ok lm_python) answering) start
  = (Exited 1,
     mkProcess empty_world [CallPrint "Please set OPENROUTER_API_KEY environment variable"]).
Proof.
  assert (H : getenv (env_with None (Ok lm_python) answering) "OPENROUTER_API_KEY" = None \/
              getenv (env_with None (Ok lm_python) answering) "OPENROUTER_API_KEY"
              = Some "") by (left; reflexivity).
  split; [exact H|].
  destruct (main_without_api_key findall (env_with None (Ok lm_python) answering) start H)
    as [Hsnd Hfst].
  destruct (main findall (env_with None (Ok lm_python) answering) start) as [st p'].
  cbn [fst snd] in *. now subst.
Defined.

Lemma main_returned_witness :
  main findall (env_with (Some "key") (Ok lm_python) answering) start
  = (Returned, snd (main findall (env_with (Some "key") (Ok lm_python) answering) start)) /\
  exists report,
    io (snd (main findall (env_with (Some "key") (Ok lm_python) answering) start))
    = output_calls report.
Proof.
  assert (H : main findall (env_with (Some "key") (Ok lm_python) answering) start
              = (Returned,
                 snd (main findall (env_with (Some "key") (Ok lm_python) answering) start)))
    by (vm_compute; reflexivity).
  split; [exact H|].
  destruct (main_returned findall _ _ _ H) as (reviewer & w0 & report & _ & _ & _ & Hio & _).
  exists report. exact Hio.
Defined.

Lemma main_exit_status_witness :
  has_api_key (env_with (Some "key") (Ok lm_python) no_summary) /\
  (fst (main findall (env_with (Some "key") (Ok lm_python) no_summary) start) = Returned \/
   fst (main findall (env_with (Some "key") (Ok lm_python) no_summary) start) = Exited 1 /\
   exists e,
     last (log (world (snd (main findall (env_with (Some "key") (Ok lm_python) no_summary)
                              start))))
     = Some (ERROR, "Application error: " +:+ exn_str e)).
Proof.
  assert (H : has_api_key (env_with (Some "key") (Ok lm_python) no_summary))
    by (exists "key"; split; [reflexivity | discriminate]).
  split; [exact H|].
  exact (proj1 (main_exit_status findall (env_with (Some "key") (Ok lm_python) no_summary)
                  start H)).
Defined.

Lemma main_summary_failure_witness :
  has_api_key (env_with (Some "key") (Ok lm_python) no_summary) /\
  fst (main findall (env_with (Some "key") (Ok lm_python) no_summary) start) = Exited 1 /\
  io (snd (main findall (env_with (Some "key") (Ok lm_python) no_summary) start)) = [].
Proof.
  assert (H : has_api_key (env_with (Some "key") (Ok lm_python) no_summary))
    by (exists "key"; split; [reflexivity | discriminate]).
  split; [exact H|].
  apply (main_summary_failure findall (env_with (Some "key") (Ok lm_python) no_summary)
           start no_summary H eq_refl).
  intros history code_snippet all_feedback language. eexists. reflexivity.
Defined.

Example summary_failure_log_example :
  log (world (snd (main findall (env_with (Some "key") (Ok lm_python) no_summary) start)))
  = [ (INFO, "Successfully initialized language model");
      (INFO, "Processing code review...");
      (INFO, "Detected language: Python");
      (INFO, "Processing comment 1/3");
      (INFO, "Processing comment 2/3");
      (INFO, "Processing comment 3/3");
      (ERROR, "Error generating summary: timeout");
      (ERROR, "Application error: cannot access local variable 'summary' where it is not associated with a value") ].
Proof. vm_compute. reflexivity. Qed.

Lemma main_construction_failure_witness :
  has_api_key (env_with (Some "key") (Raise (ServiceError "no network")) answering) /\
  main findall (env_with (Some "key") (Raise (ServiceError "no network")) answering) start
  = (Exited 1,
     mkProcess
       (mkWorld [ (ERROR, "Failed to initialize language model: no network");
                  (ERROR, "Application error: no network") ] [] ∅)
       []).
Proof.
  assert (H : has_api_key (env_with (Some "key") (Raise (ServiceError "no network"))
                             answering))
    by (exists "key"; split; [reflexivity | discriminate]).
  split; [exact H|].
  exact (main_construction_failure findall
           (env_with (Some "key") (Raise (ServiceError "no network")) answering)
           start (ServiceError "no network") H eq_refl).
Defined.

End FurtherRuns.
